(** * Environmental assessment assistant: distance engine and session workflow

    A shallow embedding of [services/distance.py] (geocoding service, token
    manager, geographic calculator, distance calculator), of the websocket
    handlers of [routers/testing.py] and of the streaming and the factory
    of [services/summarizer.py], with the properties the specification
    states about them and further properties read off the code.

    Conventions of the embedding:
    - a Python [str] is a [string]; a character of type [ascii] stands for
      the code point of the same number (U+0000 .. U+00FF);
    - a Python [float] is a primitive binary64 [float];
    - a Python [int] is a [Z];
    - an exception is a value of [PyExc]; code that can raise returns
      [PyResult A];
    - the network (geocoder, language models, PDF tools) is an abstract
      [World] threaded through every call that touches it. *)

From Stdlib Require Import List String Ascii Bool ZArith Lia Arith.
From Stdlib Require Import Floats DecimalString.
Import ListNotations.

Set Implicit Arguments.
Set Warnings "-inexact-float".

(* ================================================================= *)
(** ** Python values *)

Module Py.

Open Scope string_scope.

(** *** Exceptions *)

Record PyExc : Type := Raise { exc_type : string; exc_msg : string }.

Definition PyResult (A : Type) : Type := (PyExc + A)%type.

Definition ok {A} (a : A) : PyResult A := inr a.
Definition raise {A} (ty msg : string) : PyResult A := inl (Raise ty msg).

Definition bind {A B} (m : PyResult A) (k : A -> PyResult B) : PyResult B :=
  match m with
  | inl e => inl e
  | inr a => k a
  end.

(** [str(e)] for an exception [e]. *)
Definition str_exc (e : PyExc) : string := exc_msg e.

(** *** Strings *)

Definition code (c : ascii) : nat := nat_of_ascii c.

(** [c.lower()] on U+0000 .. U+00FF: A-Z, and the Latin-1 capitals
    U+00C0 .. U+00DE except the multiplication sign U+00D7. *)
Definition lower_char (c : ascii) : ascii :=
  let n := code c in
  if (((65 <=? n) && (n <=? 90))
      || ((192 <=? n) && (n <=? 222) && negb (n =? 215)))%nat
  then ascii_of_nat (n + 32)
  else c.

Fixpoint lower (s : string) : string :=
  match s with
  | EmptyString => EmptyString
  | String c r => String (lower_char c) (lower r)
  end.

(** [c.isspace()] on U+0000 .. U+00FF. *)
Definition isspace (c : ascii) : bool :=
  let n := code c in
  (((9 <=? n) && (n <=? 13)) || ((28 <=? n) && (n <=? 32))
   || (n =? 133) || (n =? 160))%nat.

Fixpoint lstrip (s : string) : string :=
  match s with
  | EmptyString => EmptyString
  | String c r => if isspace c then lstrip r else s
  end.

Fixpoint rstrip (s : string) : string :=
  match s with
  | EmptyString => EmptyString
  | String c r =>
      match rstrip r with
      | EmptyString => if isspace c then EmptyString else String c EmptyString
      | r' => String c r'
      end
  end.

(** [s.strip()] *)
Definition strip (s : string) : string := rstrip (lstrip s).

(** [pat in text] *)
Fixpoint contains (pat text : string) : bool :=
  String.prefix pat text
  || match text with
     | EmptyString => false
     | String _ r => contains pat r
     end.

(** [s.split(sep)] for a one-character separator. *)
Fixpoint split (sep : ascii) (s : string) : list string :=
  match s with
  | EmptyString => [EmptyString]
  | String c r =>
      if Ascii.eqb c sep then EmptyString :: split sep r
      else match split sep r with
           | [] => [String c EmptyString]
           | w :: ws => String c w :: ws
           end
  end.

(** Truthiness of a [str], and of an optional value that is either [None]
    or a [str]. *)
Definition truthy_str (s : string) : bool :=
  match s with EmptyString => false | _ => true end.

Definition truthy_opt_str (o : option string) : bool :=
  match o with None => false | Some s => truthy_str s end.

Definition truthy_list {A} (l : list A) : bool :=
  match l with [] => false | _ => true end.

(** [any(p(x) for x in l)] *)
Definition any {A} (p : A -> bool) (l : list A) : bool := existsb p l.

(** [l[i]] for a list: negative indices count from the end, anything else
    out of range raises. *)
Definition getitem {A} (l : list A) (i : Z) : PyResult A :=
  let n := Z.of_nat (List.length l) in
  let j := (if i <? 0 then n + i else i)%Z in
  if ((0 <=? j) && (j <? n))%Z then
    match nth_error l (Z.to_nat j) with
    | Some a => ok a
    | None => raise "IndexError" "list index out of range"
    end
  else raise "IndexError" "list index out of range".

(** *** Floats (IEEE 754 binary64) *)

(** [float(n)] for an [int]: the nearest binary64 value. *)
Definition float_of_int (n : Z) : float :=
  SF2Prim (binary_normalize prec emax n 0 false).

(** [x / y] *)
Definition float_div (x y : float) : PyResult float :=
  if (y =? 0)%float then raise "ZeroDivisionError" "float division by zero"
  else ok (x / y)%float.

(** C's [fmod]: the exact remainder of the magnitudes, with the sign of
    the dividend. *)
Definition SFfmod (x y : spec_float) : spec_float :=
  match x, y with
  | S754_nan, _ | _, S754_nan => S754_nan
  | S754_infinity _, _ => S754_nan
  | _, S754_zero _ => S754_nan
  | _, S754_infinity _ => x
  | S754_zero _, _ => x
  | S754_finite sx mx ex, S754_finite _ my ey =>
      let e := Z.min ex ey in
      let r := ((Zpos mx * 2 ^ (ex - e)) mod (Zpos my * 2 ^ (ey - e)))%Z in
      match r with
      | Z0 => S754_zero sx
      | _ => binary_normalize prec emax (if sx then (- r)%Z else r) e false
      end
  end.

Definition fmod (x y : float) : float := SF2Prim (SFfmod (Prim2SF x) (Prim2SF y)).

(** [vx % wx] ([float_rem] of CPython): the remainder takes the sign of
    the divisor. *)
Definition float_mod (vx wx : float) : PyResult float :=
  if (wx =? 0)%float then raise "ZeroDivisionError" "float modulo"
  else
    let m := fmod vx wx in
    if (m =? 0)%float then ok (if (wx <? 0)%float then neg_zero else zero)
    else if Bool.eqb (wx <? 0)%float (m <? 0)%float then ok m
         else ok (m + wx)%float.

(** A number: neither NaN nor an infinity ([math.isfinite]). *)
Definition finite_or_zero (x : spec_float) : Prop :=
  match x with
  | S754_zero _ | S754_finite _ _ _ => True
  | _ => False
  end.

(** The integer nearest to [num / den] ([den > 0]), ties to the even one. *)
Definition round_half_even (num den : Z) : Z :=
  let q := (num / den)%Z in
  let r := (num mod den)%Z in
  match (2 * r ?= den)%Z with
  | Lt => q
  | Gt => (q + 1)%Z
  | Eq => if Z.even q then q else (q + 1)%Z
  end.

(** The magnitude [m * 2^e * scale] rounded to an integer, ties to even. *)
Definition round_scaled (m : positive) (e : Z) (scale : Z) : Z :=
  match e with
  | Zneg p => round_half_even (Zpos m * scale) (2 ^ Zpos p)
  | _ => (Zpos m * scale * 2 ^ e)%Z
  end.

(** [round(x)]: an [int], ties to even; NaN and the infinities raise. *)
Definition round_int (x : float) : PyResult Z :=
  match Prim2SF x with
  | S754_nan => raise "ValueError" "cannot convert float NaN to integer"
  | S754_infinity _ =>
      raise "OverflowError" "cannot convert float infinity to integer"
  | S754_zero _ => ok 0%Z
  | S754_finite s m e =>
      let n := round_scaled m e 1 in
      ok (if s then (- n)%Z else n)
  end.

(** The binary64 value nearest to [num / den]. *)
Definition nearest_float (s : bool) (num den : positive) : spec_float :=
  let '(mz, ez, lz) := SFdiv_core_binary prec emax (Zpos num) 0 (Zpos den) 0 in
  binary_round_aux prec emax s mz ez lz.

(** [round(x, 1)]: the exact value of [x] is rounded to one decimal, ties
    to even, and the decimal is read back as a [float]; NaN, the
    infinities and the zeros round to themselves. *)
Definition round1 (x : float) : float :=
  match Prim2SF x with
  | S754_finite s m e =>
      match round_scaled m e 10 with
      | Zpos n => SF2Prim (nearest_float s n 10)
      | _ => if s then neg_zero else zero
      end
  | _ => x
  end.

End Py.

(* ================================================================= *)
(** ** [routers/testing.py]: direction keywords *)

Module Keywords.

Import Py.
Open Scope string_scope.

(** The dictionary literal of [extract_groundwater_direction]; a [dict]
    iterates in insertion order, which the association list keeps. *)
Definition direction_patterns : list (string * string) :=
  [ ("north", "N"); ("south", "S"); ("east", "E"); ("west", "W");
    ("northeast", "NE"); ("northwest", "NW");
    ("southeast", "SE"); ("southwest", "SW");
    ("ne", "NE"); ("nw", "NW"); ("se", "SE"); ("sw", "SW");
    ("n ", "N"); ("e ", "E"); ("s ", "S"); ("w ", "W") ].

Fixpoint first_match (items : list (string * string)) (text_lower : string)
  : option string :=
  match items with
  | [] => None
  | (pattern, direction) :: rest =>
      if contains pattern text_lower then Some direction
      else first_match rest text_lower
  end.

Definition extract_groundwater_direction (text : string) : option string :=
  let text_lower := lower text in
  first_match direction_patterns text_lower.

End Keywords.

(* ================================================================= *)
(** ** [services/distance.py] *)

Module Distance.

Import Py.
Open Scope string_scope.

(** What [Geodesic.WGS84.Inverse] returns, as far as the code reads it. *)
Record GeodesicDict : Type := { s12 : float; azi1 : float }.

Record DistanceResult : Type :=
  { address : string;
    distance_ft : float;
    direction : string;
    bearing_deg : float }.

Record FailureRecord : Type :=
  { failed_address : string;
    error : string }.

Record DistanceBatchResult : Type :=
  { subject_address : string;
    distances : list DistanceResult;
    failed : list FailureRecord }.

Definition names8 : list string :=
  ["N"; "NE"; "E"; "SE"; "S"; "SW"; "W"; "NW"].

Definition names16 : list string :=
  ["N"; "NNE"; "NE"; "ENE"; "E"; "ESE"; "SE"; "SSE";
   "S"; "SSW"; "SW"; "WSW"; "W"; "WNW"; "NW"; "NNW"].

(** [GeographicCalculator._compass_label] *)
Definition _compass_label (bearing_degrees : float) (num_points : Z)
  : PyResult string :=
  let names := if (num_points =? 8)%Z then names8 else names16 in
  let len_names := Z.of_nat (List.length names) in
  bind (float_div 360 (float_of_int len_names)) (fun width =>
  bind (float_div bearing_degrees width) (fun q =>
  bind (round_int q) (fun r =>
  let sector := (r mod len_names)%Z in
  getitem names sector))).

Section Services.

(** The geometry dictionaries of the geocoder, and the objects of
    shapely and geographiclib: libraries outside the repository. *)
Variable GeoJSON : Type.
Variable Geom : Type.
Variable shape : GeoJSON -> PyResult Geom.
Variable nearest_points : Geom -> Geom -> PyResult (Geom * Geom).
Variable representative_point : Geom -> PyResult Geom.
Variable point_x point_y : Geom -> PyResult float.
Variable Inverse : float -> float -> float -> float -> GeodesicDict.

(** [GeographicCalculator._azimuth_degrees] *)
Definition _azimuth_degrees (lat1 lon1 lat2 lon2 : float) : PyResult float :=
  let inv := Inverse lat1 lon1 lat2 lon2 in
  float_mod (azi1 inv + 360)%float 360.

(** [GeographicCalculator.distance_and_direction] *)
Definition distance_and_direction (geometry1 geometry2 : GeoJSON)
    (zero_threshold_m : float) (compass_points : Z)
  : PyResult (float * float * string) :=
  bind (shape geometry1) (fun g1 =>
  bind (shape geometry2) (fun g2 =>
  bind (nearest_points g1 g2) (fun '(p1, p2) =>
  bind (point_y p1) (fun p1y =>
  bind (point_x p1) (fun p1x =>
  bind (point_y p2) (fun p2y =>
  bind (point_x p2) (fun p2x =>
  let inv := Inverse p1y p1x p2y p2x in
  let distance_m := s12 inv in
  if (zero_threshold_m <=? distance_m)%float then
    bind (float_mod (azi1 inv + 360)%float 360) (fun bearing =>
    bind (_compass_label bearing compass_points) (fun label =>
    ok (distance_m, bearing, label)))
  else
    bind (representative_point g1) (fun r1 =>
    bind (representative_point g2) (fun r2 =>
    bind (point_y r1) (fun r1y =>
    bind (point_x r1) (fun r1x =>
    bind (point_y r2) (fun r2y =>
    bind (point_x r2) (fun r2x =>
    bind (_azimuth_degrees r1y r1x r2y r2x) (fun bearing =>
    let inv2 := Inverse r1y r1x r2y r2x in
    bind (_compass_label bearing compass_points) (fun label =>
    ok (s12 inv2, bearing, label)))))))))))))))).

(** The geocoding service, [PreciselyGeocodeService.get_geometry]: an
    HTTP lookup that catches every exception and answers [None] or a
    geometry dictionary that is not empty. *)
Variable World : Type.
Variable get_geometry : string -> World -> option GeoJSON * World.

(** The loop of [calculate_distances] over the surrounding addresses,
    with the two lists it appends to. *)
Fixpoint surrounding_loop (subject_geometry : GeoJSON)
    (surrounding_addresses : list string)
    (results : list DistanceResult) (failed : list FailureRecord)
    (w : World) : list DistanceResult * list FailureRecord * World :=
  match surrounding_addresses with
  | [] => (results, failed, w)
  | address :: rest =>
      let (geometry, w') := get_geometry address w in
      match geometry with
      | None =>
          surrounding_loop subject_geometry rest results
            (failed ++ [ {| failed_address := address;
                            error := "Geocoding failed" |} ]) w'
      | Some geometry =>
          match distance_and_direction subject_geometry geometry 1 8 with
          | inr (distance_m, bearing_deg, direction) =>
              surrounding_loop subject_geometry rest
                (results ++ [ {| address := address;
                                 distance_ft := round1 (distance_m * 3.28084)%float;
                                 direction := direction;
                                 bearing_deg := round1 bearing_deg |} ])
                failed w'
          | inl e =>
              surrounding_loop subject_geometry rest results
                (failed ++ [ {| failed_address := address;
                                error := "Distance calculation failed: "
                                         ++ str_exc e |} ]) w'
          end
      end
  end.

(** [PreciselyDistanceCalculator.calculate_distances] *)
Definition calculate_distances (subject_address : string)
    (surrounding_addresses : list string) (w : World)
  : PyResult DistanceBatchResult * World :=
  let (subject_geometry, w1) := get_geometry subject_address w in
  match subject_geometry with
  | None =>
      (raise "RuntimeError"
         ("Could not geocode subject address: " ++ subject_address), w1)
  | Some subject_geometry =>
      let '(results, failed, w2) :=
        surrounding_loop subject_geometry surrounding_addresses [] [] w1 in
      (ok {| subject_address := subject_address;
             distances := results;
             failed := failed |}, w2)
  end.

End Services.

End Distance.

(* ================================================================= *)
(** ** [services/distance.py]: the geocoding service *)

Module Geocode.

Import Py.
Open Scope string_scope.

Set Warnings "-register-all".

(** What [response.json()] returns: a decoded JSON document. A [dict] is
    the list of its items in insertion order, each key once. *)
Inductive Value : Type :=
| VNone
| VBool (b : bool)
| VInt (n : Z)
| VFloat (f : float)
| VStr (s : string)
| VList (l : list Value)
| VDict (d : list (string * Value)).

Definition type_name (v : Value) : string :=
  match v with
  | VNone => "NoneType"
  | VBool _ => "bool"
  | VInt _ => "int"
  | VFloat _ => "float"
  | VStr _ => "str"
  | VList _ => "list"
  | VDict _ => "dict"
  end.

(** Truth value testing. *)
Definition truthy (v : Value) : bool :=
  match v with
  | VNone => false
  | VBool b => b
  | VInt n => negb (n =? 0)%Z
  | VFloat f => negb (f =? 0)%float
  | VStr s => truthy_str s
  | VList l => match l with [] => false | _ => true end
  | VDict d => match d with [] => false | _ => true end
  end.

Fixpoint lookup (key : string) (d : list (string * Value)) : option Value :=
  match d with
  | [] => None
  | (k, v) :: rest => if String.eqb k key then Some v else lookup key rest
  end.

(** [v.get(key, default)]: a method of [dict] alone. *)
Definition get (v : Value) (key : string) (default : Value) : PyResult Value :=
  match v with
  | VDict d =>
      ok (match lookup key d with Some x => x | None => default end)
  | _ =>
      raise "AttributeError"
        ("'" ++ type_name v ++ "' object has no attribute 'get'")
  end.

(** [isinstance(v, list)] and [isinstance(v, dict)] *)
Definition is_list (v : Value) : bool :=
  match v with VList _ => true | _ => false end.

Definition is_dict (v : Value) : bool :=
  match v with VDict _ => true | _ => false end.

(** [a or b], both already evaluated. *)
Definition or_ (a b : Value) : Value := if truthy a then a else b.

Section Service.

(** [float(s)] for a [str]: the parser of the interpreter. *)
Variable float_of_str : string -> PyResult float.

(** [float(v)] *)
Definition float_ (v : Value) : PyResult float :=
  match v with
  | VFloat f => ok f
  | VInt n =>
      let f := float_of_int n in
      if is_infinity f
      then raise "OverflowError" "int too large to convert to float"
      else ok f
  | VBool b => ok (if b then 1%float else 0%float)
  | VStr s => float_of_str s
  | _ =>
      raise "TypeError"
        ("float() argument must be a string or a real number, not '"
         ++ type_name v ++ "'")
  end.

(** The body of [get_geometry] from [data = response.json()] on, with the
    exceptions it can raise. *)
Definition geometry_of_response (data : Value) : PyResult (option Value) :=
  bind (get data "geometry" VNone) (fun geom =>
  bind (if truthy geom
        then bind (get geom "coordinates" VNone) (fun c => ok (is_list c))
        else ok false) (fun has_geometry =>
  if has_geometry then ok (Some geom)
  else
    bind (get data "center" (VDict [])) (fun center =>
    bind (get center "coordinates" VNone) (fun coords =>
    bind (if is_dict coords then
            bind (get coords "x" VNone) (fun x =>
            bind (if truthy x then ok x else get coords "longitude" VNone) (fun lon =>
            bind (get coords "y" VNone) (fun y =>
            bind (if truthy y then ok y else get coords "latitude" VNone) (fun lat =>
            ok (VList [lon; lat])))))
          else ok coords) (fun coords =>
    match coords with
    | VList [c0; c1] =>
        bind (get center "type" (VStr "Point")) (fun type =>
        bind (float_ c0) (fun lon =>
        bind (float_ c1) (fun lat =>
        ok (Some (VDict [("type", type);
                         ("coordinates", VList [VFloat lon; VFloat lat])])))))
    | _ => ok None
    end))))).

(** The clock and the two endpoints. [post_token] is the request for a
    token up to [response.json()], [get_parcel] the request for a parcel
    with the token in its header, up to [response.json()]. *)
Variable World : Type.
Variable time : World -> float * World.
Variable post_token : World -> PyResult Value * World.
Variable get_parcel : string -> Value -> World -> PyResult Value * World.

(** The fields of [TokenManager] that change. *)
Record TokenManager : Type :=
  { token : Value;
    expiry : float }.

(** [TokenManager.__init__] *)
Definition new_token_manager : TokenManager :=
  {| token := VNone; expiry := 0 |}.

Definition is_none (v : Value) : bool :=
  match v with VNone => true | _ => false end.

(** [TokenManager.get_token] *)
Definition get_token (tm : TokenManager) (w : World)
  : PyResult Value * TokenManager * World :=
  let (now, w1) := time w in
  if is_none (token tm) || (expiry tm - 60 <=? now)%float then
    let (response, w2) := post_token w1 in
    match response with
    | inl e => (inl e, tm, w2)
    | inr data =>
        match get data "access_token" VNone with
        | inl e => (inl e, tm, w2)
        | inr access_token =>
            let tm1 := {| token := access_token; expiry := expiry tm |} in
            match bind (get data "expires_in" (VInt 3600)) (fun default =>
                  bind (get data "expiresIn" default) float_) with
            | inl e => (inl e, tm1, w2)
            | inr lifetime =>
                let tm2 := {| token := access_token;
                              expiry := (now + lifetime)%float |} in
                (ok (token tm2), tm2, w2)
            end
        end
    end
  else (ok (token tm), tm, w1).

(** [PreciselyGeocodeService.get_geometry]: every exception of the [try]
    block, the token request included, ends in [None]. *)
Definition get_geometry (address : string) (st : TokenManager * World)
  : option Value * (TokenManager * World) :=
  let '(tm, w) := st in
  let '(header, tm1, w1) := get_token tm w in
  match header with
  | inl _ => (None, (tm1, w1))
  | inr bearer =>
      let (response, w2) := get_parcel address bearer w1 in
      match bind response geometry_of_response with
      | inl _ => (None, (tm1, w2))
      | inr geometry => (geometry, (tm1, w2))
      end
  end.

End Service.

End Geocode.

(* ================================================================= *)
(** ** [services/summarizer.py]: streaming and the factory *)

Module Summarizer.

Import Py.
Open Scope string_scope.

(** [c.upper()] on U+0000 .. U+00FF, as code points: the micro sign, the
    sharp s and the y with diaeresis leave the range. *)
Definition upper_char (c : ascii) : list nat :=
  let n := code c in
  if ((97 <=? n) && (n <=? 122))%nat then [n - 32]%nat
  else if (n =? 181)%nat then [924]%nat
  else if (n =? 223)%nat then [83; 83]%nat
  else if ((224 <=? n) && (n <=? 254) && negb (n =? 247))%nat then [n - 32]%nat
  else if (n =? 255)%nat then [376]%nat
  else [n].

(** [s.upper()] *)
Definition upper (s : string) : list nat :=
  flat_map upper_char (list_ascii_of_string s).

Definition code_points (s : string) : list nat :=
  map code (list_ascii_of_string s).

Fixpoint same_codes (l1 l2 : list nat) : bool :=
  match l1, l2 with
  | [], [] => true
  | a :: r1, b :: r2 => (a =? b)%nat && same_codes r1 r2
  | _, _ => false
  end.

(** [s.upper() == literal] *)
Definition upper_is (s literal : string) : bool :=
  same_codes (upper s) (code_points literal).

(** The classes the factory instantiates. *)
Inductive SectionSummarizer : Type :=
| EDRSection521Summarizer
| EDRSection522Summarizer
| ERISSection523Summarizer
| ERISSection524Summarizer
| IntelligentChatSummarizer.

(** [SummarizerFactory.get_summarizer] *)
Definition get_summarizer (report_type section : string)
  : PyResult SectionSummarizer :=
  let unknown :=
    raise "ValueError"
      ("Unknown report type '" ++ report_type ++ "' or section '" ++ section ++ "'") in
  if upper_is report_type "EDR" then
    if String.eqb section "5.2.1" then ok EDRSection521Summarizer
    else if String.eqb section "5.2.2" then ok EDRSection522Summarizer
    else unknown
  else if upper_is report_type "ERIS" then
    if String.eqb section "5.2.3" then ok ERISSection523Summarizer
    else if String.eqb section "5.2.4" then ok ERISSection524Summarizer
    else unknown
  else if String.eqb section "chat" then ok IntelligentChatSummarizer
  else unknown.

(** An event of the message stream: a text delta, or an event of another
    type. *)
Inductive Chunk : Type :=
| ContentBlockDelta (text : string)
| OtherEvent (type : string).

Definition break_chars : list ascii :=
  [" "; "010"; "."; "!"; "?"; ":"; ";"; ","]%char.

(** [any(char in buffer for char in [...])] *)
Definition has_break (buffer : string) : bool :=
  any (fun char => contains (String char EmptyString) buffer) break_chars.

(** The [for] loop of [_stream_response], with the messages sent so far. *)
Fixpoint stream_loop (chunks : list Chunk) (full_content buffer : string)
    (sent : list string) : string * string * list string :=
  match chunks with
  | [] => (full_content, buffer, sent)
  | ContentBlockDelta text_chunk :: rest =>
      let full_content := full_content ++ text_chunk in
      let buffer := buffer ++ text_chunk in
      if has_break buffer
      then stream_loop rest full_content "" (sent ++ [buffer])%list
      else stream_loop rest full_content buffer sent
  | OtherEvent _ :: rest => stream_loop rest full_content buffer sent
  end.

(** [ClaudeSummarizer._stream_response]: [client] is the outcome of
    [_get_client], [chunks] the events the stream yields and [failure] the
    exception, if any, that ends it. The result comes with the messages
    sent on the websocket. *)
Definition _stream_response (client : PyResult unit) (chunks : list Chunk)
    (failure : option PyExc) : PyResult string * list string :=
  match client with
  | inl e => (inl e, [])
  | inr _ =>
      let '(full_content, buffer, sent) := stream_loop chunks "" "" [] in
      match failure with
      | Some e => (inl e, sent)
      | None =>
          (ok (strip full_content),
           if truthy_str buffer then (sent ++ [buffer])%list else sent)
      end
  end.

(** The text of a stream: its deltas, one after the other. *)
Fixpoint delta_text (chunks : list Chunk) : string :=
  match chunks with
  | [] => ""
  | ContentBlockDelta text_chunk :: rest => text_chunk ++ delta_text rest
  | OtherEvent _ :: rest => delta_text rest
  end.

End Summarizer.

(* ================================================================= *)
(** ** [routers/testing.py]: the session and its handlers *)

Module Testing.

Import Py Keywords.
Open Scope string_scope.

(** [str(n)] for a length. *)
Definition str_nat (n : nat) : string := NilZero.string_of_uint (Nat.to_uint n).

(** [str(v)] for a value that is [None] or a [str]. *)
Definition str_opt (o : option string) : string :=
  match o with None => "None" | Some s => s end.

(** [d.get(key, default)] *)
Definition get_default {A} (o : option A) (default : A) : A :=
  match o with None => default | Some a => a end.

(** [d[key]] *)
Definition getkey {A} (key : string) (o : option A) : PyResult A :=
  match o with
  | None => raise "KeyError" ("'" ++ key ++ "'")
  | Some a => ok a
  end.

(** [s[:n]] *)
Definition take_str (n : nat) (s : string) : string := substring 0 n s.

(** A processed PDF, as stored in the session. *)
Record Document : Type :=
  { filename : string;
    text : string;
    formatted : string;
    echo_summary : option string }.

(** What a summarizer's [generate_section_streaming] returns: a dictionary
    for the subject sections, the text for the others. *)
Inductive SectionResult : Type :=
| ResultDict (section_content subject_address : option string)
| ResultStr (content : string).

(** The keyword arguments of [generate_section_streaming]. *)
Record GenArgs : Type :=
  { arg_subject_address : option (option string);
    arg_groundwater_flow : option string;
    arg_distance_data : option Distance.DistanceBatchResult;
    arg_temperature : option float;
    arg_max_tokens : option Z }.

Definition no_args : GenArgs :=
  {| arg_subject_address := None; arg_groundwater_flow := None;
     arg_distance_data := None; arg_temperature := None;
     arg_max_tokens := None |}.

(** The session dictionary. A key that is absent and a key bound to
    [None] both read as [None] through [.get]; the keys of the second
    group are absent until a handler sets them. *)
Record Session : Type :=
  { report_type : option string;
    main_document : option Document;
    surrounding_documents : list Document;
    subject_address : option string;
    section_content : option string;
    workflow_stage : string;
    (* set by the chat handler only *)
    surrounding_addresses : option (list string);
    awaiting_addresses : option bool;
    awaiting_groundwater : option bool;
    surrounding_section : option SectionResult }.

(** The dictionary [websocket_endpoint] starts with and [clear_session]
    resets to. *)
Definition initial_session : Session :=
  {| report_type := None;
     main_document := None;
     surrounding_documents := [];
     subject_address := None;
     section_content := None;
     workflow_stage := "awaiting_report_selection";
     surrounding_addresses := None;
     awaiting_addresses := None;
     awaiting_groundwater := None;
     surrounding_section := None |}.

Definition set_report_type v (s : Session) : Session :=
  {| report_type := v; main_document := main_document s;
     surrounding_documents := surrounding_documents s;
     subject_address := subject_address s;
     section_content := section_content s;
     workflow_stage := workflow_stage s;
     surrounding_addresses := surrounding_addresses s;
     awaiting_addresses := awaiting_addresses s;
     awaiting_groundwater := awaiting_groundwater s;
     surrounding_section := surrounding_section s |}.

Definition set_main_document v (s : Session) : Session :=
  {| report_type := report_type s; main_document := v;
     surrounding_documents := surrounding_documents s;
     subject_address := subject_address s;
     section_content := section_content s;
     workflow_stage := workflow_stage s;
     surrounding_addresses := surrounding_addresses s;
     awaiting_addresses := awaiting_addresses s;
     awaiting_groundwater := awaiting_groundwater s;
     surrounding_section := surrounding_section s |}.

Definition set_surrounding_documents v (s : Session) : Session :=
  {| report_type := report_type s; main_document := main_document s;
     surrounding_documents := v;
     subject_address := subject_address s;
     section_content := section_content s;
     workflow_stage := workflow_stage s;
     surrounding_addresses := surrounding_addresses s;
     awaiting_addresses := awaiting_addresses s;
     awaiting_groundwater := awaiting_groundwater s;
     surrounding_section := surrounding_section s |}.

Definition set_subject_address v (s : Session) : Session :=
  {| report_type := report_type s; main_document := main_document s;
     surrounding_documents := surrounding_documents s;
     subject_address := v;
     section_content := section_content s;
     workflow_stage := workflow_stage s;
     surrounding_addresses := surrounding_addresses s;
     awaiting_addresses := awaiting_addresses s;
     awaiting_groundwater := awaiting_groundwater s;
     surrounding_section := surrounding_section s |}.

Definition set_section_content v (s : Session) : Session :=
  {| report_type := report_type s; main_document := main_document s;
     surrounding_documents := surrounding_documents s;
     subject_address := subject_address s;
     section_content := v;
     workflow_stage := workflow_stage s;
     surrounding_addresses := surrounding_addresses s;
     awaiting_addresses := awaiting_addresses s;
     awaiting_groundwater := awaiting_groundwater s;
     surrounding_section := surrounding_section s |}.

Definition set_workflow_stage v (s : Session) : Session :=
  {| report_type := report_type s; main_document := main_document s;
     surrounding_documents := surrounding_documents s;
     subject_address := subject_address s;
     section_content := section_content s;
     workflow_stage := v;
     surrounding_addresses := surrounding_addresses s;
     awaiting_addresses := awaiting_addresses s;
     awaiting_groundwater := awaiting_groundwater s;
     surrounding_section := surrounding_section s |}.

Definition set_surrounding_addresses v (s : Session) : Session :=
  {| report_type := report_type s; main_document := main_document s;
     surrounding_documents := surrounding_documents s;
     subject_address := subject_address s;
     section_content := section_content s;
     workflow_stage := workflow_stage s;
     surrounding_addresses := v;
     awaiting_addresses := awaiting_addresses s;
     awaiting_groundwater := awaiting_groundwater s;
     surrounding_section := surrounding_section s |}.

Definition set_awaiting_addresses v (s : Session) : Session :=
  {| report_type := report_type s; main_document := main_document s;
     surrounding_documents := surrounding_documents s;
     subject_address := subject_address s;
     section_content := section_content s;
     workflow_stage := workflow_stage s;
     surrounding_addresses := surrounding_addresses s;
     awaiting_addresses := v;
     awaiting_groundwater := awaiting_groundwater s;
     surrounding_section := surrounding_section s |}.

Definition set_awaiting_groundwater v (s : Session) : Session :=
  {| report_type := report_type s; main_document := main_document s;
     surrounding_documents := surrounding_documents s;
     subject_address := subject_address s;
     section_content := section_content s;
     workflow_stage := workflow_stage s;
     surrounding_addresses := surrounding_addresses s;
     awaiting_addresses := awaiting_addresses s;
     awaiting_groundwater := v;
     surrounding_section := surrounding_section s |}.

Definition set_surrounding_section v (s : Session) : Session :=
  {| report_type := report_type s; main_document := main_document s;
     surrounding_documents := surrounding_documents s;
     subject_address := subject_address s;
     section_content := section_content s;
     workflow_stage := workflow_stage s;
     surrounding_addresses := surrounding_addresses s;
     awaiting_addresses := awaiting_addresses s;
     awaiting_groundwater := awaiting_groundwater s;
     surrounding_section := v |}.

(** Truthiness of [session.get(flag)] for a flag that is absent, [True]
    or [False]. *)
Definition flag (o : option bool) : bool :=
  match o with Some true => true | _ => false end.

(** The inbound messages, after [json.loads]: the fields the handlers read
    ([None] for a field the message does not have). *)
Record UploadMessage : Type :=
  { reportType : option string;
    data : option string;
    upload_filename : option string }.

Record ChatMessage : Type :=
  { content : option string }.

Inductive Message : Type :=
| FileUpload (m : UploadMessage)
| Chat (m : ChatMessage)
| ClearSession
| OtherType.

(** A text frame: a JSON object, or text that [json.loads] rejects. *)
Inductive Frame : Type :=
| Json (m : Message)
| NotJson.

Section Handlers.

(** The collaborators: everything below is outside the handlers. *)
Variable World : Type.
Variable Bytes : Type.
Variable EchoService : Type.
Variable b64decode : string -> PyResult Bytes.
(** [extractor.extract(pdf_bytes, filename).get("text", "")] *)
Variable extract : Bytes -> string -> World -> PyResult string * World.
(** [EchoServiceFactory.create_service] and [get_compliance_summary] *)
Variable create_service : string -> World -> PyResult EchoService * World.
Variable get_compliance_summary :
  EchoService -> string -> World -> PyResult (option string) * World.
(** [edr_formatter.format] and [eris_formatter.format] *)
Variable edr_format eris_format : string -> World -> PyResult string * World.
(** [SummarizerFactory.get_summarizer(report_type, section)] followed by
    its [generate_section_streaming(websocket, text, **kwargs)]: the
    result, the chunks streamed to the socket meanwhile, the world after. *)
Variable generate_section_streaming :
  string -> string -> string -> GenArgs -> World ->
  PyResult SectionResult * list string * World.
(** The injected [distance_calculator.calculate_distances]; the subject
    address is whatever the session holds, [None] or a [str]. *)
Variable calculate_distances :
  option string -> list string -> World ->
  PyResult Distance.DistanceBatchResult * World.
(** [str(l)] for the list of failure dictionaries. *)
Variable str_failed : list Distance.FailureRecord -> string.

(** The state a handler runs in: the world, the session dictionary
    (mutated in place, so it keeps its updates when a handler raises),
    and the text sent on the socket so far. The socket is open while a
    message is handled. *)
Record St : Type :=
  { world : World;
    session : Session;
    outbox : list string }.

Definition M (A : Type) : Type := St -> PyResult A * St.

Definition ret {A} (a : A) : M A := fun st => (ok a, st).

Definition bindM {A B} (m : M A) (k : A -> M B) : M B :=
  fun st =>
    match m st with
    | (inl e, st') => (inl e, st')
    | (inr a, st') => k a st'
    end.

Notation "x <- c1 ;; c2" := (bindM c1 (fun x => c2))
  (at level 61, c1 at next level, right associativity).
Notation "c1 ;; c2" := (bindM c1 (fun _ => c2))
  (at level 61, right associativity).

Definition lift {A} (r : PyResult A) : M A := fun st => (r, st).

(** A call into a collaborator. *)
Definition call {A} (f : World -> PyResult A * World) : M A :=
  fun st =>
    let (r, w) := f (world st) in
    (r, {| world := w; session := session st; outbox := outbox st |}).

(** [try: body / except Exception as e: handler(e)] *)
Definition try_except {A} (body : M A) (handler : PyExc -> M A) : M A :=
  fun st =>
    match body st with
    | (inl e, st') => handler e st'
    | (inr a, st') => (inr a, st')
    end.

(** [await websocket.send_text(s)] *)
Definition send_text (s : string) : M unit :=
  fun st =>
    (ok tt, {| world := world st; session := session st;
               outbox := outbox st ++ [s] |}).

Definition get_session : M Session := fun st => (ok (session st), st).

Definition update (f : Session -> Session) : M unit :=
  fun st =>
    (ok tt, {| world := world st; session := f (session st);
               outbox := outbox st |}).

(** The summarizer call: its chunks reach the socket whether it returns
    or raises. *)
Definition summarize (report_type section body : string) (args : GenArgs)
  : M SectionResult :=
  fun st =>
    let '(r, chunks, w) :=
      generate_section_streaming report_type section body args (world st) in
    (r, {| world := w; session := session st;
           outbox := outbox st ++ chunks |}).

Fixpoint for_each {A} (l : list A) (body : A -> M unit) : M unit :=
  match l with
  | [] => ret tt
  | a :: rest => body a ;; for_each rest body
  end.

(** [clear_session] *)
Definition clear_session : M unit :=
  update (fun _ => initial_session) ;;
  send_text "Session cleared successfully.".

Definition nl : string := String (ascii_of_nat 10) EmptyString.

Definition is_edr (report_type : string) : bool := String.eqb report_type "EDR".

(** The text given to the subject-section summarizer when ECHO data was
    found. *)
Definition enhanced_context_main (formatted echo_summary section_number : string)
  : string :=
  "Environmental Database Document Content:" ++ nl
  ++ formatted ++ nl ++ nl
  ++ "Enhanced EPA ECHO Compliance Summary:" ++ nl
  ++ echo_summary ++ nl ++ nl
  ++ "Instructions: Generate Section " ++ section_number
  ++ " incorporating both the environmental database information and the enhanced EPA ECHO compliance summary. When the document mentions ECHO database listings, enhance those entries with the detailed compliance information provided above. Integrate the ECHO compliance data seamlessly into the facility summary to provide comprehensive environmental assessment information.".

(** The inner [try] of [process_pdf] around the ECHO lookup. *)
Definition echo_lookup (echo_service : EchoService) (raw_text : string)
  : M (option string) :=
  try_except
    (echo_summary <- call (get_compliance_summary echo_service raw_text) ;;
     (if truthy_opt_str echo_summary then
        send_text "Found EPA ECHO data - fetching enhanced compliance information..." ;;
        send_text "Enhanced compliance data retrieved successfully."
      else ret tt) ;;
     ret echo_summary)
    (fun e =>
       send_text ("Note: Could not retrieve ECHO data: " ++ str_exc e) ;;
       ret None).

(** The branch of [process_pdf] for the subject property document. *)
Definition process_main_document (report_type filename raw_text formatted : string)
    (echo_summary : option string) : M unit :=
  send_text "Processing main property document..." ;;
  let section_number := if is_edr report_type then "5.2.1" else "5.2.3" in
  send_text ("--- Section " ++ section_number ++ " ---") ;;
  result <-
    (if truthy_opt_str echo_summary then
       summarize report_type section_number
         (enhanced_context_main formatted (str_opt echo_summary) section_number)
         no_args
     else
       summarize report_type section_number formatted no_args) ;;
  update (set_main_document
            (Some {| filename := filename; text := raw_text;
                     formatted := formatted;
                     echo_summary := echo_summary |})) ;;
  match result with
  | ResultDict sc sa =>
      update (set_section_content sc) ;;
      update (set_subject_address sa)
  | ResultStr r =>
      update (set_section_content (Some r))
  end ;;
  update (set_workflow_stage "can_upload_surrounding") ;;
  send_text ("Section " ++ section_number ++ " complete!") ;;
  let next_section := if is_edr report_type then "5.2.2" else "5.2.4" in
  send_text ("You can now upload surrounding properties PDFs to enable Section "
             ++ next_section ++ " generation.").

(** The branch of [process_pdf] for a surrounding property document. *)
Definition process_surrounding_document (report_type filename raw_text formatted : string)
    (echo_summary : option string) : M unit :=
  send_text ("Processing surrounding property document: " ++ filename) ;;
  let surrounding_doc :=
    {| filename := filename; text := raw_text; formatted := formatted;
       echo_summary := echo_summary |} in
  update (fun s => set_surrounding_documents
                     (surrounding_documents s ++ [surrounding_doc]) s) ;;
  let next_section := if is_edr report_type then "5.2.2" else "5.2.4" in
  s <- get_session ;;
  send_text ("Surrounding property '" ++ filename
             ++ "' processed. Total surrounding documents: "
             ++ str_nat (List.length (surrounding_documents s))) ;;
  send_text ("You can upload more surrounding properties or ask me to generate Section "
             ++ next_section ++ ".").

(** [process_pdf] *)
Definition process_pdf (message : UploadMessage) : M unit :=
  let report_type := get_default (reportType message) "EDR" in
  update (set_report_type (Some report_type)) ;;
  send_text ("Report type: " ++ report_type) ;;
  send_text "Processing PDF..." ;;
  try_except
    (message_data <- lift (getkey "data" (data message)) ;;
     pdf_bytes <- lift (b64decode message_data) ;;
     filename <- lift (getkey "filename" (upload_filename message)) ;;
     extracted <- call (extract pdf_bytes filename) ;;
     let raw_text := strip extracted in
     if negb (truthy_str raw_text) then
       send_text "Could not extract text from PDF"
     else
       echo_service <- call (create_service report_type) ;;
       let formatter := if is_edr report_type then edr_format else eris_format in
       echo_summary <- echo_lookup echo_service raw_text ;;
       formatted <- call (formatter raw_text) ;;
       s <- get_session ;;
       match main_document s with
       | None =>
           process_main_document report_type filename raw_text formatted echo_summary
       | Some _ =>
           process_surrounding_document report_type filename raw_text formatted
             echo_summary
       end)
    (fun e => send_text ("Error: " ++ str_exc e)).

(** [s.replace(".", "")] *)
Fixpoint remove_dots (s : string) : string :=
  match s with
  | EmptyString => EmptyString
  | String c r =>
      if Ascii.eqb c "."%char then remove_dots r else String c (remove_dots r)
  end.

(** The value of [report_type == "EDR"] for what the session holds. *)
Definition is_edr_opt (report_type : option string) : bool :=
  match report_type with Some r => is_edr r | None => false end.

Definition surrounding_section_of (report_type : option string) : string :=
  if is_edr_opt report_type then "5.2.2" else "5.2.4".

Definition section_triggers (report_type : option string) : list string :=
  let surrounding_section := surrounding_section_of report_type in
  [surrounding_section; remove_dots surrounding_section; "surrounding properties"]
  ++ (if is_edr_opt report_type
      then ["generate 5.2.2"; "section 5.2.2"]
      else ["generate 5.2.4"; "section 5.2.4"]).

(** [any(phrase in user_question.lower() for phrase in section_triggers)] *)
Definition is_trigger (report_type : option string) (user_question : string) : bool :=
  any (fun phrase => contains phrase (lower user_question))
      (section_triggers report_type).

(** The two comprehensions that parse the reply to the address prompt. *)
Definition parse_addresses (user_question : string) : list string :=
  let addresses := map strip (split ","%char user_question) in
  filter (fun addr => truthy_str addr && (10 <? String.length addr)%nat) addresses.

Definition groundwater_prompt : string :=
  "I need the groundwater flow direction (like 'northeast', 'SW', 'north', etc.)".

(** The body of [if any(... section_triggers)]. *)
Definition surrounding_section_requested (surrounding_section : string) : M unit :=
  s <- get_session ;;
  if negb (truthy_opt_str (section_content s)) then
    send_text "Please complete the subject property section first before proceeding to surrounding properties."
  else if negb (truthy_opt_str (subject_address s)) then
    send_text "I need the subject property address first. The main document didn't contain extractable address information."
  else if negb (truthy_list (surrounding_documents s)) then
    send_text ("I can generate Section " ++ surrounding_section ++ " for "
               ++ str_opt (subject_address s)
               ++ ", but I need surrounding properties data first.") ;;
    send_text ("Please upload PDFs containing surrounding property database listings, then ask me to generate Section "
               ++ surrounding_section ++ " again.")
  else if negb (truthy_list (get_default (surrounding_addresses s) [])) then
    send_text ("I have " ++ str_nat (List.length (surrounding_documents s))
               ++ " surrounding property document(s), but I need the addresses for distance calculations.") ;;
    send_text "Please provide the addresses of the surrounding properties (one per message or comma-separated)." ;;
    update (set_awaiting_addresses (Some true))
  else
    send_text ("Ready to generate Section " ++ surrounding_section ++ " for "
               ++ str_opt (subject_address s)) ;;
    send_text ("I have " ++ str_nat (List.length (surrounding_documents s))
               ++ " surrounding property document(s)") ;;
    send_text groundwater_prompt ;;
    update (set_awaiting_groundwater (Some true)).

(** The body of [if session.get("awaiting_addresses")]. *)
Definition collect_addresses (user_question : string) : M unit :=
  let addresses := parse_addresses user_question in
  if truthy_list addresses then
    update (set_surrounding_addresses (Some addresses)) ;;
    update (set_awaiting_addresses (Some false)) ;;
    send_text ("Received " ++ str_nat (List.length addresses)
               ++ " surrounding property addresses:") ;;
    for_each addresses (fun addr => send_text ("  - " ++ addr)) ;;
    send_text ("Now " ++ groundwater_prompt) ;;
    update (set_awaiting_groundwater (Some true))
  else
    send_text "Please provide valid addresses. Example: '123 Main St, City, State' or provide multiple addresses separated by commas.".

(** The two strings accumulated over the surrounding documents. *)
Fixpoint combine_documents (docs : list Document)
    (combined_surrounding_data combined_echo_summaries : string)
  : string * string :=
  match docs with
  | [] => (combined_surrounding_data, combined_echo_summaries)
  | doc :: rest =>
      let combined_surrounding_data :=
        combined_surrounding_data ++ nl ++ "--- " ++ filename doc ++ " ---" ++ nl
        ++ formatted doc ++ nl in
      let combined_echo_summaries :=
        if truthy_opt_str (echo_summary doc) then
          combined_echo_summaries ++ nl ++ "--- ECHO Compliance Data for "
          ++ filename doc ++ " ---" ++ nl ++ str_opt (echo_summary doc) ++ nl
        else combined_echo_summaries in
      combine_documents rest combined_surrounding_data combined_echo_summaries
  end.

Definition enhanced_context_surrounding
    (combined_surrounding_data combined_echo_summaries surrounding_section : string)
  : string :=
  "Surrounding Properties Environmental Database Data:" ++ nl
  ++ combined_surrounding_data ++ nl ++ nl
  ++ "Enhanced EPA ECHO Compliance Summaries for Surrounding Properties:" ++ nl
  ++ combined_echo_summaries ++ nl ++ nl
  ++ "Instructions: Generate Section " ++ surrounding_section
  ++ " incorporating both the environmental database information and the enhanced EPA ECHO compliance summaries. When properties are mentioned as having ECHO database listings, enhance those entries with the detailed compliance information provided above.".

(** [SummarizerFactory.get_summarizer] calls [report_type.upper()]. *)
Definition summarize_opt (report_type : option string) (section body : string)
    (args : GenArgs) : M SectionResult :=
  match report_type with
  | Some r => summarize r section body args
  | None => lift (raise "AttributeError"
                    "'NoneType' object has no attribute 'upper'")
  end.

(** The [try] block of the groundwater step. *)
Definition generate_surrounding_section (report_type : option string)
    (groundwater_direction : string) : M unit :=
  s <- get_session ;;
  addresses <- lift (getkey "surrounding_addresses" (surrounding_addresses s)) ;;
  distance_data <- call (calculate_distances (subject_address s) addresses) ;;
  send_text ("Calculated distances for "
             ++ str_nat (List.length (Distance.distances distance_data))
             ++ " properties") ;;
  (if truthy_list (Distance.failed distance_data) then
     send_text ("Failed to calculate distances for: "
                ++ str_failed (Distance.failed distance_data))
   else ret tt) ;;
  s <- get_session ;;
  let '(combined_surrounding_data, combined_echo_summaries) :=
    combine_documents (surrounding_documents s) "" "" in
  let surrounding_section := surrounding_section_of report_type in
  send_text ("Generating Section " ++ surrounding_section ++ "...") ;;
  send_text ("--- Section " ++ surrounding_section ++ " ---") ;;
  let args :=
    {| arg_subject_address := Some (subject_address s);
       arg_groundwater_flow := Some groundwater_direction;
       arg_distance_data := Some distance_data;
       arg_temperature := None;
       arg_max_tokens := None |} in
  result <-
    (if truthy_str (strip combined_echo_summaries) then
       summarize_opt report_type surrounding_section
         (enhanced_context_surrounding combined_surrounding_data
            combined_echo_summaries surrounding_section)
         args
     else
       summarize_opt report_type surrounding_section combined_surrounding_data args) ;;
  update (set_surrounding_section (Some result)) ;;
  update (set_awaiting_groundwater (Some false)) ;;
  send_text ("Section " ++ surrounding_section ++ " complete!").

(** The body of [if session.get("awaiting_groundwater")]. *)
Definition collect_groundwater (report_type : option string)
    (surrounding_section user_question : string) : M unit :=
  match extract_groundwater_direction user_question with
  | Some groundwater_direction =>
      (* every direction of the table is a non-empty string *)
      send_text ("Using groundwater flow direction: " ++ groundwater_direction) ;;
      send_text "Calculating distances..." ;;
      try_except
        (generate_surrounding_section report_type groundwater_direction)
        (fun e =>
           send_text ("Error generating Section " ++ surrounding_section ++ ": "
                      ++ str_exc e) ;;
           update (set_awaiting_groundwater (Some false)))
  | None =>
      send_text "I didn't recognize a groundwater flow direction. Please specify like: 'northeast', 'SW', 'north', 'southeast', etc."
  end.

Fixpoint documents_context (docs : list Document) (acc : string) : string :=
  match docs with
  | [] => acc
  | doc :: rest =>
      documents_context rest
        (acc ++ nl ++ filename doc ++ ":" ++ nl ++ take_str 1000 (formatted doc))
  end.

Fixpoint echo_documents_context (docs : list Document) (acc : string) : string :=
  match docs with
  | [] => acc
  | doc :: rest =>
      echo_documents_context rest
        (if truthy_opt_str (echo_summary doc) then
           acc ++ nl ++ nl ++ "Enhanced ECHO Compliance Data for "
           ++ filename doc ++ ":" ++ nl ++ str_opt (echo_summary doc)
         else acc)
  end.

(** The prompt of the general question-answering path. *)
Definition chat_context (s : Session) (main : Document)
    (report_type : option string) (user_question : string) : string :=
  let all_documents_context :=
    "Main Document (" ++ filename main ++ "):" ++ nl
    ++ take_str 2000 (formatted main) in
  let all_documents_context :=
    if truthy_list (surrounding_documents s) then
      documents_context (surrounding_documents s)
        (all_documents_context ++ nl ++ nl
         ++ "Surrounding Properties Documents:" ++ nl)
    else all_documents_context in
  let echo_context :=
    if truthy_opt_str (echo_summary main) then
      nl ++ nl ++ "Enhanced ECHO Compliance Data for Main Property:" ++ nl
      ++ str_opt (echo_summary main)
    else "" in
  let echo_context := echo_documents_context (surrounding_documents s) echo_context in
  nl
  ++ "    You are an environmental assessment assistant working with "
  ++ str_opt report_type
  ++ " reports. A user has uploaded and processed PDF documents." ++ nl
  ++ "    " ++ nl
  ++ "    " ++ all_documents_context ++ nl
  ++ "    " ++ nl
  ++ "    " ++ echo_context ++ nl
  ++ "    " ++ nl
  ++ "    Generated Section Content:" ++ nl
  ++ "    " ++ str_opt (section_content s) ++ nl
  ++ "    " ++ nl
  ++ "    Subject Property Address: " ++ str_opt (subject_address s) ++ nl
  ++ "    " ++ nl
  ++ "    Report Type: " ++ str_opt report_type ++ nl
  ++ "    " ++ nl
  ++ "    User Question: " ++ user_question ++ nl
  ++ "    " ++ nl
  ++ "    Please answer the user's question based on this environmental assessment information. Be specific and reference the actual data from the documents."
  ++ nl ++ "    ".

(** The general question-answering path. *)
Definition general_chat (s : Session) (main : Document)
    (report_type : option string) (user_question : string) : M unit :=
  let context := chat_context s main report_type user_question in
  try_except
    (summarize "" "chat" context
       {| arg_subject_address := None; arg_groundwater_flow := None;
          arg_distance_data := None; arg_temperature := Some 0.1%float;
          arg_max_tokens := Some 800%Z |} ;;
     ret tt)
    (fun e => send_text ("I had trouble processing your question: " ++ str_exc e)).

(** [handle_intelligent_chat] *)
Definition handle_intelligent_chat (message : ChatMessage) : M unit :=
  let user_question := strip (get_default (content message) "") in
  s <- get_session ;;
  let report_type := report_type s in
  match main_document s with
  | None =>
      send_text "Please upload the subject propety adress and pdf file for the subject property."
  | Some main =>
      let surrounding_section := surrounding_section_of report_type in
      if is_trigger report_type user_question then
        surrounding_section_requested surrounding_section
      else if flag (awaiting_addresses s) then
        collect_addresses user_question
      else if flag (awaiting_groundwater s) then
        collect_groundwater report_type surrounding_section user_question
      else
        general_chat s main report_type user_question
  end.

(** One turn of the loop of [websocket_endpoint]: a received text frame
    is decoded and dispatched on its type. *)
Definition receive (frame : Frame) : M unit :=
  match frame with
  | Json (FileUpload message) => process_pdf message
  | Json (Chat message) => handle_intelligent_chat message
  | Json ClearSession => clear_session
  | Json OtherType => ret tt
  | NotJson => send_text "Please upload a PDF or use the chat interface."
  end.

(** The state after [websocket.accept()] and the greeting. *)
Definition connect (w : World) : St :=
  {| world := w;
     session := initial_session;
     outbox := ["Hello! Select your report type (EDR or ERIS) and upload a PDF document to begin."] |}.

(** The states the loop can be in: after the greeting, and after each
    frame handled from such a state. A handler that raises closes the
    connection; the state it leaves behind is included. *)
Inductive reachable : St -> Prop :=
| reachable_connect : forall w, reachable (connect w)
| reachable_receive : forall st frame,
    reachable st -> reachable (snd (receive frame st)).

(** A handler [m] started in a session satisfying [P] ends in a session
    satisfying [Q a] when it returns [a], and [E e] when it raises [e]. *)
Definition triple {A} (P : Session -> Prop) (m : M A)
    (Q : A -> Session -> Prop) (E : PyExc -> Session -> Prop) : Prop :=
  forall st, P (session st) ->
    match m st with
    | (inr a, st') => Q a (session st')
    | (inl e, st') => E e (session st')
    end.

(** Whatever it does, [m] leaves a session that satisfies [P] in a session
    that satisfies [P]. *)
Definition keeps {A} (P : Session -> Prop) (m : M A) : Prop :=
  triple P m (fun _ => P) (fun _ => P).

(** The fields that carry the address and groundwater steps. *)
Definition workflow (s : Session) : option (list string) * option bool * option bool :=
  (surrounding_addresses s, awaiting_addresses s, awaiting_groundwater s).

(** The two flags are not both true; stated with what makes it
    inductive: the address flag is only up while no address list is
    stored, the groundwater flag only while one is. *)
Definition flags_exclusive (s : Session) : Prop :=
  ~ (flag (awaiting_addresses s) = true /\ flag (awaiting_groundwater s) = true).

Definition flags_follow_addresses (s : Session) : Prop :=
  (flag (awaiting_addresses s) = true ->
   truthy_list (get_default (surrounding_addresses s) []) = false)
  /\ (flag (awaiting_groundwater s) = true ->
      truthy_list (get_default (surrounding_addresses s) []) = true).

End Handlers.

End Testing.

(* ================================================================= *)
(** ** Collaborators with a handful of answers

    A geocoder, a geodesic solver and language-model stand-ins that answer
    a few fixed inputs, to evaluate the code above on concrete data. *)

Module Fixture.

Import Py.
Open Scope string_scope.

(** A point geometry: longitude and latitude. *)
Definition GeoJSON : Type := (float * float)%type.
Definition Geom : Type := (float * float)%type.

Definition shape (g : GeoJSON) : PyResult Geom := ok g.
Definition nearest_points (g1 g2 : Geom) : PyResult (Geom * Geom) := ok (g1, g2).
Definition representative_point (g : Geom) : PyResult Geom := ok g.
Definition point_x (g : Geom) : PyResult float := ok (fst g).
Definition point_y (g : Geom) : PyResult float := ok (snd g).

(** From the origin: a point one degree north and 0.0005 degrees west lies
    some 110.6 km away, a hair west of due north; a point at the origin
    itself lies 0 m away. *)
Definition Inverse (lat1 lon1 lat2 lon2 : float) : Distance.GeodesicDict :=
  if (lat2 =? 1)%float then {| Distance.s12 := 110574.4; Distance.azi1 := -0.0288 |}
  else if (lat2 =? 2)%float then {| Distance.s12 := 221149.5; Distance.azi1 := 45 |}
  else {| Distance.s12 := 0; Distance.azi1 := 180 |}.

Definition World : Type := nat.

(** The geocoder knows three addresses; the world counts its lookups. *)
Definition get_geometry (address : string) (w : World) : option GeoJSON * World :=
  if String.eqb address "1 Subject Road, Springfield, IL" then (Some (0, 0)%float, S w)
  else if String.eqb address "North Farm Lane, Springfield, IL" then
         (Some (-0.0005, 1)%float, S w)
  else if String.eqb address "456 Oak St, Springfield, IL" then
         (Some (2, 2)%float, S w)
  else (None, S w).

Definition calculate_distances :=
  Distance.calculate_distances shape nearest_points representative_point
    point_x point_y Inverse get_geometry.

Definition distance_and_direction :=
  Distance.distance_and_direction shape nearest_points representative_point
    point_x point_y Inverse.

(** The injected calculator of the chat handler. *)
Definition session_calculator (subject : option string) (addresses : list string)
    (w : World) : PyResult Distance.DistanceBatchResult * World :=
  match subject with
  | Some a => calculate_distances a addresses w
  | None => (raise "RuntimeError" "Could not geocode subject address: None", S w)
  end.

Definition generate_section_streaming (report_type section body : string)
    (args : Testing.GenArgs) (w : World)
  : PyResult Testing.SectionResult * list string * World :=
  if String.eqb section "5.2.1" then
    (ok (Testing.ResultDict
           (Some "5.2.1 Subject Property Environmental Database Listings")
           (Some "1 Subject Road, Springfield, IL")),
     ["5.2.1 Subject Property "; "Environmental Database Listings"], w)
  else
    (ok (Testing.ResultStr "5.2.2 Surrounding Area Environmental Database Listings"),
     ["5.2.2 Surrounding Area "; "Environmental Database Listings"], w).

Definition Bytes : Type := string.
Definition EchoService : Type := unit.
Definition b64decode (data : string) : PyResult Bytes := ok data.
Definition extract (pdf_bytes : Bytes) (filename : string) (w : World)
  : PyResult string * World := (ok (" text of " ++ filename ++ " "), w).
Definition create_service (report_type : string) (w : World)
  : PyResult EchoService * World := (ok tt, w).
Definition get_compliance_summary (service : EchoService) (raw_text : string)
    (w : World) : PyResult (option string) * World := (ok None, w).
Definition format_text (raw_text : string) (w : World) : PyResult string * World :=
  (ok raw_text, w).

Definition str_failed (l : list Distance.FailureRecord) : string :=
  "[" ++ String.concat ", " (map Distance.failed_address l) ++ "]".

Definition handle_intelligent_chat :=
  Testing.handle_intelligent_chat generate_section_streaming session_calculator
    str_failed.

Definition main_doc : Testing.Document :=
  {| Testing.filename := "subject.pdf"; Testing.text := "raw";
     Testing.formatted := "formatted"; Testing.echo_summary := None |}.

(** A session that has just asked for the surrounding addresses. *)
Definition asked_for_addresses : Testing.Session :=
  {| Testing.report_type := Some "EDR";
     Testing.main_document := Some main_doc;
     Testing.surrounding_documents := [main_doc];
     Testing.subject_address := Some "1 Subject Road, Springfield, IL";
     Testing.section_content := Some "5.2.1 ...";
     Testing.workflow_stage := "can_upload_surrounding";
     Testing.surrounding_addresses := None;
     Testing.awaiting_addresses := Some true;
     Testing.awaiting_groundwater := None;
     Testing.surrounding_section := None |}.

(** A session that has just asked for the groundwater direction, with a
    subject address the geocoder does not know. *)
Definition asked_for_groundwater : Testing.Session :=
  {| Testing.report_type := Some "EDR";
     Testing.main_document := Some main_doc;
     Testing.surrounding_documents := [main_doc];
     Testing.subject_address := Some "Unknown Place";
     Testing.section_content := Some "5.2.1 ...";
     Testing.workflow_stage := "can_upload_surrounding";
     Testing.surrounding_addresses := Some ["456 Oak St, Springfield, IL"];
     Testing.awaiting_addresses := Some false;
     Testing.awaiting_groundwater := Some true;
     Testing.surrounding_section := None |}.

Definition state_of (s : Testing.Session) : Testing.St World :=
  {| Testing.world := 0; Testing.session := s; Testing.outbox := [] |}.

Definition chat (text : string) : Testing.ChatMessage :=
  {| Testing.content := Some text |}.

Definition upload (name : string) : Testing.UploadMessage :=
  {| Testing.reportType := Some "EDR"; Testing.data := Some "JVBERi0=";
     Testing.upload_filename := Some name |}.

Definition receive :=
  Testing.receive b64decode extract create_service get_compliance_summary
    format_text format_text generate_section_streaming session_calculator
    str_failed.

Fixpoint receive_all (frames : list Testing.Frame) (st : Testing.St World)
  : Testing.St World :=
  match frames with
  | [] => st
  | frame :: rest => receive_all rest (snd (receive frame st))
  end.

(** The conversation of the end-to-end scenario. *)
Definition scenario : list Testing.Frame :=
  [ Testing.Json (Testing.FileUpload (upload "subject.pdf"));
    Testing.Json (Testing.FileUpload (upload "neighbours.pdf"));
    Testing.Json (Testing.Chat (chat "generate section 5.2.2"));
    Testing.Json (Testing.Chat (chat "456 Oak St, Springfield, IL"));
    Testing.Json (Testing.Chat (chat "northeast")) ].

End Fixture.

(* ================================================================= *)
(** ** A concrete geocoding service *)

Module GeocodeFixture.

Import Py Geocode.
Open Scope string_scope.

(** No string is a number here. *)
Definition float_of_str (s : string) : PyResult float :=
  raise "ValueError" ("could not convert string to float: '" ++ s ++ "'").

(** The world: the readings of the clock still to come, and the number of
    requests made so far. *)
Definition World : Type := (list float * nat)%type.

Definition time (w : World) : float * World :=
  match fst w with
  | [] => (0%float, w)
  | now :: later => (now, (later, snd w))
  end.

(** The token endpoint grants "token-1", "token-2", ... for an hour. *)
Definition post_token (w : World) : PyResult Value * World :=
  (ok (VDict [("access_token", VStr ("token-" ++ Testing.str_nat (S (snd w))));
              ("expiresIn", VInt 3600)]),
   (fst w, S (snd w))).

(** The parcel endpoint knows a parcel by its boundary, one by its centre
    in x/y form, and one, on the prime meridian, by its centre as well. *)
Definition get_parcel (address : string) (bearer : Value) (w : World)
  : PyResult Value * World :=
  let w' := (fst w, S (snd w)) in
  if String.eqb address "1 Subject Road, Springfield, IL" then
    (ok (VDict [("geometry",
                 VDict [("type", VStr "Polygon");
                        ("coordinates", VList [VList []])])]), w')
  else if String.eqb address "North Farm Lane, Springfield, IL" then
    (ok (VDict [("center",
                 VDict [("type", VStr "Point");
                        ("coordinates",
                         VDict [("x", VFloat (-89.65)); ("y", VFloat 39.8)])])]), w')
  else if String.eqb address "Meridian Walk, Greenwich" then
    (ok (VDict [("center",
                 VDict [("coordinates",
                         VDict [("x", VFloat 0); ("y", VFloat 51.48)])])]), w')
  else (raise "HTTPError" "404 Client Error", w').

Definition get_token := Geocode.get_token float_of_str time post_token.

Definition get_geometry :=
  Geocode.get_geometry float_of_str time post_token get_parcel.

(** [shape] on a point dictionary; other geometries are not needed. *)
Definition shape (g : Value) : PyResult Fixture.Geom :=
  match g with
  | VDict d =>
      match lookup "coordinates" d with
      | Some (VList [VFloat x; VFloat y]) => ok (x, y)
      | _ => raise "ValueError" "unsupported geometry"
      end
  | _ => raise "ValueError" "unsupported geometry"
  end.

End GeocodeFixture.

(* ================================================================= *)
(** ** The specification's wording, for comparison with the code *)

Module Stated.

Import Py.
Open Scope string_scope.


(** "The message is split on commas, exactly the entries shorter than 10
    characters are discarded." *)
Definition surviving_entries (message : string) : list string :=
  filter (fun entry => negb (String.length entry <? 10)%nat) (split ","%char message).

(** The entries of [l] at the positions where [mask] is [true]. *)
Fixpoint select {A} (mask : list bool) (l : list A) : list A :=
  match mask, l with
  | b :: mask', a :: l' => if b then a :: select mask' l' else select mask' l'
  | _, _ => []
  end.

End Stated.

(* ================================================================= *)
(** ** What the handlers leave in the session *)

Module Workflow.

Import Py Testing.
Open Scope string_scope.

(** The assignments of [process_pdf] that store a summarizer's result. *)
Definition store_result (result : SectionResult) (s : Session) : Session :=
  match result with
  | ResultDict sc sa => set_subject_address sa (set_section_content sc s)
  | ResultStr r => set_section_content (Some r) s
  end.

(** The session after the subject document [doc] went through. *)
Definition with_main_document (doc : Document) (result : SectionResult)
    (s : Session) : Session :=
  set_workflow_stage "can_upload_surrounding"
    (store_result result (set_main_document (Some doc) s)).

(** The session after a surrounding document [doc] went through. *)
Definition with_surrounding_document (doc : Document) (s : Session) : Session :=
  set_surrounding_documents (surrounding_documents s ++ [doc])%list s.

(** The session after the reply to the address prompt was accepted. *)
Definition with_addresses (addresses : list string) (s : Session) : Session :=
  set_awaiting_groundwater (Some true)
    (set_awaiting_addresses (Some false)
       (set_surrounding_addresses (Some addresses) s)).

(** What the request for the surrounding section checks before it asks
    for addresses or for the groundwater direction. *)
Definition prerequisites (s : Session) : Prop :=
  main_document s <> None
  /\ truthy_opt_str (section_content s) = true
  /\ truthy_opt_str (subject_address s) = true
  /\ truthy_list (surrounding_documents s) = true.

Definition has_addresses (s : Session) : bool :=
  truthy_list (get_default (surrounding_addresses s) []).

(** A string that does not start with white space. *)
Definition starts_clean (s : string) : Prop :=
  match s with
  | EmptyString => True
  | String c _ => isspace c = false
  end.

(** An address as [parse_addresses] keeps it. *)
Definition clean_address (a : string) : Prop :=
  (10 < String.length a)%nat
  /\ ~ In ","%char (list_ascii_of_string a)
  /\ strip a = a.

(** What holds of the session between two frames. *)
Definition well_formed (s : Session) : Prop :=
  flags_follow_addresses s
  /\ (flag (awaiting_addresses s) = true \/ flag (awaiting_groundwater s) = true ->
      prerequisites s)
  /\ workflow_stage s
     = match main_document s with
       | Some _ => "can_upload_surrounding"
       | None => "awaiting_report_selection"
       end
  /\ (main_document s <> None -> report_type s <> None)
  /\ (main_document s = None -> s = set_report_type (report_type s) initial_session)
  /\ (forall l, surrounding_addresses s = Some l ->
        l <> [] /\ Forall clean_address l).

End Workflow.

(* ================================================================= *)
(** ** What a batch of [calculate_distances] holds *)

Module Batch.

Import Py Distance.
Open Scope string_scope.

(** An entry of [distances]: the two numbers are roundings to one decimal
    of a distance in metres converted to feet and of a bearing, and the
    direction is the 8-point label of that bearing before the rounding. *)
Definition well_formed_result (r : DistanceResult) : Prop :=
  exists distance_m bearing,
    distance_ft r = round1 (distance_m * 3.28084)%float
    /\ bearing_deg r = round1 bearing
    /\ _compass_label bearing 8 = ok (direction r)
    /\ finite_or_zero (Prim2SF bearing)
    /\ In (direction r) names8.

(** An entry of [failed]: one of the two error texts of the loop. *)
Definition well_formed_failure (f : FailureRecord) : Prop :=
  error f = "Geocoding failed"
  \/ exists e, error f = "Distance calculation failed: " ++ str_exc e.

End Batch.

(* ================================================================= *)
(** ** Properties of the keyword scan *)

Import Py.
Open Scope string_scope.

Lemma prefix_app_l : forall p q t,
  String.prefix (p ++ q) t = true -> String.prefix p t = true.
Proof.
  induction p as [|a p IH]; intros q t H.
  - destruct t; reflexivity.
  - destruct t as [|b t]; simpl in *; [discriminate|].
    destruct (ascii_dec a b); [eauto | discriminate].
Qed.

Lemma contains_unfold : forall p t,
  contains p t =
  String.prefix p t
  || match t with EmptyString => false | String _ r => contains p r end.
Proof. intros p [|c t]; reflexivity. Qed.

Lemma contains_app_l : forall p q t,
  contains (p ++ q) t = true -> contains p t = true.
Proof.
  intros p q t. induction t as [|c t IH]; intros H;
    rewrite contains_unfold in H; rewrite contains_unfold;
    apply orb_true_iff in H as [H|H].
  - rewrite (prefix_app_l _ _ _ H). reflexivity.
  - discriminate.
  - rewrite (prefix_app_l _ _ _ H). reflexivity.
  - rewrite (IH H). apply orb_true_r.
Qed.

Lemma first_match_spec : forall items text_lower d,
  Keywords.first_match items text_lower = Some d <->
  exists before p after,
    items = (before ++ (p, d) :: after)%list
    /\ contains p text_lower = true
    /\ Forall (fun pd => contains (fst pd) text_lower = false) before.
Proof.
  induction items as [|[p0 d0] items IH]; intros t d; simpl.
  - split; [discriminate|]. intros (b & p & a & E & _). destruct b; discriminate.
  - destruct (contains p0 t) eqn:Hc.
    + split.
      * intros [= <-]. exists [], p0, items. repeat split; auto.
      * intros (b & p & a & E & Hp & Hb). destruct b as [|x b]; simpl in E.
        -- now inversion E.
        -- inversion E; subst x. inversion Hb; subst. simpl in *. congruence.
    + rewrite IH. split.
      * intros (b & p & a & E & Hp & Hb). exists ((p0, d0) :: b), p, a.
        subst items. repeat split; auto.
      * intros (b & p & a & E & Hp & Hb). destruct b as [|x b]; simpl in E.
        -- inversion E; subst. congruence.
        -- inversion E; subst. inversion Hb; subst. exists b, p, a. auto.
Qed.

Lemma first_match_none : forall items text_lower,
  Keywords.first_match items text_lower = None <->
  Forall (fun pd => contains (fst pd) text_lower = false) items.
Proof.
  induction items as [|[p0 d0] items IH]; intros t; simpl.
  - split; auto.
  - destruct (contains p0 t) eqn:Hc.
    + split; [discriminate|]. intros H. inversion H; subst. simpl in *. congruence.
    + rewrite IH. split; intros H.
      * constructor; auto.
      * now inversion H.
Qed.

(** C10, as amended. [extract_groundwater_direction] lower-cases the message
    and returns the direction of the first pattern, in the order of the
    table, that occurs in it as a substring ([None] when none occurs).
    Hence a message containing "northeast" or "northwest" yields "N"; a
    message containing "southeast" or "southwest" yields "S", unless it
    also contains "north", in which case it yields "N". The ordinal is
    never the answer. *)
Theorem extract_groundwater_direction_first_pattern : forall text,
  let t := lower text in
  map fst Keywords.direction_patterns =
    ["north"; "south"; "east"; "west"; "northeast"; "northwest"; "southeast";
     "southwest"; "ne"; "nw"; "se"; "sw"; "n "; "e "; "s "; "w "]
  /\ (forall d, Keywords.extract_groundwater_direction text = Some d <->
        exists before p after,
          Keywords.direction_patterns = (before ++ (p, d) :: after)%list
          /\ contains p t = true
          /\ Forall (fun pd => contains (fst pd) t = false) before)
  /\ (Keywords.extract_groundwater_direction text = None <->
        Forall (fun pd => contains (fst pd) t = false) Keywords.direction_patterns)
  /\ (contains "northeast" t = true \/ contains "northwest" t = true ->
        Keywords.extract_groundwater_direction text = Some "N")
  /\ (contains "southeast" t = true \/ contains "southwest" t = true ->
        Keywords.extract_groundwater_direction text =
          Some (if contains "north" t then "N" else "S")).
Proof.
  intros text t. split; [reflexivity|]. split; [|split; [|split]].
  - intros d. apply first_match_spec.
  - apply first_match_none.
  - intros H.
    assert (Hn : contains "north" t = true).
    { destruct H as [H|H].
      - apply (contains_app_l "north" "east"), H.
      - apply (contains_app_l "north" "west"), H. }
    unfold Keywords.extract_groundwater_direction. fold t. simpl.
    rewrite Hn. reflexivity.
  - intros H.
    assert (Hs : contains "south" t = true).
    { destruct H as [H|H].
      - apply (contains_app_l "south" "east"), H.
      - apply (contains_app_l "south" "west"), H. }
    unfold Keywords.extract_groundwater_direction. fold t. simpl.
    destruct (contains "north" t); [reflexivity|]. rewrite Hs. reflexivity.
Qed.

Lemma extract_groundwater_direction_first_pattern_witness :
  contains "northeast" (lower "Flows NorthEast") = true
  /\ Keywords.extract_groundwater_direction "Flows NorthEast" = Some "N".
Proof.
  split; [reflexivity|].
  apply (proj1 (proj2 (proj2 (proj2
          (extract_groundwater_direction_first_pattern "Flows NorthEast"))))).
  left. reflexivity.
Defined.

(** A message with the word "southeast" for which the answer is "N", not the
    "S" the unamended claim promises. *)
Lemma southeast_message_yielding_N :
  contains "southeast" (lower "north of the Southeast corner") = true
  /\ Keywords.extract_groundwater_direction "north of the Southeast corner" = Some "N"
  /\ Keywords.extract_groundwater_direction "north of the Southeast corner" <> Some "S".
Proof.
  split; [reflexivity|]. split; [reflexivity | discriminate].
Qed.

(** X13. The four compound patterns of the dictionary are dead: a text that
    contains "northeast" contains "north", which is tested first, and so on.
    The scan gives the same answer with the twelve other patterns alone, so
    it answers [None] exactly when none of those twelve occurs in the
    lower-cased text, and it answers an intercardinal direction only
    through a two-letter pattern ("ne", "nw", "se", "sw"). *)
Theorem compound_patterns_unreachable : forall text,
  let effective :=
    [ ("north", "N"); ("south", "S"); ("east", "E"); ("west", "W");
      ("ne", "NE"); ("nw", "NW"); ("se", "SE"); ("sw", "SW");
      ("n ", "N"); ("e ", "E"); ("s ", "S"); ("w ", "W") ] in
  Keywords.extract_groundwater_direction text
  = Keywords.first_match effective (lower text)
  /\ (Keywords.extract_groundwater_direction text = None
      <-> Forall (fun pd => contains (fst pd) (lower text) = false) effective).
Proof.
  intros text effective.
  assert (Heq : Keywords.extract_groundwater_direction text
                = Keywords.first_match effective (lower text)).
  { unfold Keywords.extract_groundwater_direction, Keywords.direction_patterns,
      effective.
    cbn [Keywords.first_match].
    pose proof (@contains_app_l "north" "east" (lower text)) as H1.
    pose proof (@contains_app_l "north" "west" (lower text)) as H2.
    pose proof (@contains_app_l "south" "east" (lower text)) as H3.
    pose proof (@contains_app_l "south" "west" (lower text)) as H4.
    cbn [append] in H1, H2, H3, H4.
    destruct (contains "north" (lower text)); [reflexivity|].
    destruct (contains "south" (lower text)); [reflexivity|].
    destruct (contains "east" (lower text)); [reflexivity|].
    destruct (contains "west" (lower text)); [reflexivity|].
    destruct (contains "northeast" (lower text)); [discriminate (H1 eq_refl)|].
    destruct (contains "northwest" (lower text)); [discriminate (H2 eq_refl)|].
    destruct (contains "southeast" (lower text)); [discriminate (H3 eq_refl)|].
    destruct (contains "southwest" (lower text)); [discriminate (H4 eq_refl)|].
    reflexivity. }
  split; [exact Heq|]. rewrite Heq. apply first_match_none.
Qed.

(* ================================================================= *)
(** ** Properties of [calculate_distances] *)

Lemma count_occ_select : forall (mask : list bool) (l : list string) a,
  List.length mask = List.length l ->
  (count_occ string_dec (Stated.select mask l) a
   + count_occ string_dec (Stated.select (map negb mask) l) a
   = count_occ string_dec l a)%nat.
Proof.
  induction mask as [|b mask IH]; intros [|x l] a Hlen; simpl in *;
    try discriminate; auto.
  injection Hlen as Hlen. specialize (IH l a Hlen).
  destruct b; simpl; destruct (string_dec x a); lia.
Qed.

Section DistanceProperties.

Variable GeoJSON : Type.
Variable Geom : Type.
Variable shape : GeoJSON -> PyResult Geom.
Variable nearest_points : Geom -> Geom -> PyResult (Geom * Geom).
Variable representative_point : Geom -> PyResult Geom.
Variable point_x point_y : Geom -> PyResult float.
Variable Inverse : float -> float -> float -> float -> Distance.GeodesicDict.
Variable World : Type.
Variable get_geometry : string -> World -> option GeoJSON * World.

Local Abbreviation surrounding_loop :=
  (Distance.surrounding_loop shape nearest_points representative_point
     point_x point_y Inverse get_geometry).
Local Abbreviation calculate_distances :=
  (Distance.calculate_distances shape nearest_points representative_point
     point_x point_y Inverse get_geometry).

(** Each turn of the loop appends the address to exactly one of the two
    lists, at its end. *)
Lemma surrounding_loop_partition :
  forall subject_geometry addresses results failed w,
  exists mask,
    List.length mask = List.length addresses
    /\ let '(results', failed', _) :=
         surrounding_loop subject_geometry addresses results failed w in
       map Distance.address results'
         = (map Distance.address results ++ Stated.select mask addresses)%list
       /\ map Distance.failed_address failed'
           = (map Distance.failed_address failed
              ++ Stated.select (map negb mask) addresses)%list.
Proof.
  intros sg addresses. induction addresses as [|a rest IH]; intros results failed w.
  - exists []. simpl. rewrite !app_nil_r. auto.
  - simpl. destruct (get_geometry a w) as [[g|] w'].
    + destruct (Distance.distance_and_direction _ _ _ _ _ _ _ _ _ _)
        as [e|[[distance_m bearing] direction]].
      * destruct (IH results
                    (failed ++ [ {| Distance.failed_address := a;
                                    Distance.error :=
                                      "Distance calculation failed: " ++ str_exc e |} ])%list
                    w') as (mask & Hlen & H).
        exists (false :: mask). split; [simpl; congruence|].
        destruct (surrounding_loop _ _ _ _ _) as [[r f] w2]. destruct H as [Hr Hf].
        split; [exact Hr|]. rewrite Hf, map_app, <- app_assoc. reflexivity.
      * destruct (IH (results ++ [ {| Distance.address := a;
                                      Distance.distance_ft :=
                                        round1 (distance_m * 3.28084)%float;
                                      Distance.direction := direction;
                                      Distance.bearing_deg := round1 bearing |} ])%list
                    failed w') as (mask & Hlen & H).
        exists (true :: mask). split; [simpl; congruence|].
        destruct (surrounding_loop _ _ _ _ _) as [[r f] w2]. destruct H as [Hr Hf].
        split; [|exact Hf]. rewrite Hr, map_app, <- app_assoc. reflexivity.
    + destruct (IH results
                  (failed ++ [ {| Distance.failed_address := a;
                                  Distance.error := "Geocoding failed" |} ])%list
                  w') as (mask & Hlen & H).
      exists (false :: mask). split; [simpl; congruence|].
      destruct (surrounding_loop _ _ _ _ _) as [[r f] w2]. destruct H as [Hr Hf].
      split; [exact Hr|]. rewrite Hf, map_app, <- app_assoc. reflexivity.
Qed.

(** C1. When the subject address is geocoded, [calculate_distances]
    returns a batch in which every entry of the surrounding list sits in
    exactly one of [distances] and [failed]: the positions of the input
    split into those listed, in order, in [distances] and the others,
    listed in order in [failed]; so each address occurs in the input as
    many times as in the two sequences together. *)
Theorem calculate_distances_partition :
  forall subject_address surrounding_addresses w subject_geometry w1,
    get_geometry subject_address w = (Some subject_geometry, w1) ->
    exists batch w2 mask,
      calculate_distances subject_address surrounding_addresses w = (ok batch, w2)
      /\ List.length mask = List.length surrounding_addresses
      /\ map Distance.address (Distance.distances batch)
          = Stated.select mask surrounding_addresses
      /\ map Distance.failed_address (Distance.failed batch)
          = Stated.select (map negb mask) surrounding_addresses
      /\ forall a,
           (count_occ string_dec (map Distance.address (Distance.distances batch)) a
            + count_occ string_dec
                (map Distance.failed_address (Distance.failed batch)) a
            = count_occ string_dec surrounding_addresses a)%nat.
Proof.
  intros subject addresses w sg w1 Hsubject.
  unfold Distance.calculate_distances. rewrite Hsubject.
  destruct (surrounding_loop_partition sg addresses [] [] w1) as (mask & Hlen & H).
  destruct (surrounding_loop _ _ _ _ _) as [[r f] w2]. destruct H as [Hr Hf].
  simpl in Hr, Hf.
  exists {| Distance.subject_address := subject;
            Distance.distances := r; Distance.failed := f |}, w2, mask.
  simpl. repeat split; auto.
  intros a. rewrite Hr, Hf. apply count_occ_select, Hlen.
Qed.

(** C5. When the subject address cannot be geocoded, [calculate_distances]
    raises [RuntimeError] whatever the surrounding addresses are: there is
    no batch, hence no [distances] and no [failed], and no surrounding
    address has been looked up. *)
Theorem calculate_distances_subject_failure :
  forall subject_address surrounding_addresses w w1,
    get_geometry subject_address w = (None, w1) ->
    calculate_distances subject_address surrounding_addresses w
    = (raise "RuntimeError"
         ("Could not geocode subject address: " ++ subject_address), w1).
Proof.
  intros subject addresses w w1 Hsubject.
  unfold Distance.calculate_distances. rewrite Hsubject. reflexivity.
Qed.

End DistanceProperties.

Lemma calculate_distances_partition_witness :
  exists batch w2 mask,
    Fixture.calculate_distances "1 Subject Road, Springfield, IL"
      ["456 Oak St, Springfield, IL"; "Nowhere"; "456 Oak St, Springfield, IL"] 0%nat
    = (ok batch, w2)
    /\ List.length mask = 3%nat
    /\ map Distance.address (Distance.distances batch)
        = Stated.select mask
            ["456 Oak St, Springfield, IL"; "Nowhere"; "456 Oak St, Springfield, IL"]
    /\ map Distance.failed_address (Distance.failed batch)
        = Stated.select (map negb mask)
            ["456 Oak St, Springfield, IL"; "Nowhere"; "456 Oak St, Springfield, IL"]
    /\ forall a,
         (count_occ string_dec (map Distance.address (Distance.distances batch)) a
          + count_occ string_dec (map Distance.failed_address (Distance.failed batch)) a
          = count_occ string_dec
              ["456 Oak St, Springfield, IL"; "Nowhere"; "456 Oak St, Springfield, IL"] a)%nat.
Proof.
  apply (calculate_distances_partition Fixture.shape Fixture.nearest_points
           Fixture.representative_point Fixture.point_x Fixture.point_y
           Fixture.Inverse Fixture.get_geometry
           "1 Subject Road, Springfield, IL"
           ["456 Oak St, Springfield, IL"; "Nowhere"; "456 Oak St, Springfield, IL"]
           0%nat (subject_geometry := (0, 0)%float) (w1 := 1%nat)).
  reflexivity.
Defined.

Lemma calculate_distances_subject_failure_witness :
  Fixture.calculate_distances "Unknown Place" ["456 Oak St, Springfield, IL"] 0%nat
  = (raise "RuntimeError" "Could not geocode subject address: Unknown Place", 1%nat).
Proof.
  apply (calculate_distances_subject_failure Fixture.shape Fixture.nearest_points
           Fixture.representative_point Fixture.point_x Fixture.point_y
           Fixture.Inverse Fixture.get_geometry
           "Unknown Place" ["456 Oak St, Springfield, IL"] 0%nat (w1 := 1%nat)).
  reflexivity.
Defined.

(* ================================================================= *)
(** ** Properties of the string operations *)

Lemma split_no_sep : forall sep s e,
  In e (split sep s) -> ~ In sep (list_ascii_of_string e).
Proof.
  intros sep s. induction s as [|c r IH]; intros e He; simpl in He.
  - destruct He as [<-|[]]. simpl. tauto.
  - destruct (Ascii.eqb c sep) eqn:Hc.
    + destruct He as [<-|He]; [simpl; tauto | auto].
    + destruct (split sep r) as [|w ws] eqn:Hs.
      * destruct He as [<-|[]]. simpl. intros [H|[]]. subst.
        rewrite Ascii.eqb_refl in Hc. discriminate.
      * destruct He as [<-|He].
        -- simpl. intros [H|H]; [subst; rewrite Ascii.eqb_refl in Hc; discriminate|].
           apply (IH w); [left; reflexivity | exact H].
        -- apply IH. right. exact He.
Qed.

Lemma lstrip_chars : forall s c,
  In c (list_ascii_of_string (lstrip s)) -> In c (list_ascii_of_string s).
Proof.
  induction s as [|a r IH]; intros c H; simpl in *; auto.
  destruct (isspace a); auto.
Qed.

Lemma rstrip_chars : forall s c,
  In c (list_ascii_of_string (rstrip s)) -> In c (list_ascii_of_string s).
Proof.
  induction s as [|a r IH]; intros c H; simpl in *; auto.
  destruct (rstrip r) as [|b r'] eqn:Hr.
  - destruct (isspace a); simpl in H; [contradiction|]. destruct H as [H|[]]. auto.
  - simpl in H. destruct H as [H|H]; auto.
Qed.

Lemma strip_chars : forall s c,
  In c (list_ascii_of_string (strip s)) -> In c (list_ascii_of_string s).
Proof. intros s c H. apply lstrip_chars, rstrip_chars, H. Qed.

Lemma rstrip_idem : forall s, rstrip (rstrip s) = rstrip s.
Proof.
  induction s as [|a r IH]; simpl; auto.
  destruct (rstrip r) as [|b r'] eqn:Hr.
  - destruct (isspace a) eqn:Ha; simpl; [reflexivity|]. rewrite Ha. reflexivity.
  - simpl. simpl in IH. rewrite IH. reflexivity.
Qed.

Lemma lstrip_starts_clean : forall s, Workflow.starts_clean (lstrip s).
Proof.
  induction s as [|a r IH]; simpl; auto.
  destruct (isspace a) eqn:Ha; simpl; auto.
Qed.

Lemma lstrip_clean : forall s, Workflow.starts_clean s -> lstrip s = s.
Proof. intros [|a r] H; simpl in *; auto. rewrite H. reflexivity. Qed.

Lemma rstrip_starts_clean : forall s, Workflow.starts_clean s -> Workflow.starts_clean (rstrip s).
Proof.
  intros [|a r] H; simpl in *; auto.
  destruct (rstrip r); simpl; auto. rewrite H. simpl. exact H.
Qed.

Lemma strip_idem : forall s, strip (strip s) = strip s.
Proof.
  intros s. unfold strip.
  rewrite lstrip_clean by (apply rstrip_starts_clean, lstrip_starts_clean).
  apply rstrip_idem.
Qed.

Lemma prefix_nil_l : forall t, String.prefix "" t = true.
Proof. destruct t; reflexivity. Qed.

Lemma contains_tail : forall p c t, contains p t = true -> contains p (String c t) = true.
Proof.
  intros p c t H. rewrite (contains_unfold p (String c t)). rewrite H. apply orb_true_r.
Qed.

Lemma prefix_app_contains : forall p q t,
  String.prefix (p ++ q) t = true -> contains q t = true.
Proof.
  induction p as [|a p IH]; intros q t; simpl.
  - intros H. rewrite contains_unfold. rewrite H. reflexivity.
  - destruct t as [|b t]; [intros H; discriminate H|].
    cbn [String.prefix].
    destruct (ascii_dec a b); [|intros H; discriminate H].
    intros H. apply contains_tail, (IH _ _ H).
Qed.

Lemma contains_app_r : forall p q t,
  contains (p ++ q) t = true -> contains q t = true.
Proof.
  intros p q t. induction t as [|c t IH]; intros H;
    rewrite contains_unfold in H; apply orb_true_iff in H as [H|H].
  - apply (prefix_app_contains _ _ _ H).
  - discriminate.
  - apply (prefix_app_contains _ _ _ H).
  - apply contains_tail, IH, H.
Qed.

Lemma split_app_sep : forall sep a r,
  ~ In sep (list_ascii_of_string a) ->
  split sep (a ++ String sep r) = a :: split sep r.
Proof.
  intros sep a r. induction a as [|c a IH]; intros Hin; simpl.
  - rewrite Ascii.eqb_refl. reflexivity.
  - simpl in Hin. destruct (Ascii.eqb c sep) eqn:Hc.
    + apply Ascii.eqb_eq in Hc. tauto.
    + rewrite IH by tauto. reflexivity.
Qed.

Lemma split_without_sep : forall sep a,
  ~ In sep (list_ascii_of_string a) -> split sep a = [a].
Proof.
  intros sep a. induction a as [|c a IH]; intros Hin; simpl; auto.
  simpl in Hin. destruct (Ascii.eqb c sep) eqn:Hc.
  - apply Ascii.eqb_eq in Hc. tauto.
  - rewrite IH by tauto. reflexivity.
Qed.

Lemma strip_leading_space : forall s, strip (String " " s) = strip s.
Proof. reflexivity. Qed.

(* ================================================================= *)
(** ** Properties of the session handlers *)

Section SessionProperties.

Variable World : Type.
Variable Bytes : Type.
Variable EchoService : Type.
Variable b64decode : string -> PyResult Bytes.
Variable extract : Bytes -> string -> World -> PyResult string * World.
Variable create_service : string -> World -> PyResult EchoService * World.
Variable get_compliance_summary :
  EchoService -> string -> World -> PyResult (option string) * World.
Variable edr_format eris_format : string -> World -> PyResult string * World.
Variable generate_section_streaming :
  string -> string -> string -> Testing.GenArgs -> World ->
  PyResult Testing.SectionResult * list string * World.
Variable calculate_distances :
  option string -> list string -> World ->
  PyResult Distance.DistanceBatchResult * World.
Variable str_failed : list Distance.FailureRecord -> string.

Import Testing.

Local Abbreviation M := (Testing.M World).
Local Abbreviation send_text := (@Testing.send_text World).
Local Abbreviation update := (@Testing.update World).
Local Abbreviation get_session := (@Testing.get_session World).
Local Abbreviation summarize := (Testing.summarize generate_section_streaming).
Local Abbreviation summarize_opt := (Testing.summarize_opt generate_section_streaming).
Local Abbreviation process_pdf :=
  (Testing.process_pdf b64decode extract create_service get_compliance_summary
     edr_format eris_format generate_section_streaming).
Local Abbreviation handle_intelligent_chat :=
  (Testing.handle_intelligent_chat generate_section_streaming calculate_distances
     str_failed).
Local Abbreviation generate_surrounding_section :=
  (Testing.generate_surrounding_section generate_section_streaming
     calculate_distances str_failed).
Local Abbreviation collect_groundwater :=
  (Testing.collect_groundwater generate_section_streaming calculate_distances
     str_failed).
Local Abbreviation general_chat := (Testing.general_chat generate_section_streaming).
Local Abbreviation collect_addresses := (@Testing.collect_addresses World).
Local Abbreviation surrounding_section_requested :=
  (@Testing.surrounding_section_requested World).
Local Abbreviation for_each := (@Testing.for_each World).
Local Abbreviation receive :=
  (Testing.receive b64decode extract create_service get_compliance_summary
     edr_format eris_format generate_section_streaming calculate_distances
     str_failed).
Local Abbreviation reachable :=
  (Testing.reachable b64decode extract create_service get_compliance_summary
     edr_format eris_format generate_section_streaming calculate_distances
     str_failed).

(** *** Rules for [triple] *)

Lemma triple_ret : forall A (a : A) (P : Session -> Prop) Q E,
  (forall s, P s -> Q a s) -> triple P (@ret World A a) Q E.
Proof. intros A a P Q E H st HP. simpl. auto. Qed.

Lemma triple_bind : forall A B (m : M A) (k : A -> M B) P R Q E,
  triple P m R E -> (forall a, triple (R a) (k a) Q E) ->
  triple P (bindM m k) Q E.
Proof.
  intros A B m k P R Q E Hm Hk st HP. unfold bindM.
  specialize (Hm st HP). destruct (m st) as [[e|a] st1]; [exact Hm|].
  apply Hk, Hm.
Qed.

Lemma triple_weaken : forall A (m : M A) (P P' : Session -> Prop)
    (Q Q' : A -> Session -> Prop) (E E' : PyExc -> Session -> Prop),
  triple P' m Q' E' ->
  (forall s, P s -> P' s) -> (forall a s, Q' a s -> Q a s) ->
  (forall e s, E' e s -> E e s) ->
  triple P m Q E.
Proof.
  intros A m P P' Q Q' E E' H HP HQ HE st Hst. specialize (H st (HP _ Hst)).
  destruct (m st) as [[e|a] st1]; auto.
Qed.

Lemma triple_lift : forall A (r : PyResult A) (P : Session -> Prop) Q E,
  (forall a s, r = inr a -> P s -> Q a s) ->
  (forall e s, r = inl e -> P s -> E e s) ->
  triple P (@lift World A r) Q E.
Proof. intros A [e|a] P Q E HQ HE st HP; simpl; auto. Qed.

Lemma triple_call : forall A (f : World -> PyResult A * World)
    (P : Session -> Prop) Q E,
  (forall a s, P s -> Q a s) -> (forall e s, P s -> E e s) ->
  triple P (call f) Q E.
Proof.
  intros A f P Q E HQ HE st HP. unfold call.
  destruct (f (world st)) as [[e|a] w]; simpl; auto.
Qed.

Lemma triple_summarize : forall report_type section body args
    (P : Session -> Prop) Q E,
  (forall a s, P s -> Q a s) -> (forall e s, P s -> E e s) ->
  triple P (summarize report_type section body args) Q E.
Proof.
  intros rt sec body args P Q E HQ HE st HP. unfold Testing.summarize.
  destruct (generate_section_streaming rt sec body args (world st))
    as [[[e|a] chunks] w]; simpl; auto.
Qed.

Lemma triple_summarize_opt : forall report_type section body args
    (P : Session -> Prop) Q E,
  (forall a s, P s -> Q a s) -> (forall e s, P s -> E e s) ->
  triple P (summarize_opt report_type section body args) Q E.
Proof.
  intros [rt|] sec body args P Q E HQ HE; simpl.
  - apply triple_summarize; auto.
  - apply triple_lift; [discriminate | auto].
Qed.

Lemma triple_send : forall text (P : Session -> Prop) Q E,
  (forall s, P s -> Q tt s) -> triple P (send_text text) Q E.
Proof. intros text P Q E H st HP. simpl. auto. Qed.

Lemma triple_get : forall (P : Session -> Prop) Q E,
  (forall s, P s -> Q s s) -> triple P get_session Q E.
Proof. intros P Q E H st HP. simpl. auto. Qed.

Lemma triple_update : forall f (P : Session -> Prop) Q E,
  (forall s, P s -> Q tt (f s)) -> triple P (update f) Q E.
Proof. intros f P Q E H st HP. simpl. auto. Qed.

Lemma triple_try : forall A (body : M A) handler P Q E' E,
  triple P body Q E' -> (forall e, triple (E' e) (handler e) Q E) ->
  triple P (try_except body handler) Q E.
Proof.
  intros A body handler P Q E' E Hb Hh st HP. unfold try_except.
  specialize (Hb st HP). destruct (body st) as [[e|a] st1]; [|exact Hb].
  apply Hh, Hb.
Qed.

Lemma triple_for_each_send : forall (l : list string) (f : string -> string)
    (P : Session -> Prop) E,
  triple P (for_each l (fun a => send_text (f a))) (fun _ => P) E.
Proof.
  induction l as [|a l IH]; intros f P E; simpl.
  - apply triple_ret; auto.
  - apply triple_bind with (R := fun _ => P); [apply triple_send; auto|].
    intros _. apply IH.
Qed.

Lemma keeps_bind : forall A B (m : M A) (k : A -> M B) (P : Session -> Prop),
  keeps P m -> (forall a, keeps P (k a)) -> keeps P (bindM m k).
Proof. unfold keeps. intros. eapply triple_bind; eauto. Qed.

Lemma keeps_try : forall A (body : M A) handler (P : Session -> Prop),
  keeps P body -> (forall e, keeps P (handler e)) -> keeps P (try_except body handler).
Proof. unfold keeps. intros. eapply triple_try; eauto. Qed.

Lemma keeps_update : forall f (P : Session -> Prop),
  (forall s, P s -> P (f s)) -> keeps P (update f).
Proof. unfold keeps. intros. apply triple_update; auto. Qed.

Ltac keep_leaf :=
  unfold keeps;
  first
    [ apply triple_send; solve [auto]
    | apply triple_ret; solve [auto]
    | apply triple_get; solve [auto]
    | apply triple_call; solve [auto]
    | apply triple_lift; solve [auto]
    | apply triple_summarize; solve [auto]
    | apply triple_summarize_opt; solve [auto]
    | apply triple_for_each_send ].

Ltac keep_step :=
  lazymatch goal with
  | |- triple ?P ?m (fun _ => ?P) (fun _ => ?P) => change (keeps P m)
  | |- keeps _ (bindM _ _) => apply keeps_bind; [|intros ?]
  | |- keeps _ (try_except _ _) => apply keeps_try; [|intros ?]
  | |- keeps _ (Testing.update _) => apply keeps_update; intros ? ?; subst; auto
  | |- keeps _ (if ?b then _ else _) => destruct b
  | |- keeps _ (match ?x with _ => _ end) => destruct x
  | |- keeps _ _ => keep_leaf
  end.

Ltac keep := repeat keep_step.

(** [process_pdf] never touches the address list or the two flags. *)
Lemma process_pdf_keeps_workflow : forall message v,
  keeps (fun s => workflow s = v) (process_pdf message).
Proof.
  intros message v. unfold Testing.process_pdf, Testing.echo_lookup,
    Testing.process_main_document, Testing.process_surrounding_document.
  keep.
Qed.

(** *** The chat handler *)

Lemma for_each_send : forall (l : list string) (f : string -> string) st,
  for_each l (fun a => send_text (f a)) st
  = (ok tt, {| world := world st; session := session st;
               outbox := (outbox st ++ map f l)%list |}).
Proof.
  induction l as [|a l IH]; intros f st; simpl.
  - rewrite app_nil_r. destruct st; reflexivity.
  - unfold bindM. simpl. rewrite IH. simpl. rewrite <- app_assoc. reflexivity.
Qed.

Lemma parse_addresses_filter : forall user_question,
  parse_addresses user_question
  = filter (fun a => (10 <? String.length a)%nat)
      (map strip (split ","%char user_question)).
Proof.
  intros q. unfold parse_addresses. apply filter_ext.
  intros [|c a]; reflexivity.
Qed.

(** What [collect_addresses] does to the session. *)
Lemma collect_addresses_session : forall user_question st,
  fst (collect_addresses user_question st) = ok tt
  /\ world (snd (collect_addresses user_question st)) = world st
  /\ session (snd (collect_addresses user_question st))
     = match parse_addresses user_question with
       | [] => session st
       | _ :: _ =>
           set_awaiting_groundwater (Some true)
             (set_awaiting_addresses (Some false)
                (set_surrounding_addresses
                   (Some (parse_addresses user_question)) (session st)))
       end.
Proof.
  intros q st. unfold collect_addresses.
  destruct (parse_addresses q) as [|a l] eqn:Hp; simpl; [auto|].
  unfold bindM. simpl. rewrite for_each_send. simpl. auto.
Qed.

Lemma collect_addresses_inv : forall user_question st,
  flags_follow_addresses (session (snd (collect_addresses user_question st)))
  \/ session (snd (collect_addresses user_question st)) = session st.
Proof.
  intros q st. destruct (collect_addresses_session q st) as (_ & _ & H).
  rewrite H. destruct (parse_addresses q); [right; reflexivity|].
  left. split; simpl; intros; [discriminate | reflexivity].
Qed.

Lemma surrounding_section_requested_inv : forall section st,
  flags_follow_addresses (session st) ->
  flags_follow_addresses
    (session (snd (surrounding_section_requested section st))).
Proof.
  intros section st [Ha Hg].
  unfold Testing.surrounding_section_requested, bindM. simpl.
  destruct (truthy_opt_str (section_content (session st)));
    [|split; assumption].
  destruct (truthy_opt_str (subject_address (session st)));
    [|split; assumption].
  destruct (truthy_list (surrounding_documents (session st)));
    [|split; assumption].
  destruct (truthy_list (get_default (surrounding_addresses (session st)) []))
    eqn:Haddr; simpl; split; simpl; intros H;
    solve [ exact Haddr | apply Ha in H; discriminate | apply Hg in H; discriminate ].
Qed.

(** The [try] block of the groundwater step: when it returns, the flag is
    down and the address list and the address flag are as they were; when
    it raises, the session is as it was. *)
Lemma generate_surrounding_section_triple : forall report_type direction s0,
  triple (fun s => s = s0)
    (generate_surrounding_section report_type direction)
    (fun _ s => surrounding_addresses s = surrounding_addresses s0
                /\ awaiting_addresses s = awaiting_addresses s0
                /\ awaiting_groundwater s = Some false)
    (fun _ s => s = s0).
Proof.
  intros rt dir s0. unfold Testing.generate_surrounding_section.
  assert (Hend : forall result section,
    triple (fun s => s = s0)
      (bindM (update (set_surrounding_section (Some result)))
         (fun _ => bindM (update (set_awaiting_groundwater (Some false)))
            (fun _ => send_text ("Section " ++ section ++ " complete!"))))
      (fun _ s => surrounding_addresses s = surrounding_addresses s0
                  /\ awaiting_addresses s = awaiting_addresses s0
                  /\ awaiting_groundwater s = Some false)
      (fun _ s => s = s0)).
  { intros result section st Hst. simpl. subst s0. auto. }
  apply triple_bind with (R := fun _ s => s = s0); [keep_leaf|]. intros s.
  apply triple_bind with (R := fun _ s => s = s0); [keep_leaf|]. intros addresses.
  apply triple_bind with (R := fun _ s => s = s0); [keep_leaf|]. intros distance_data.
  apply triple_bind with (R := fun _ s => s = s0); [keep_leaf|]. intros _.
  apply triple_bind with (R := fun _ s => s = s0);
    [destruct (truthy_list _); keep_leaf|]. intros _.
  apply triple_bind with (R := fun _ s => s = s0); [keep_leaf|]. intros s1.
  destruct (combine_documents _ _ _) as [data echo].
  apply triple_bind with (R := fun _ s => s = s0); [keep_leaf|]. intros _.
  apply triple_bind with (R := fun _ s => s = s0); [keep_leaf|]. intros _.
  apply triple_bind with (R := fun _ s => s = s0);
    [destruct (truthy_str _); keep_leaf|]. intros result.
  apply Hend.
Qed.

Lemma general_chat_keeps : forall s main report_type user_question P,
  keeps P (general_chat s main report_type user_question).
Proof. intros. unfold Testing.general_chat. keep. Qed.

(** What [collect_groundwater] does when a direction is recognised. *)
Lemma collect_groundwater_recognised :
  forall report_type section user_question direction st,
    Keywords.extract_groundwater_direction user_question = Some direction ->
    let st1 := {| world := world st; session := session st;
                  outbox := (outbox st
                             ++ [("Using groundwater flow direction: " ++ direction)%string;
                                 "Calculating distances..."])%list |} in
    let '(r, st') := collect_groundwater report_type section user_question st in
    r = ok tt
    /\ surrounding_addresses (session st') = surrounding_addresses (session st)
    /\ awaiting_addresses (session st') = awaiting_addresses (session st)
    /\ awaiting_groundwater (session st') = Some false
    /\ forall e st2,
         generate_surrounding_section report_type direction st1 = (inl e, st2) ->
         session st2 = session st
         /\ st' = {| world := world st2;
                     session := set_awaiting_groundwater (Some false) (session st2);
                     outbox := (outbox st2
                                ++ [("Error generating Section " ++ section ++ ": "
                                     ++ str_exc e)%string])%list |}.
Proof.
  intros rt section q dir st Hdir st1.
  assert (Heq : collect_groundwater rt section q st
                = try_except (generate_surrounding_section rt dir)
                    (fun e =>
                       bindM (send_text ("Error generating Section " ++ section ++ ": "
                                         ++ str_exc e))
                         (fun _ => update (set_awaiting_groundwater (Some false))))
                    st1).
  { unfold Testing.collect_groundwater. rewrite Hdir.
    unfold bindM, Testing.send_text. simpl. unfold st1.
    rewrite <- app_assoc. reflexivity. }
  rewrite Heq. unfold try_except.
  pose proof (generate_surrounding_section_triple rt dir (s0 := session st) st1
                eq_refl) as H.
  destruct (generate_surrounding_section rt dir st1) as [[e|[]] st2].
  - simpl in H. unfold bindM, Testing.send_text, Testing.update. simpl. rewrite H.
    split; [reflexivity|]. split; [reflexivity|]. split; [reflexivity|].
    split; [reflexivity|].
    intros e' st2' [= <- <-]. rewrite H. split; reflexivity.
  - destruct H as (H1 & H2 & H3).
    split; [reflexivity|]. split; [exact H1|]. split; [exact H2|].
    split; [exact H3|]. intros e st2' [=].
Qed.

(** The chat handler on a message that is not a request for the surrounding
    section, once the subject document is in. *)
Lemma handle_intelligent_chat_dispatch : forall message st main,
  main_document (session st) = Some main ->
  let user_question := strip (get_default (content message) "") in
  is_trigger (report_type (session st)) user_question = false ->
  handle_intelligent_chat message st
  = if flag (awaiting_addresses (session st)) then
      collect_addresses user_question st
    else if flag (awaiting_groundwater (session st)) then
      collect_groundwater (report_type (session st))
        (surrounding_section_of (report_type (session st))) user_question st
    else
      general_chat (session st) main (report_type (session st)) user_question st.
Proof.
  intros message st main Hmain q Htrigger.
  unfold Testing.handle_intelligent_chat, bindM. simpl.
  rewrite Hmain. fold q. rewrite Htrigger.
  destruct (flag (awaiting_addresses (session st))); [reflexivity|].
  destruct (flag (awaiting_groundwater (session st))); reflexivity.
Qed.

(** C6, as amended. A chat message that arrives while [awaiting_addresses]
    is up (the subject document being in, and the message not itself a
    request for the surrounding section) is split on commas and every entry
    is stripped of surrounding white space; exactly the entries of at most
    10 characters are discarded. (a) If an entry survives, the survivors
    become [surrounding_addresses], [awaiting_addresses] becomes false and
    [awaiting_groundwater] true. (b) If none survives, the session is left
    as it was, still awaiting addresses. *)
Theorem awaiting_addresses_reply : forall message st main,
  let s := session st in
  let user_question := strip (get_default (content message) "") in
  let entries := map strip (split ","%char user_question) in
  let addresses := filter (fun a => (10 <? String.length a)%nat) entries in
  main_document s = Some main ->
  is_trigger (report_type s) user_question = false ->
  flag (awaiting_addresses s) = true ->
  fst (handle_intelligent_chat message st) = ok tt
  /\ (forall a, In a addresses <-> In a entries /\ (10 < String.length a)%nat)
  /\ session (snd (handle_intelligent_chat message st))
     = match addresses with
       | [] => s
       | _ :: _ =>
           set_awaiting_groundwater (Some true)
             (set_awaiting_addresses (Some false)
                (set_surrounding_addresses (Some addresses) s))
       end.
Proof.
  intros message st main s q entries addresses Hmain Htrigger Hflag.
  rewrite (handle_intelligent_chat_dispatch message st Hmain Htrigger).
  fold s. rewrite Hflag. fold q.
  destruct (collect_addresses_session q st) as (Hr & _ & Hs).
  split; [exact Hr|]. split.
  - intros a. unfold addresses. rewrite filter_In, Nat.ltb_lt. reflexivity.
  - rewrite Hs, parse_addresses_filter. reflexivity.
Qed.

(** C8. A chat message that reaches the groundwater step with a recognised
    direction never leaves [awaiting_groundwater] up: the handler returns,
    the flag is false afterwards, and when the distance computation or the
    generation raised [e] the rest of the session is untouched and the last
    text sent is the error report carrying [str(e)]. *)
Theorem groundwater_failure_clears_flag : forall message st main direction,
  let s := session st in
  let user_question := strip (get_default (content message) "") in
  let section := surrounding_section_of (report_type s) in
  let st1 := {| world := world st; session := s;
                outbox := (outbox st
                           ++ [("Using groundwater flow direction: " ++ direction)%string;
                               "Calculating distances..."])%list |} in
  main_document s = Some main ->
  is_trigger (report_type s) user_question = false ->
  flag (awaiting_addresses s) = false ->
  flag (awaiting_groundwater s) = true ->
  Keywords.extract_groundwater_direction user_question = Some direction ->
  fst (handle_intelligent_chat message st) = ok tt
  /\ awaiting_groundwater (session (snd (handle_intelligent_chat message st)))
     = Some false
  /\ forall e st2,
       generate_surrounding_section (report_type s) direction st1 = (inl e, st2) ->
       snd (handle_intelligent_chat message st)
       = {| world := world st2;
            session := set_awaiting_groundwater (Some false) s;
            outbox := (outbox st2
                       ++ [("Error generating Section " ++ section ++ ": "
                            ++ str_exc e)%string])%list |}.
Proof.
  intros message st main direction s q section st1 Hmain Htrigger Ha Hg Hdir.
  subst s q section st1.
  rewrite (handle_intelligent_chat_dispatch message st Hmain Htrigger).
  rewrite Ha, Hg.
  pose proof (collect_groundwater_recognised (report_type (session st))
                (surrounding_section_of (report_type (session st))) _ st Hdir) as H.
  cbv zeta in H.
  destruct (collect_groundwater _ _ _ st) as [r st'].
  destruct H as (Hr & _ & _ & Hflag & Herr). cbn [fst snd].
  split; [exact Hr|]. split; [exact Hflag|].
  intros e st2 Hraise. destruct (Herr e st2 Hraise) as [Hs ->]. rewrite Hs.
  reflexivity.
Qed.

(** An exception of the distance calculator is an exception of the [try]
    block. *)
Lemma distance_failure_raises : forall report_type direction st addresses e w,
  surrounding_addresses (session st) = Some addresses ->
  calculate_distances (subject_address (session st)) addresses (world st) = (inl e, w) ->
  generate_surrounding_section report_type direction st
  = (inl e, {| world := w; session := session st; outbox := outbox st |}).
Proof.
  intros rt dir st addresses e w Haddr Hcalc.
  unfold Testing.generate_surrounding_section, bindM. simpl.
  rewrite Haddr. simpl. unfold call. rewrite Hcalc. reflexivity.
Qed.

(** An exception of the summarizer, after the distances were computed, is
    an exception of the [try] block too. *)
Lemma generation_failure_raises :
  forall report_type direction st addresses distance_data w e chunks w',
    surrounding_addresses (session st) = Some addresses ->
    calculate_distances (subject_address (session st)) addresses (world st)
    = (inr distance_data, w) ->
    (forall body args,
       generate_section_streaming report_type
         (surrounding_section_of (Some report_type)) body args w
       = (inl e, chunks, w')) ->
    exists st2,
      generate_surrounding_section (Some report_type) direction st = (inl e, st2)
      /\ session st2 = session st.
Proof.
  intros rt dir st addresses distance_data w e chunks w' Haddr Hcalc Hgen.
  unfold Testing.generate_surrounding_section, bindM. simpl.
  rewrite Haddr. simpl. unfold call. rewrite Hcalc. simpl.
  destruct (truthy_list (Distance.failed distance_data)); simpl;
    destruct (combine_documents (surrounding_documents (session st)) "" "")
      as [combined echo]; simpl;
    destruct (truthy_str (strip echo)); simpl;
    unfold Testing.summarize; simpl; rewrite Hgen; eauto.
Qed.

(** *** What each handler leaves in the session *)

Lemma triple_any : forall A (m : M A) (P : Session -> Prop),
  triple P m (fun _ _ => True) (fun _ _ => True).
Proof. intros A m P st _. destruct (m st) as [[e|a] st']; exact I. Qed.

Lemma triple_assume : forall A (m : M A) (fact : Prop) (P : Session -> Prop) Q E,
  (fact -> triple P m Q E) -> triple (fun s => P s /\ fact) m Q E.
Proof. intros A m fact P Q E H st [HP Hf]. apply (H Hf st HP). Qed.

(** The [try] block of the groundwater step, with what it stores. *)
Lemma generate_surrounding_section_stores : forall report_type direction s0,
  triple (fun s => s = s0)
    (generate_surrounding_section report_type direction)
    (fun _ s => exists result,
       s = set_awaiting_groundwater (Some false)
             (set_surrounding_section (Some result) s0))
    (fun _ s => s = s0).
Proof.
  intros rt dir s0. unfold Testing.generate_surrounding_section.
  apply triple_bind with (R := fun _ s => s = s0); [keep_leaf|]. intros s.
  apply triple_bind with (R := fun _ s => s = s0); [keep_leaf|]. intros addresses.
  apply triple_bind with (R := fun _ s => s = s0); [keep_leaf|]. intros distance_data.
  apply triple_bind with (R := fun _ s => s = s0); [keep_leaf|]. intros _.
  apply triple_bind with (R := fun _ s => s = s0);
    [destruct (truthy_list _); keep_leaf|]. intros _.
  apply triple_bind with (R := fun _ s => s = s0); [keep_leaf|]. intros s1.
  destruct (combine_documents _ _ _) as [combined echo].
  apply triple_bind with (R := fun _ s => s = s0); [keep_leaf|]. intros _.
  apply triple_bind with (R := fun _ s => s = s0); [keep_leaf|]. intros _.
  apply triple_bind with (R := fun _ s => s = s0);
    [destruct (truthy_str _); keep_leaf|]. intros result.
  intros st Hst. simpl. subst s0. exists result. reflexivity.
Qed.

(** The groundwater step with a recognised direction, as one [try]. *)
Lemma collect_groundwater_try : forall report_type section user_question direction st,
  Keywords.extract_groundwater_direction user_question = Some direction ->
  collect_groundwater report_type section user_question st
  = try_except (generate_surrounding_section report_type direction)
      (fun e =>
         bindM (send_text ("Error generating Section " ++ section ++ ": "
                           ++ str_exc e))
           (fun _ => update (set_awaiting_groundwater (Some false))))
      {| world := world st; session := session st;
         outbox := (outbox st
                    ++ [("Using groundwater flow direction: " ++ direction)%string;
                        "Calculating distances..."])%list |}.
Proof.
  intros rt section q dir st Hdir. unfold Testing.collect_groundwater.
  rewrite Hdir. unfold bindM, Testing.send_text. simpl.
  rewrite <- app_assoc. reflexivity.
Qed.

(** The groundwater step: the handler returns, and the session is as it
    was, or has the flag down, or has the flag down and the section in. *)
Lemma collect_groundwater_session : forall report_type section user_question st,
  fst (collect_groundwater report_type section user_question st) = ok tt
  /\ (session (snd (collect_groundwater report_type section user_question st))
      = session st
      \/ session (snd (collect_groundwater report_type section user_question st))
         = set_awaiting_groundwater (Some false) (session st)
      \/ exists result,
           session (snd (collect_groundwater report_type section user_question st))
           = set_awaiting_groundwater (Some false)
               (set_surrounding_section (Some result) (session st))).
Proof.
  intros rt section q st.
  destruct (Keywords.extract_groundwater_direction q) as [dir|] eqn:Hdir.
  - rewrite (collect_groundwater_try rt section q st Hdir). unfold try_except.
    match goal with
    | |- context [generate_surrounding_section rt dir ?st1] =>
        pose proof (@generate_surrounding_section_stores rt dir (session st) st1
                      eq_refl) as H;
        destruct (generate_surrounding_section rt dir st1) as [[e|[]] st2]
    end.
    + unfold bindM, Testing.send_text, Testing.update. cbn. rewrite H. auto.
    + cbn. destruct H as [result H]. split; [reflexivity|]. right. right.
      exists result. exact H.
  - unfold Testing.collect_groundwater. rewrite Hdir. cbn. auto.
Qed.

(** The request for the surrounding section: no collaborator is called, and
    the checks run in the order section, address, documents, addresses. *)
Lemma surrounding_section_requested_session : forall section st,
  fst (surrounding_section_requested section st) = ok tt
  /\ world (snd (surrounding_section_requested section st)) = world st
  /\ session (snd (surrounding_section_requested section st))
     = if negb (truthy_opt_str (section_content (session st))) then session st
       else if negb (truthy_opt_str (subject_address (session st))) then session st
       else if negb (truthy_list (surrounding_documents (session st))) then session st
       else if negb (Workflow.has_addresses (session st))
            then set_awaiting_addresses (Some true) (session st)
            else set_awaiting_groundwater (Some true) (session st).
Proof.
  intros section st. unfold Testing.surrounding_section_requested, bindM,
    Workflow.has_addresses. simpl.
  destruct (truthy_opt_str (section_content (session st)));
    destruct (truthy_opt_str (subject_address (session st)));
    destruct (truthy_list (surrounding_documents (session st)));
    destruct (truthy_list (get_default (surrounding_addresses (session st)) []));
    cbn; auto.
Qed.

(** The question-answering path: the handler returns and the session is
    untouched, whatever the summarizer does. *)
Lemma general_chat_session : forall s main report_type user_question st,
  fst (general_chat s main report_type user_question st) = ok tt
  /\ session (snd (general_chat s main report_type user_question st)) = session st.
Proof.
  intros s main rt q st. unfold Testing.general_chat, try_except, bindM,
    Testing.summarize.
  destruct (generate_section_streaming _ _ _ _ (world st)) as [[[e|r] chunks] w];
    cbn; auto.
Qed.

(** Every way a chat message can leave the session. *)
Lemma handle_intelligent_chat_session : forall message st,
  let s := session st in
  let user_question := strip (get_default (content message) "") in
  let s' := session (snd (handle_intelligent_chat message st)) in
  fst (handle_intelligent_chat message st) = ok tt
  /\ (s' = s
      \/ (Workflow.prerequisites s /\ Workflow.has_addresses s = false
          /\ is_trigger (report_type s) user_question = true
          /\ s' = set_awaiting_addresses (Some true) s)
      \/ (Workflow.prerequisites s /\ Workflow.has_addresses s = true
          /\ is_trigger (report_type s) user_question = true
          /\ s' = set_awaiting_groundwater (Some true) s)
      \/ (main_document s <> None /\ flag (awaiting_addresses s) = true
          /\ parse_addresses user_question <> []
          /\ s' = Workflow.with_addresses (parse_addresses user_question) s)
      \/ (main_document s <> None /\ flag (awaiting_addresses s) = false
          /\ flag (awaiting_groundwater s) = true
          /\ (s' = set_awaiting_groundwater (Some false) s
              \/ exists result,
                   s' = set_awaiting_groundwater (Some false)
                          (set_surrounding_section (Some result) s)))).
Proof.
  intros message st s q s'. subst s'.
  destruct (main_document s) as [main|] eqn:Hmain.
  - assert (Hsome : main_document s <> None) by (rewrite Hmain; discriminate).
    assert (Hsome' : Some main <> None) by discriminate.
    destruct (is_trigger (report_type s) q) eqn:Htrigger.
    + assert (Heq : handle_intelligent_chat message st
                    = surrounding_section_requested
                        (surrounding_section_of (report_type s)) st).
      { unfold Testing.handle_intelligent_chat, bindM. simpl.
        fold s. rewrite Hmain. fold q. rewrite Htrigger. reflexivity. }
      rewrite Heq.
      destruct (surrounding_section_requested_session
                  (surrounding_section_of (report_type s)) st) as (Hr & _ & Hs).
      split; [exact Hr|]. rewrite Hs. fold s. unfold Workflow.prerequisites.
      destruct (truthy_opt_str (section_content s)); cbn; [|auto].
      destruct (truthy_opt_str (subject_address s)); cbn; [|auto].
      destruct (truthy_list (surrounding_documents s)); cbn; [|auto].
      destruct (Workflow.has_addresses s); cbn.
      * right. right. left. auto 10.
      * right. left. auto 10.
    + rewrite (handle_intelligent_chat_dispatch message st Hmain Htrigger).
      fold s q.
      destruct (flag (awaiting_addresses s)) eqn:Ha.
      * destruct (collect_addresses_session q st) as (Hr & _ & Hs).
        split; [exact Hr|]. rewrite Hs. fold s.
        destruct (parse_addresses q) as [|a l] eqn:Hp; [auto|].
        right. right. right. left.
        split; [assumption|]. split; [reflexivity|]. split; [discriminate|].
        reflexivity.
      * destruct (flag (awaiting_groundwater s)) eqn:Hg.
        -- destruct (collect_groundwater_session (report_type s)
                       (surrounding_section_of (report_type s)) q st) as (Hr & Hs).
           split; [exact Hr|]. fold s in Hs.
           destruct Hs as [Hs|Hs]; [auto|].
           right. right. right. right. auto.
        -- destruct (general_chat_session s main (report_type s) q st) as (Hr & Hs).
           split; [exact Hr|]. left. exact Hs.
  - unfold Testing.handle_intelligent_chat, bindM. simpl.
    fold s. rewrite Hmain. cbn. auto.
Qed.

(** The body of [process_pdf] once the text is extracted and formatted. *)
Lemma process_main_document_triple :
  forall report_type name raw_text formatted_text summary base,
    triple (fun s => s = base)
      (Testing.process_main_document generate_section_streaming report_type
         name raw_text formatted_text summary)
      (fun _ s => exists result,
         s = Workflow.with_main_document
               {| filename := name; text := raw_text;
                  formatted := formatted_text; echo_summary := summary |}
               result base)
      (fun _ s => s = base).
Proof.
  intros rt name raw fmt summary base. unfold Testing.process_main_document.
  apply triple_bind with (R := fun _ s => s = base); [keep_leaf|]. intros _.
  apply triple_bind with (R := fun _ s => s = base); [keep_leaf|]. intros _.
  apply triple_bind with (R := fun _ s => s = base);
    [destruct (truthy_opt_str _); keep_leaf|]. intros result.
  intros st Hst. subst base.
  destruct result as [sc sa|r]; cbn;
    [exists (ResultDict sc sa) | exists (ResultStr r)]; reflexivity.
Qed.

Lemma process_surrounding_document_triple :
  forall report_type name raw_text formatted_text summary base E,
    triple (fun s => s = base)
      (@Testing.process_surrounding_document World report_type
         name raw_text formatted_text summary)
      (fun _ s =>
         s = Workflow.with_surrounding_document
               {| filename := name; text := raw_text;
                  formatted := formatted_text; echo_summary := summary |}
               base)
      E.
Proof.
  intros rt name raw fmt summary base E st Hst. subst base. cbn. reflexivity.
Qed.

(** Every way an upload can leave the session: with the report type only,
    or with the report type and the whole document; it never raises. *)
Lemma process_pdf_triple : forall message s0,
  let base :=
    set_report_type (Some (get_default (reportType message) "EDR")) s0 in
  triple (fun s => s = s0) (process_pdf message)
    (fun _ s =>
       s = base
       \/ (main_document s0 = None
           /\ exists doc result,
                upload_filename message = Some (filename doc)
                /\ truthy_str (text doc) = true
                /\ s = Workflow.with_main_document doc result base)
       \/ (main_document s0 <> None
           /\ exists doc,
                upload_filename message = Some (filename doc)
                /\ truthy_str (text doc) = true
                /\ s = Workflow.with_surrounding_document doc base))
    (fun _ _ => False).
Proof.
  intros message s0 base.
  unfold Testing.process_pdf.
  apply triple_bind with (R := fun _ s => s = base);
    [apply triple_update; intros s ->; reflexivity|]. intros _.
  apply triple_bind with (R := fun _ s => s = base); [keep_leaf|]. intros _.
  apply triple_bind with (R := fun _ s => s = base); [keep_leaf|]. intros _.
  apply triple_try with (E' := fun _ s => s = base);
    [|intros e; apply triple_send; intros s ->; left; reflexivity].
  apply triple_bind with (R := fun _ s => s = base); [keep_leaf|].
  intros message_data.
  apply triple_bind with (R := fun _ s => s = base); [keep_leaf|].
  intros pdf_bytes.
  apply triple_bind
    with (R := fun name s => s = base /\ upload_filename message = Some name).
  { apply triple_lift; [|auto]. intros name s Hname ->. split; [reflexivity|].
    destruct (upload_filename message); [inversion Hname; reflexivity|discriminate]. }
  intros name. apply triple_assume. intros Hname.
  apply triple_bind with (R := fun _ s => s = base); [keep_leaf|].
  intros extracted.
  destruct (truthy_str (strip extracted)) eqn:Htext; cbn [negb];
    [|apply triple_send; intros s ->; left; reflexivity].
  apply triple_bind with (R := fun _ s => s = base); [keep_leaf|].
  intros echo_service.
  apply triple_bind with (R := fun _ s => s = base).
  { change (keeps (fun s => s = base)
              (Testing.echo_lookup get_compliance_summary echo_service
                 (strip extracted))).
    unfold Testing.echo_lookup. keep. }
  intros summary.
  apply triple_bind with (R := fun _ s => s = base); [keep_leaf|].
  intros formatted_text.
  apply triple_bind with (R := fun s1 s => s = base /\ s1 = base);
    [apply triple_get; auto|].
  intros s1. apply triple_assume. intros ->.
  change (main_document base) with (main_document s0).
  destruct (main_document s0) as [d|] eqn:Hd.
  - apply triple_weaken
      with (P' := fun s => s = base)
           (Q' := fun _ s =>
              s = Workflow.with_surrounding_document
                    {| filename := name; text := strip extracted;
                       formatted := formatted_text; echo_summary := summary |}
                    base)
           (E' := fun _ s => s = base);
      [apply process_surrounding_document_triple | auto | | auto].
    intros _ s Hs. right. right. split; [discriminate|].
    exists {| filename := name; text := strip extracted;
              formatted := formatted_text; echo_summary := summary |}.
    split; [exact Hname|]. split; [exact Htext | exact Hs].
  - apply triple_weaken
      with (P' := fun s => s = base)
           (Q' := fun _ s => exists result,
              s = Workflow.with_main_document
                    {| filename := name; text := strip extracted;
                       formatted := formatted_text; echo_summary := summary |}
                    result base)
           (E' := fun _ s => s = base);
      [apply process_main_document_triple | auto | | auto].
    intros _ s [result Hs]. right. left. split; [reflexivity|].
    exists {| filename := name; text := strip extracted;
              formatted := formatted_text; echo_summary := summary |}, result.
    split; [exact Hname|]. split; [exact Htext | exact Hs].
Qed.

(** *** The two flags *)

Lemma flags_follow_addresses_workflow : forall s s',
  workflow s' = workflow s -> flags_follow_addresses s -> flags_follow_addresses s'.
Proof.
  intros s s' H. unfold workflow in H. injection H as H1 H2 H3.
  unfold flags_follow_addresses. rewrite H1, H2, H3. auto.
Qed.

Lemma handle_intelligent_chat_inv : forall message st,
  flags_follow_addresses (session st) ->
  flags_follow_addresses (session (snd (handle_intelligent_chat message st))).
Proof.
  intros message st Hinv.
  destruct (main_document (session st)) as [main|] eqn:Hmain.
  - destruct (is_trigger (report_type (session st))
                (strip (get_default (content message) ""))) eqn:Htrigger.
    + unfold Testing.handle_intelligent_chat, bindM. simpl.
      rewrite Hmain, Htrigger. apply surrounding_section_requested_inv, Hinv.
    + rewrite (handle_intelligent_chat_dispatch message st Hmain Htrigger).
      destruct (flag (awaiting_addresses (session st))) eqn:Ha.
      * destruct (collect_addresses_inv
                    (strip (get_default (content message) "")) st) as [H|H];
          [exact H | rewrite H; exact Hinv].
      * destruct (flag (awaiting_groundwater (session st))) eqn:Hg.
        -- destruct (Keywords.extract_groundwater_direction
                       (strip (get_default (content message) ""))) as [dir|] eqn:Hdir.
           ++ pose proof (collect_groundwater_recognised (report_type (session st))
                            (surrounding_section_of (report_type (session st)))
                            _ st Hdir) as H.
              cbv zeta in H.
              destruct (collect_groundwater _ _ _ st) as [r st'].
              destruct H as (_ & H1 & H2 & H3 & _). simpl.
              destruct Hinv as [Hia Hig]. split.
              ** rewrite H1, H2. exact Hia.
              ** rewrite H3. discriminate.
           ++ unfold Testing.collect_groundwater. rewrite Hdir. exact Hinv.
        -- pose proof (@general_chat_keeps (session st) main
                         (report_type (session st))
                         (strip (get_default (content message) ""))
                         flags_follow_addresses st Hinv) as H.
           destruct (general_chat _ _ _ _ st) as [[e|a] st']; exact H.
  - unfold Testing.handle_intelligent_chat, bindM. simpl. rewrite Hmain. exact Hinv.
Qed.

Lemma receive_inv : forall frame st,
  flags_follow_addresses (session st) ->
  flags_follow_addresses (session (snd (receive frame st))).
Proof.
  intros [[message|message| |]|] st Hinv; simpl.
  - pose proof (@process_pdf_keeps_workflow message (workflow (session st)) st
                  eq_refl) as H.
    destruct (process_pdf message st) as [[e|a] st']; simpl;
      apply (flags_follow_addresses_workflow H Hinv).
  - apply handle_intelligent_chat_inv, Hinv.
  - split; discriminate.
  - exact Hinv.
  - exact Hinv.
Qed.

Lemma reachable_inv : forall st,
  reachable st -> flags_follow_addresses (session st).
Proof.
  induction 1 as [w|st frame Hreach IH].
  - split; discriminate.
  - apply receive_inv, IH.
Qed.

(** C9. In no state the loop of [websocket_endpoint] can reach, through any
    sequence of uploads, chat messages, session clears and other frames and
    whatever the collaborators answer, are [awaiting_addresses] and
    [awaiting_groundwater] both true. *)
Theorem flags_never_both_true : forall st,
  reachable st -> flags_exclusive (session st).
Proof.
  intros st Hreach [Ha Hg]. destruct (reachable_inv Hreach) as [Hia Hig].
  rewrite (Hia Ha) in Hig. specialize (Hig Hg). discriminate.
Qed.

(** *** The session between two frames *)

Lemma parse_addresses_clean : forall user_question,
  Forall Workflow.clean_address (parse_addresses user_question).
Proof.
  intros q. rewrite parse_addresses_filter. apply Forall_forall. intros a Ha.
  apply filter_In in Ha as [Ha Hlen]. apply in_map_iff in Ha as (e & <- & He).
  apply Nat.ltb_lt in Hlen. split; [exact Hlen|]. split.
  - intros Hc. apply (@split_no_sep _ _ _ He), strip_chars, Hc.
  - apply strip_idem.
Qed.

Lemma truthy_list_app : forall A (l : list A) a, truthy_list (l ++ [a]) = true.
Proof. intros A [|x l] a; reflexivity. Qed.

Ltac wf_fields :=
  unfold Workflow.well_formed, flags_follow_addresses, Workflow.prerequisites,
    Workflow.has_addresses, Workflow.with_addresses,
    Workflow.with_surrounding_document, Workflow.with_main_document,
    Workflow.store_result in *;
  cbn in *.

Lemma well_formed_initial : Workflow.well_formed initial_session.
Proof.
  wf_fields. repeat split; try discriminate; try tauto;
    destruct H as [H|H]; discriminate.
Qed.

Lemma process_pdf_well_formed : forall message st,
  Workflow.well_formed (session st) ->
  Workflow.well_formed (session (snd (process_pdf message st))).
Proof.
  intros message st Hwf.
  pose proof (@process_pdf_triple message (session st) st eq_refl) as H.
  destruct (process_pdf message st) as [[e|[]] st']; [contradiction|].
  cbn [snd]. destruct Hwf as (Hf & Hp & Hstage & Hrt & Hinit & Haddr).
  destruct H as [-> | [(Hnone & doc & result & _ & _ & ->) | (Hsome & doc & _ & _ & ->)]].
  - wf_fields. repeat split; try tauto; try (apply Haddr; assumption).
    + discriminate.
    + intros Hn. rewrite (Hinit Hn). reflexivity.
  - specialize (Hinit Hnone). rewrite Hinit.
    destruct result as [sc sa|r]; wf_fields;
      repeat split; try discriminate; try tauto;
      match goal with H : _ \/ _ |- _ => destruct H; discriminate end.
  - wf_fields. rewrite truthy_list_app.
    repeat split; try tauto; try (apply Haddr; assumption).
    discriminate.
Qed.

Lemma handle_intelligent_chat_well_formed : forall message st,
  Workflow.well_formed (session st) ->
  Workflow.well_formed (session (snd (handle_intelligent_chat message st))).
Proof.
  intros message st Hwf.
  destruct (handle_intelligent_chat_session message st) as (_ & H).
  cbv zeta in H.
  pose proof (parse_addresses_clean (strip (get_default (content message) "")))
    as Hclean.
  destruct H as [-> | [(Hp & Ha & _ & ->) | [(Hp & Ha & _ & ->)
                | [(Hm & Hfa & Hne & ->) | (Hm & Hfa & Hfg & [-> | [r ->]])]]]];
    [exact Hwf | | | | |];
    destruct Hwf as (Hf & Hpre & Hstage & Hrt & Hinit & Haddr);
    wf_fields; repeat split; try tauto; try discriminate;
    try (apply Haddr; assumption);
    try (intros Hn; exfalso; tauto).
  - intros _. destruct (parse_addresses _); [contradiction | reflexivity].
  - match goal with H : Some _ = Some l |- _ => injection H as <- end. exact Hne.
  - match goal with H : Some _ = Some l |- _ => injection H as <- end. exact Hclean.
Qed.

Lemma receive_well_formed : forall frame st,
  Workflow.well_formed (session st) ->
  Workflow.well_formed (session (snd (receive frame st))).
Proof.
  intros [[message|message| |]|] st Hwf; simpl.
  - apply process_pdf_well_formed, Hwf.
  - apply handle_intelligent_chat_well_formed, Hwf.
  - apply well_formed_initial.
  - exact Hwf.
  - exact Hwf.
Qed.

Lemma reachable_well_formed : forall st,
  reachable st -> Workflow.well_formed (session st).
Proof.
  induction 1 as [w|st frame Hreach IH].
  - apply well_formed_initial.
  - apply receive_well_formed, IH.
Qed.

(** *** Further properties of the handlers *)

(** X1. Handling a frame (text that is not JSON, or a JSON object whose
    fields, where present, are strings) never raises, whatever the
    collaborators do: an upload reports every exception of its
    collaborators as a text message, the chat handler does the same in its
    two [try] blocks, and the other frames call nothing. No such frame ends
    the loop. *)
Theorem receive_always_returns : forall frame st,
  fst (receive frame st) = ok tt.
Proof.
  intros [[message|message| |]|] st; simpl; try reflexivity.
  - pose proof (@process_pdf_triple message (session st) st eq_refl) as H.
    destruct (process_pdf message st) as [[e|[]] st']; [contradiction | reflexivity].
  - apply handle_intelligent_chat_session.
Qed.

(** X2. An upload stores a document whole or not at all. Besides the report
    type, which is always overwritten, the session afterwards is untouched
    (the upload failed somewhere), or holds the subject document together
    with its section and stage (only when there was no subject document),
    or holds one more surrounding document (only when there was one). The
    stored document bears the uploaded file name and a text that is not
    blank. *)
Theorem upload_is_atomic : forall message st,
  let base :=
    set_report_type (Some (get_default (reportType message) "EDR")) (session st) in
  let s' := session (snd (process_pdf message st)) in
  s' = base
  \/ (main_document (session st) = None
      /\ exists doc result,
           upload_filename message = Some (filename doc)
           /\ truthy_str (text doc) = true
           /\ s' = Workflow.with_main_document doc result base)
  \/ (main_document (session st) <> None
      /\ exists doc,
           upload_filename message = Some (filename doc)
           /\ truthy_str (text doc) = true
           /\ s' = Workflow.with_surrounding_document doc base).
Proof.
  intros message st base s'. subst s'.
  pose proof (@process_pdf_triple message (session st) st eq_refl) as H.
  destruct (process_pdf message st) as [[e|[]] st']; [contradiction | exact H].
Qed.

(** X3. Short of [clear_session], no frame replaces the subject document
    once it is set, and no frame removes or reorders surrounding documents:
    the list afterwards is the list before with at most one document
    appended. *)
Theorem documents_only_grow : forall frame st,
  frame <> Json ClearSession ->
  (forall d, main_document (session st) = Some d ->
             main_document (session (snd (receive frame st))) = Some d)
  /\ exists more,
       surrounding_documents (session (snd (receive frame st)))
       = (surrounding_documents (session st) ++ more)%list
       /\ (List.length more <= 1)%nat.
Proof.
  intros [[message|message| |]|] st Hframe; simpl.
  - pose proof (@process_pdf_triple message (session st) st eq_refl) as H.
    destruct (process_pdf message st) as [[e|[]] st']; [contradiction|].
    cbn [snd].
    destruct H as [-> | [(Hnone & doc & result & _ & _ & ->)
                        | (Hsome & doc & _ & _ & ->)]].
    + split; [auto|]. exists []. rewrite app_nil_r. auto.
    + split; [intros d Hd; congruence|]. exists [].
      rewrite app_nil_r. destruct result; auto.
    + split; [auto|]. exists [doc]. auto.
  - destruct (handle_intelligent_chat_session message st) as (_ & H).
    cbv zeta in H.
    assert (Hsame : main_document (session (snd (handle_intelligent_chat message st)))
                    = main_document (session st)
                    /\ surrounding_documents
                         (session (snd (handle_intelligent_chat message st)))
                       = surrounding_documents (session st)).
    { destruct H as [-> | [(_ & _ & _ & ->) | [(_ & _ & _ & ->)
                   | [(_ & _ & _ & ->) | (_ & _ & _ & [-> | [r ->]])]]]]; auto. }
    destruct Hsame as [Hm Hd]. rewrite Hm, Hd.
    split; [auto|]. exists []. rewrite app_nil_r. auto.
  - contradiction.
  - split; [auto|]. exists []. rewrite app_nil_r. auto.
  - split; [auto|]. exists []. rewrite app_nil_r. auto.
Qed.


(** X5. In a reachable session the stage is "can_upload_surrounding" exactly
    when the subject document is set, and "awaiting_report_selection"
    otherwise: no handler stores any other stage. *)
Theorem workflow_stage_tracks_subject_document : forall st,
  reachable st ->
  workflow_stage (session st)
  = match main_document (session st) with
    | Some _ => "can_upload_surrounding"
    | None => "awaiting_report_selection"
    end.
Proof. intros st Hreach. apply (reachable_well_formed Hreach). Qed.

(** X6. Until the subject document is in, nothing accumulates: whatever
    uploads failed and whatever was said, a reachable session without a
    subject document is the initial session, up to the report type of the
    last upload. *)
Theorem session_initial_before_subject_document : forall st,
  reachable st ->
  main_document (session st) = None ->
  session st = set_report_type (report_type (session st)) initial_session.
Proof. intros st Hreach. apply (reachable_well_formed Hreach). Qed.

(** X7. The address list of a reachable session, once stored, is not empty,
    and each address in it has more than 10 characters, contains no comma
    and has no white space at either end. *)
Theorem stored_addresses_are_clean : forall st addresses,
  reachable st ->
  surrounding_addresses (session st) = Some addresses ->
  addresses <> [] /\ Forall Workflow.clean_address addresses.
Proof. intros st addresses Hreach. apply (reachable_well_formed Hreach). Qed.

(** X8. A request for the surrounding section (a message containing a
    trigger phrase, the subject document being in) calls no collaborator and
    checks, in this order, the subject section, the subject address, the
    surrounding documents and the addresses: the first one missing leaves
    the session as it was, except that missing addresses raise
    [awaiting_addresses]; only when all four are there is
    [awaiting_groundwater] raised. *)
Theorem surrounding_request_guards : forall message st main,
  let s := session st in
  let user_question := strip (get_default (content message) "") in
  main_document s = Some main ->
  is_trigger (report_type s) user_question = true ->
  fst (handle_intelligent_chat message st) = ok tt
  /\ world (snd (handle_intelligent_chat message st)) = world st
  /\ session (snd (handle_intelligent_chat message st))
     = if negb (truthy_opt_str (section_content s)) then s
       else if negb (truthy_opt_str (subject_address s)) then s
       else if negb (truthy_list (surrounding_documents s)) then s
       else if negb (Workflow.has_addresses s)
            then set_awaiting_addresses (Some true) s
            else set_awaiting_groundwater (Some true) s.
Proof.
  intros message st main s q Hmain Htrigger.
  assert (Heq : handle_intelligent_chat message st
                = surrounding_section_requested
                    (surrounding_section_of (report_type s)) st).
  { unfold Testing.handle_intelligent_chat, bindM. simpl.
    fold s. rewrite Hmain. fold q. rewrite Htrigger. reflexivity. }
  rewrite Heq. apply surrounding_section_requested_session.
Qed.

(** X9. [clear_session] resets every state to the initial session, the
    address list and both flags included; a chat message that follows is
    refused for want of a subject document, calls no collaborator and
    leaves the session initial. *)
Theorem clear_then_chat : forall message st,
  let st1 := snd (Testing.clear_session st) in
  let st2 := snd (handle_intelligent_chat message st1) in
  session st1 = initial_session
  /\ session st2 = initial_session
  /\ world st2 = world st
  /\ outbox st2
     = (outbox st
        ++ ["Session cleared successfully.";
            "Please upload the subject propety adress and pdf file for the subject property."])%list.
Proof.
  intros message st. cbn. rewrite <- app_assoc. auto.
Qed.

(** X10. A chat message that is no request for the surrounding section and
    arrives while no flag is up goes to the question-answering path: the
    session is left exactly as it was, and when the summarizer raises [e]
    the handler still returns, after telling the user so. *)
Theorem general_chat_leaves_session : forall message st main,
  let s := session st in
  let user_question := strip (get_default (content message) "") in
  main_document s = Some main ->
  is_trigger (report_type s) user_question = false ->
  flag (awaiting_addresses s) = false ->
  flag (awaiting_groundwater s) = false ->
  fst (handle_intelligent_chat message st) = ok tt
  /\ session (snd (handle_intelligent_chat message st)) = s
  /\ forall e chunks w,
       generate_section_streaming "" "chat"
         (chat_context s main (report_type s) user_question)
         {| arg_subject_address := None; arg_groundwater_flow := None;
            arg_distance_data := None; arg_temperature := Some 0.1%float;
            arg_max_tokens := Some 800%Z |} (world st)
       = (inl e, chunks, w) ->
       outbox (snd (handle_intelligent_chat message st))
       = (outbox st ++ chunks
          ++ [("I had trouble processing your question: " ++ str_exc e)%string])%list.
Proof.
  intros message st main s q Hmain Htrigger Ha Hg.
  rewrite (handle_intelligent_chat_dispatch message st Hmain Htrigger).
  fold s. rewrite Ha, Hg. fold q.
  destruct (general_chat_session s main (report_type s) q st) as (Hr & Hs).
  split; [exact Hr|]. split; [exact Hs|].
  intros e chunks w Hraise.
  unfold Testing.general_chat, try_except, bindM, Testing.summarize.
  rewrite Hraise. cbn. rewrite <- app_assoc. reflexivity.
Qed.

(** X11. When the groundwater step succeeds, that is a direction is
    recognised, the distance calculator returns and the summarizer returns
    [result], the session keeps [result] as its surrounding section,
    [awaiting_groundwater] is false, nothing else changes, and the last
    message announces the section complete. *)
Theorem groundwater_success_stores_section :
  forall message st main direction addresses report distance_data w1 result chunks w2,
    let s := session st in
    let user_question := strip (get_default (content message) "") in
    let section := surrounding_section_of (Some report) in
    main_document s = Some main ->
    report_type s = Some report ->
    is_trigger (report_type s) user_question = false ->
    flag (awaiting_addresses s) = false ->
    flag (awaiting_groundwater s) = true ->
    Keywords.extract_groundwater_direction user_question = Some direction ->
    surrounding_addresses s = Some addresses ->
    calculate_distances (subject_address s) addresses (world st)
    = (inr distance_data, w1) ->
    (forall body args,
       generate_section_streaming report section body args w1
       = (inr result, chunks, w2)) ->
    fst (handle_intelligent_chat message st) = ok tt
    /\ session (snd (handle_intelligent_chat message st))
       = set_awaiting_groundwater (Some false)
           (set_surrounding_section (Some result) s)
    /\ world (snd (handle_intelligent_chat message st)) = w2
    /\ last (outbox (snd (handle_intelligent_chat message st))) ""
       = ("Section " ++ section ++ " complete!")%string.
Proof.
  intros message st main direction addresses report distance_data w1 result
         chunks w2 s q section Hmain Hreport Htrigger Ha Hg Hdir Haddr Hcalc Hgen.
  rewrite (handle_intelligent_chat_dispatch message st Hmain Htrigger).
  fold s. rewrite Ha, Hg. fold q.
  rewrite (collect_groundwater_try _ _ q st Hdir).
  unfold try_except, Testing.generate_surrounding_section, bindM. simpl.
  fold s. rewrite Haddr. simpl. unfold call. simpl. rewrite Hcalc. simpl.
  rewrite Hreport.
  destruct (truthy_list (Distance.failed distance_data)); simpl;
    destruct (combine_documents (surrounding_documents s) "" "")
      as [combined echo]; simpl;
    destruct (truthy_str (strip echo)); simpl;
    unfold Testing.summarize; simpl; fold section; rewrite Hgen; simpl;
    rewrite ?last_last; auto.
Qed.

(** X12. Of the five trigger phrases only three matter: a message contains
    "generate 5.2.2" or "section 5.2.2" only if it contains "5.2.2" (and
    likewise for 5.2.4), so a message is a request for the surrounding
    section exactly when, lower-cased, it contains the section number, the
    section number without dots, or "surrounding properties". *)
Theorem redundant_triggers : forall report_type user_question,
  let section := surrounding_section_of report_type in
  let text := lower user_question in
  is_trigger report_type user_question
  = contains section text || contains (remove_dots section) text
    || contains "surrounding properties" text.
Proof.
  intros rt q section text. unfold is_trigger, section_triggers, any.
  fold section text. unfold section, surrounding_section_of.
  destruct (is_edr_opt rt); cbn [existsb app remove_dots Ascii.eqb].
  - pose proof (@contains_app_r "generate " "5.2.2" text) as H1.
    pose proof (@contains_app_r "section " "5.2.2" text) as H2.
    cbn [append] in H1, H2.
    destruct (contains "5.2.2" text); [reflexivity|].
    destruct (contains "generate 5.2.2" text); [discriminate (H1 eq_refl)|].
    destruct (contains "section 5.2.2" text); [discriminate (H2 eq_refl)|].
    cbn. rewrite !orb_false_r. reflexivity.
  - pose proof (@contains_app_r "generate " "5.2.4" text) as H1.
    pose proof (@contains_app_r "section " "5.2.4" text) as H2.
    cbn [append] in H1, H2.
    destruct (contains "5.2.4" text); [reflexivity|].
    destruct (contains "generate 5.2.4" text); [discriminate (H1 eq_refl)|].
    destruct (contains "section 5.2.4" text); [discriminate (H2 eq_refl)|].
    cbn. rewrite !orb_false_r. reflexivity.
Qed.

Lemma split_joined : forall l,
  l <> [] -> Forall Workflow.clean_address l ->
  map strip (split ","%char (String.concat ", " l)) = l.
Proof.
  induction l as [|a l IH]; intros Hne Hclean; [contradiction|].
  inversion Hclean as [|? ? (_ & Hcomma & Hstrip) Hrest]; subst.
  destruct l as [|b l].
  - simpl. rewrite (split_without_sep _ _ Hcomma). simpl. rewrite Hstrip. reflexivity.
  - specialize (IH ltac:(discriminate) Hrest).
    change (String.concat ", " (a :: b :: l))
      with (a ++ String ","%char (String " "%char (String.concat ", " (b :: l))))%string.
    rewrite (split_app_sep _ _ _ Hcomma).
    cbn [map]. rewrite Hstrip. f_equal.
    cbn [split]. change (Ascii.eqb " " ",") with false. cbv iota.
    destruct (split ","%char (String.concat ", " (b :: l))) as [|w ws];
      [discriminate IH|].
    cbn [map] in IH |- *. rewrite strip_leading_space. exact IH.
Qed.

(** X14. The address parser undoes a comma-separated listing: for every
    list, not empty, of addresses of more than 10 characters without commas
    and without white space at their ends, parsing the addresses joined by
    ", " gives back the list. With the cleanliness of every parsed list,
    the lists the handler can store are exactly these. *)
Theorem parse_addresses_round_trip : forall addresses,
  addresses <> [] ->
  Forall Workflow.clean_address addresses ->
  parse_addresses (String.concat ", " addresses) = addresses.
Proof.
  intros l Hne Hclean. rewrite parse_addresses_filter.
  rewrite (split_joined Hne Hclean).
  apply forallb_filter_id. apply forallb_forall. intros a Ha.
  rewrite Forall_forall in Hclean. destruct (Hclean a Ha) as (Hlen & _).
  apply Nat.ltb_lt, Hlen.
Qed.

End SessionProperties.

Lemma awaiting_addresses_reply_witness :
  let st := Fixture.state_of Fixture.asked_for_addresses in
  let message := Fixture.chat " 456 Oak Street , Unit 4,, Springfield, IL " in
  fst (Fixture.handle_intelligent_chat message st) = ok tt
  /\ Testing.surrounding_addresses
       (Testing.session (snd (Fixture.handle_intelligent_chat message st)))
     = Some ["456 Oak Street"; "Springfield"]
  /\ Testing.awaiting_addresses
       (Testing.session (snd (Fixture.handle_intelligent_chat message st)))
     = Some false
  /\ Testing.awaiting_groundwater
       (Testing.session (snd (Fixture.handle_intelligent_chat message st)))
     = Some true.
Proof.
  intros st message.
  destruct (awaiting_addresses_reply Fixture.generate_section_streaming
              Fixture.session_calculator Fixture.str_failed message st
              (main := Fixture.main_doc) eq_refl eq_refl eq_refl) as (Hr & _ & Hs).
  split; [exact Hr|]. fold Fixture.handle_intelligent_chat in Hs.
  rewrite Hs. repeat split.
Defined.

(** An address of exactly 10 characters is not shorter than 10 characters,
    yet the handler discards it and keeps asking for addresses; and a reply
    that happens to contain "522" is taken for a new request of Section
    5.2.2, not for an address list. In both cases an entry survives in the
    unamended reading while the session does not advance. *)
Lemma ten_character_entry_is_discarded :
  let st := Fixture.state_of Fixture.asked_for_addresses in
  let after text :=
    Testing.session (snd (Fixture.handle_intelligent_chat (Fixture.chat text) st)) in
  Testing.flag (Testing.awaiting_addresses (Testing.session st)) = true
  /\ (String.length "1 Main St." = 10%nat
      /\ Stated.surviving_entries "1 Main St." = ["1 Main St."]
      /\ Testing.surrounding_addresses (after "1 Main St.") = None
      /\ Testing.flag (Testing.awaiting_addresses (after "1 Main St.")) = true
      /\ Testing.flag (Testing.awaiting_groundwater (after "1 Main St.")) = false)
  /\ (Stated.surviving_entries "5220 Oak Street, Springfield"
      = ["5220 Oak Street"; " Springfield"]
      /\ Testing.surrounding_addresses (after "5220 Oak Street, Springfield") = None
      /\ Testing.flag (Testing.awaiting_addresses (after "5220 Oak Street, Springfield"))
         = true
      /\ Testing.flag (Testing.awaiting_groundwater (after "5220 Oak Street, Springfield"))
         = false).
Proof.
  vm_compute. repeat split.
Qed.

Lemma groundwater_failure_clears_flag_witness :
  let st := Fixture.state_of Fixture.asked_for_groundwater in
  let message := Fixture.chat "it flows north" in
  fst (Fixture.handle_intelligent_chat message st) = ok tt
  /\ Testing.awaiting_groundwater
       (Testing.session (snd (Fixture.handle_intelligent_chat message st)))
     = Some false
  /\ Testing.outbox (snd (Fixture.handle_intelligent_chat message st))
     = ["Using groundwater flow direction: N";
        "Calculating distances...";
        "Error generating Section 5.2.2: Could not geocode subject address: Unknown Place"].
Proof.
  intros st message.
  destruct (groundwater_failure_clears_flag Fixture.generate_section_streaming
              Fixture.session_calculator Fixture.str_failed message st
              (main := Fixture.main_doc) (direction := "N")
              eq_refl eq_refl eq_refl eq_refl eq_refl) as (Hr & Hflag & Herr).
  split; [exact Hr|]. split; [exact Hflag|].
  fold Fixture.handle_intelligent_chat in Herr.
  rewrite (Herr (Raise "RuntimeError" "Could not geocode subject address: Unknown Place")
             {| Testing.world := 1%nat;
                Testing.session := Fixture.asked_for_groundwater;
                Testing.outbox := ["Using groundwater flow direction: N";
                                   "Calculating distances..."] |}
             eq_refl).
  reflexivity.
Defined.

Lemma flags_never_both_true_witness :
  Testing.flags_exclusive
    (Testing.session (Fixture.receive_all Fixture.scenario (Testing.connect 0%nat))).
Proof.
  apply (@flags_never_both_true _ _ _ Fixture.b64decode Fixture.extract
           Fixture.create_service Fixture.get_compliance_summary
           Fixture.format_text Fixture.format_text
           Fixture.generate_section_streaming Fixture.session_calculator
           Fixture.str_failed).
  unfold Fixture.scenario, Fixture.receive_all, Fixture.receive.
  repeat apply Testing.reachable_receive. apply Testing.reachable_connect.
Defined.

Lemma documents_only_grow_witness :
  let st := Fixture.receive_all (firstn 1 Fixture.scenario) (Testing.connect 0%nat) in
  let frame := Testing.Json (Testing.FileUpload (Fixture.upload "neighbours.pdf")) in
  (forall d, Testing.main_document (Testing.session st) = Some d ->
             Testing.main_document (Testing.session (snd (Fixture.receive frame st)))
             = Some d)
  /\ exists more,
       Testing.surrounding_documents (Testing.session (snd (Fixture.receive frame st)))
       = (Testing.surrounding_documents (Testing.session st) ++ more)%list
       /\ (List.length more <= 1)%nat.
Proof.
  intros st frame.
  apply (@documents_only_grow _ _ _ Fixture.b64decode Fixture.extract
           Fixture.create_service Fixture.get_compliance_summary
           Fixture.format_text Fixture.format_text
           Fixture.generate_section_streaming Fixture.session_calculator
           Fixture.str_failed frame st).
  discriminate.
Defined.


Lemma workflow_stage_tracks_subject_document_witness :
  let st := Fixture.receive_all (firstn 2 Fixture.scenario) (Testing.connect 0%nat) in
  Testing.workflow_stage (Testing.session st)
  = match Testing.main_document (Testing.session st) with
    | Some _ => "can_upload_surrounding"
    | None => "awaiting_report_selection"
    end.
Proof.
  intros st.
  apply (@workflow_stage_tracks_subject_document _ _ _ Fixture.b64decode
           Fixture.extract Fixture.create_service Fixture.get_compliance_summary
           Fixture.format_text Fixture.format_text
           Fixture.generate_section_streaming Fixture.session_calculator
           Fixture.str_failed st).
  unfold st, Fixture.scenario, firstn, Fixture.receive_all, Fixture.receive.
  repeat apply Testing.reachable_receive. apply Testing.reachable_connect.
Defined.

Lemma session_initial_before_subject_document_witness :
  let st :=
    Fixture.receive_all
      [ Testing.Json (Testing.Chat (Fixture.chat "generate section 5.2.2"));
        Testing.Json (Testing.FileUpload
                        {| Testing.reportType := Some "ERIS"; Testing.data := None;
                           Testing.upload_filename := Some "subject.pdf" |});
        Testing.Json (Testing.Chat (Fixture.chat "456 Oak St, Springfield, IL")) ]
      (Testing.connect 0%nat) in
  Testing.session st
  = Testing.set_report_type (Testing.report_type (Testing.session st))
      Testing.initial_session.
Proof.
  intros st.
  apply (@session_initial_before_subject_document _ _ _ Fixture.b64decode
           Fixture.extract Fixture.create_service Fixture.get_compliance_summary
           Fixture.format_text Fixture.format_text
           Fixture.generate_section_streaming Fixture.session_calculator
           Fixture.str_failed st).
  - unfold st, Fixture.receive_all, Fixture.receive.
    repeat apply Testing.reachable_receive. apply Testing.reachable_connect.
  - reflexivity.
Defined.

Lemma stored_addresses_are_clean_witness :
  let st := Fixture.receive_all Fixture.scenario (Testing.connect 0%nat) in
  Testing.surrounding_addresses (Testing.session st) = Some ["Springfield"]
  /\ ["Springfield"] <> []
  /\ Forall Workflow.clean_address ["Springfield"].
Proof.
  intros st. split; [reflexivity|].
  apply (@stored_addresses_are_clean _ _ _ Fixture.b64decode
           Fixture.extract Fixture.create_service Fixture.get_compliance_summary
           Fixture.format_text Fixture.format_text
           Fixture.generate_section_streaming Fixture.session_calculator
           Fixture.str_failed st).
  - unfold st, Fixture.scenario, Fixture.receive_all, Fixture.receive.
    repeat apply Testing.reachable_receive. apply Testing.reachable_connect.
  - reflexivity.
Defined.

Lemma surrounding_request_guards_witness :
  let st := Fixture.receive_all (firstn 1 Fixture.scenario) (Testing.connect 0%nat) in
  let message := Fixture.chat "Please write section 522 now" in
  fst (Fixture.handle_intelligent_chat message st) = ok tt
  /\ Testing.world (snd (Fixture.handle_intelligent_chat message st))
     = Testing.world st
  /\ Testing.session (snd (Fixture.handle_intelligent_chat message st))
     = Testing.session st.
Proof.
  intros st message.
  assert (Hmain : Testing.main_document (Testing.session st)
                  = Some {| Testing.filename := "subject.pdf";
                            Testing.text := "text of subject.pdf";
                            Testing.formatted := "text of subject.pdf";
                            Testing.echo_summary := None |})
    by (vm_compute; reflexivity).
  assert (Htrigger : Testing.is_trigger (Testing.report_type (Testing.session st))
                       (strip (Testing.get_default (Testing.content message) ""))
                     = true)
    by (vm_compute; reflexivity).
  destruct (@surrounding_request_guards _ Fixture.generate_section_streaming
              Fixture.session_calculator Fixture.str_failed message st _
              Hmain Htrigger) as (Hr & Hw & Hs).
  split; [exact Hr|]. split; [exact Hw|].
  unfold Fixture.handle_intelligent_chat. rewrite Hs.
  vm_compute. reflexivity.
Defined.

Lemma general_chat_leaves_session_witness :
  let st := Fixture.receive_all (firstn 2 Fixture.scenario) (Testing.connect 0%nat) in
  let message := Fixture.chat "Which databases list the site?" in
  fst (Fixture.handle_intelligent_chat message st) = ok tt
  /\ Testing.session (snd (Fixture.handle_intelligent_chat message st))
     = Testing.session st.
Proof.
  intros st message.
  assert (Hmain : Testing.main_document (Testing.session st)
                  = Some {| Testing.filename := "subject.pdf";
                            Testing.text := "text of subject.pdf";
                            Testing.formatted := "text of subject.pdf";
                            Testing.echo_summary := None |})
    by (vm_compute; reflexivity).
  assert (Htrigger : Testing.is_trigger (Testing.report_type (Testing.session st))
                       (strip (Testing.get_default (Testing.content message) ""))
                     = false)
    by (vm_compute; reflexivity).
  assert (Ha : Testing.flag (Testing.awaiting_addresses (Testing.session st)) = false)
    by (vm_compute; reflexivity).
  assert (Hg : Testing.flag (Testing.awaiting_groundwater (Testing.session st)) = false)
    by (vm_compute; reflexivity).
  destruct (@general_chat_leaves_session _ Fixture.generate_section_streaming
              Fixture.session_calculator Fixture.str_failed message st _
              Hmain Htrigger Ha Hg) as (Hr & Hs & _).
  split; [exact Hr | exact Hs].
Defined.

Lemma groundwater_success_stores_section_witness :
  let st := Fixture.receive_all (firstn 4 Fixture.scenario) (Testing.connect 0%nat) in
  let message := Fixture.chat "northeast" in
  let result :=
    Testing.ResultStr "5.2.2 Surrounding Area Environmental Database Listings" in
  fst (Fixture.handle_intelligent_chat message st) = ok tt
  /\ Testing.session (snd (Fixture.handle_intelligent_chat message st))
     = Testing.set_awaiting_groundwater (Some false)
         (Testing.set_surrounding_section (Some result) (Testing.session st))
  /\ Testing.world (snd (Fixture.handle_intelligent_chat message st)) = 2%nat
  /\ last (Testing.outbox (snd (Fixture.handle_intelligent_chat message st))) ""
     = "Section 5.2.2 complete!".
Proof.
  intros st message result.
  assert (Hmain : Testing.main_document (Testing.session st)
                  = Some {| Testing.filename := "subject.pdf";
                            Testing.text := "text of subject.pdf";
                            Testing.formatted := "text of subject.pdf";
                            Testing.echo_summary := None |})
    by (vm_compute; reflexivity).
  assert (Hreport : Testing.report_type (Testing.session st) = Some "EDR")
    by (vm_compute; reflexivity).
  assert (Htrigger : Testing.is_trigger (Testing.report_type (Testing.session st))
                       (strip (Testing.get_default (Testing.content message) ""))
                     = false)
    by (vm_compute; reflexivity).
  assert (Ha : Testing.flag (Testing.awaiting_addresses (Testing.session st)) = false)
    by (vm_compute; reflexivity).
  assert (Hg : Testing.flag (Testing.awaiting_groundwater (Testing.session st)) = true)
    by (vm_compute; reflexivity).
  assert (Hdir : Keywords.extract_groundwater_direction
                   (strip (Testing.get_default (Testing.content message) ""))
                 = Some "N")
    by (vm_compute; reflexivity).
  assert (Haddr : Testing.surrounding_addresses (Testing.session st)
                  = Some ["Springfield"])
    by (vm_compute; reflexivity).
  assert (Hcalc : Fixture.session_calculator
                    (Testing.subject_address (Testing.session st)) ["Springfield"]
                    (Testing.world st)
                  = (inr {| Distance.subject_address := "1 Subject Road, Springfield, IL";
                            Distance.distances := [];
                            Distance.failed :=
                              [{| Distance.failed_address := "Springfield";
                                  Distance.error := "Geocoding failed" |}] |},
                     2%nat))
    by (vm_compute; reflexivity).
  assert (Hgen : forall body args,
             Fixture.generate_section_streaming "EDR"
               (Testing.surrounding_section_of (Some "EDR")) body args 2%nat
             = (inr result,
                ["5.2.2 Surrounding Area "; "Environmental Database Listings"],
                2%nat))
    by (intros body args; reflexivity).
  exact (@groundwater_success_stores_section _ Fixture.generate_section_streaming
           Fixture.session_calculator Fixture.str_failed message st _ _ _ _ _ _ _ _ _
           Hmain Hreport Htrigger Ha Hg Hdir Haddr Hcalc Hgen).
Defined.

Lemma parse_addresses_round_trip_witness :
  let addresses := ["456 Oak Street"; "12 North Farm Lane"] in
  Testing.parse_addresses (String.concat ", " addresses) = addresses.
Proof.
  intros addresses.
  apply parse_addresses_round_trip.
  - discriminate.
  - unfold addresses.
    repeat apply Forall_cons; try apply Forall_nil;
      (split; [vm_compute; lia
              | split; [vm_compute; intuition discriminate | reflexivity]]).
Defined.

(** The end-to-end scenario: after the subject upload, a surrounding upload,
    the request, the addresses and the direction, the surrounding section
    is stored and [awaiting_groundwater] is down. *)
Example scenario_completes :
  let s := Testing.session (Fixture.receive_all Fixture.scenario (Testing.connect 0%nat)) in
  Testing.awaiting_groundwater s = Some false
  /\ Testing.awaiting_addresses s = Some false
  /\ Testing.surrounding_section s
     = Some (Testing.ResultStr "5.2.2 Surrounding Area Environmental Database Listings").
Proof. vm_compute. repeat split. Qed.

(* ================================================================= *)
(** ** Properties of the geographic calculator *)

Unset Implicit Arguments.
Open Scope Z_scope.

(** *** Binary64 division by a sector width stays finite *)

Lemma digits2_pos_bounds : forall p,
  2 ^ (Zpos (digits2_pos p) - 1) <= Zpos p < 2 ^ Zpos (digits2_pos p).
Proof.
  induction p as [p IH|p IH|]; simpl digits2_pos.
  - rewrite Pos2Z.inj_succ.
    replace (Z.succ (Zpos (digits2_pos p)) - 1) with (Z.succ (Zpos (digits2_pos p) - 1)) by lia.
    rewrite !Z.pow_succ_r by lia. lia.
  - rewrite Pos2Z.inj_succ.
    replace (Z.succ (Zpos (digits2_pos p)) - 1) with (Z.succ (Zpos (digits2_pos p) - 1)) by lia.
    rewrite !Z.pow_succ_r by lia. lia.
  - simpl. lia.
Qed.

Lemma Zdigits2_nonneg : forall m, 0 <= Zdigits2 m.
Proof. intros [|p|p]; simpl; lia. Qed.

Lemma Zdigits2_upper : forall m, 0 <= m -> m < 2 ^ Zdigits2 m.
Proof.
  intros [|p|p] H; simpl; try lia. apply digits2_pos_bounds.
Qed.

Lemma Zdigits2_le : forall m k, 0 <= m -> 0 <= k -> m < 2 ^ k -> Zdigits2 m <= k.
Proof.
  intros [|p|p] k Hm Hk H; simpl; try lia.
  destruct (digits2_pos_bounds p) as [Hlo _].
  assert (Hlt : 2 ^ (Zpos (digits2_pos p) - 1) < 2 ^ k) by lia.
  apply Z.pow_lt_mono_r_iff in Hlt; lia.
Qed.

Lemma shr_1_facts : forall mrs,
  0 <= shr_m mrs ->
  0 <= shr_m (shr_1 mrs) /\ Zdigits2 (shr_m (shr_1 mrs)) <= Zdigits2 (shr_m mrs).
Proof.
  intros [[|[p|p|]|[p|p|]] r s] H; simpl in *; try lia.
Qed.

Lemma iter_shr_1_facts : forall p mrs,
  0 <= shr_m mrs ->
  0 <= shr_m (iter_pos shr_1 p mrs)
  /\ Zdigits2 (shr_m (iter_pos shr_1 p mrs)) <= Zdigits2 (shr_m mrs).
Proof.
  induction p as [p IH|p IH|]; intros mrs H; simpl.
  - destruct (shr_1_facts mrs H) as [H1 H2].
    destruct (IH _ H1) as [H3 H4]. destruct (IH _ H3) as [H5 H6]. lia.
  - destruct (IH _ H) as [H3 H4]. destruct (IH _ H3) as [H5 H6]. lia.
  - apply shr_1_facts, H.
Qed.

Lemma shr_record_of_loc_m : forall m l, shr_m (shr_record_of_loc m l) = m.
Proof. intros m [|[| |]]; reflexivity. Qed.

Lemma shr_fexp_facts : forall m e l mrs e',
  shr_fexp prec emax m e l = (mrs, e') ->
  0 <= m ->
  0 <= shr_m mrs
  /\ Zdigits2 (shr_m mrs) <= Zdigits2 m
  /\ (e' = e \/ e' = Z.max (Zdigits2 m + e - 53) (-1074)).
Proof.
  intros m e l mrs e' H Hm. unfold shr_fexp, shr in H.
  change (fexp prec emax (Zdigits2 m + e)) with (Z.max (Zdigits2 m + e - 53) (-1074)) in H.
  destruct (Z.max (Zdigits2 m + e - 53) (-1074) - e) as [|p|p] eqn:Hn;
    injection H as <- <-; rewrite ?shr_record_of_loc_m.
  - lia.
  - pose proof (iter_shr_1_facts p (shr_record_of_loc m l)) as Hi.
    rewrite shr_record_of_loc_m in Hi. destruct (Hi Hm). lia.
  - lia.
Qed.

Lemma round_nearest_even_bounds : forall m l,
  m <= round_nearest_even m l <= m + 1.
Proof.
  intros m [|[| |]]; simpl; try lia. destruct (Z.even m); lia.
Qed.

Lemma binary_round_aux_finite : forall s m e l,
  0 <= m -> Zdigits2 m <= 54 -> e <= 966 ->
  finite_or_zero (binary_round_aux prec emax s m e l).
Proof.
  intros s m e l Hm Hd He. unfold binary_round_aux.
  destruct (shr_fexp prec emax m e l) as [mrs1 e1] eqn:H1.
  destruct (shr_fexp_facts _ _ _ _ _ H1 Hm) as (Hm1 & Hd1 & He1).
  pose proof (round_nearest_even_bounds (shr_m mrs1) (loc_of_shr_record mrs1)) as Hr.
  set (m1 := round_nearest_even (shr_m mrs1) (loc_of_shr_record mrs1)) in *.
  assert (Hd1' : Zdigits2 m1 <= 55).
  { apply Zdigits2_le; try lia.
    pose proof (Zdigits2_upper _ Hm1) as Hu.
    assert (2 ^ Zdigits2 (shr_m mrs1) <= 2 ^ 54) by (apply Z.pow_le_mono_r; lia).
    change (2 ^ 54) with 18014398509481984 in *.
    change (2 ^ 55) with 36028797018963968. lia. }
  destruct (shr_fexp prec emax m1 e1 loc_Exact) as [mrs2 e2] eqn:H2.
  assert (Hm1' : 0 <= m1) by lia.
  destruct (shr_fexp_facts _ _ _ _ _ H2 Hm1') as (Hm2 & Hd2 & He2).
  destruct (shr_m mrs2) as [|p|p]; [exact I| |lia].
  assert (Hle : (e2 <=? emax - prec) = true).
  { apply Z.leb_le. change (emax - prec) with 971. lia. }
  rewrite Hle. exact I.
Qed.

Lemma SF64div_finite : forall sx mx ex ey,
  bounded prec emax mx ex = true ->
  -48 <= ey <= -47 ->
  finite_or_zero
    (SF64div (S754_finite sx mx ex) (S754_finite false 6333186975989760 ey)).
Proof.
  intros sx mx ex ey Hb Hey. unfold SF64div, SFdiv.
  destruct (SFdiv_core_binary prec emax (Zpos mx) ex (Zpos 6333186975989760) ey)
    as [[mz ez] lz] eqn:Hcore.
  unfold SFdiv_core_binary in Hcore.
  change (Zdigits2 (Zpos 6333186975989760)) with 53 in Hcore.
  change (Zdigits2 (Zpos mx)) with (Zpos (digits2_pos mx)) in Hcore.
  unfold bounded, canonical_mantissa in Hb.
  apply andb_true_iff in Hb as [Hc Hex]. apply Z.eqb_eq in Hc. apply Z.leb_le in Hex.
  change (fexp prec emax (Zpos (digits2_pos mx) + ex))
    with (Z.max (Zpos (digits2_pos mx) + ex - 53) (-1074)) in Hc.
  change (emax - prec) with 971 in Hex.
  change (fexp prec emax (Zpos (digits2_pos mx) + ex - (53 + ey)))
    with (Z.max (Zpos (digits2_pos mx) + ex - (53 + ey) - 53) (-1074)) in Hcore.
  set (d1 := Zpos (digits2_pos mx)) in *.
  assert (Hd1 : 1 <= d1) by (unfold d1; lia).
  set (e' := Z.min (Z.max (d1 + ex - (53 + ey) - 53) (-1074)) (ex - ey)) in *.
  set (sh := ex - ey - e') in *.
  assert (Hsh : 0 <= sh <= 106 - d1) by (unfold sh, e'; lia).
  set (m' := match sh with Z.pos _ => Z.shiftl (Z.pos mx) sh | 0 => Z.pos mx | Z.neg _ => 0 end) in *.
  assert (Hm' : 0 <= m' < 2 ^ 106).
  { pose proof (digits2_pos_bounds mx) as [_ Hup]. fold d1 in Hup.
    assert (Hpow : 2 ^ (d1 + sh) <= 2 ^ 106) by (apply Z.pow_le_mono_r; lia).
    rewrite Z.pow_add_r in Hpow by lia.
    assert (H2s : 0 < 2 ^ sh) by (apply Z.pow_pos_nonneg; lia).
    assert (Hprod : Z.pos mx * 2 ^ sh < 2 ^ d1 * 2 ^ sh) by nia.
    assert (Hm'eq : m' = Z.pos mx * 2 ^ sh).
    { unfold m'. destruct sh as [|p|p] eqn:Hs; try lia.
      - rewrite Z.shiftl_mul_pow2 by lia. reflexivity. }
    rewrite Hm'eq. lia. }
  pose proof (Z_div_mod m' (Zpos 6333186975989760) eq_refl) as Hdiv.
  destruct (Z.div_eucl m' (Zpos 6333186975989760)) as [q r].
  injection Hcore as <- <- <-.
  destruct Hdiv as [Hq Hr].
  change (2 ^ 106) with 81129638414606681695789005144064 in Hm'.
  assert (Hq0 : 0 <= q < 2 ^ 54).
  { change (2 ^ 54) with 18014398509481984. nia. }
  apply binary_round_aux_finite; try lia.
  - apply Zdigits2_le; lia.
Qed.


Lemma div_rose_width_finite : forall b ey,
  finite_or_zero (Prim2SF b) -> -48 <= ey <= -47 ->
  finite_or_zero
    (SF64div (Prim2SF b) (S754_finite false 6333186975989760 ey)).
Proof.
  intros b ey Hb Hey. pose proof (Prim2SF_valid b) as Hv.
  destruct (Prim2SF b) as [s|s| |s m e]; simpl in Hb; try contradiction.
  - exact I.
  - apply SF64div_finite; assumption.
Qed.

Lemma round_int_finite : forall x,
  finite_or_zero (Prim2SF x) -> exists k, round_int x = ok k.
Proof.
  intros x H. unfold round_int.
  destruct (Prim2SF x) as [s|s| |s m e]; simpl in H; try contradiction; eauto.
Qed.

Lemma getitem_mod : forall (names : list string) k,
  (0 < List.length names)%nat ->
  getitem names (k mod Z.of_nat (List.length names))
  = ok (nth (Z.to_nat (k mod Z.of_nat (List.length names))) names ""%string).
Proof.
  intros names k Hlen. unfold getitem.
  set (n := Z.of_nat (List.length names)).
  assert (Hn : 0 < n) by (unfold n; lia).
  pose proof (Z.mod_pos_bound k n Hn) as Hmod.
  set (j := k mod n) in *.
  destruct (j <? 0) eqn:Hneg; [apply Z.ltb_lt in Hneg; lia|].
  assert (Hin : ((0 <=? j) && (j <? n))%bool = true).
  { apply andb_true_iff; split; [apply Z.leb_le | apply Z.ltb_lt]; lia. }
  rewrite Hin.
  rewrite (nth_error_nth' names ""%string) by (unfold n in Hmod; lia).
  reflexivity.
Qed.





Lemma compass_label_unfold : forall b n,
  Distance._compass_label b n
  = let names := if n =? 8 then Distance.names8 else Distance.names16 in
    let width := if n =? 8 then 45%float else 22.5%float in
    bind (round_int (b / width)%float)
      (fun r => getitem names (r mod Z.of_nat (List.length names))).
Proof.
  intros b n. unfold Distance._compass_label.
  destruct (n =? 8); reflexivity.
Qed.

(** The three cases of [_compass_label]. *)
Lemma compass_label_cases : forall b n,
  match Prim2SF b with
  | S754_nan =>
      Distance._compass_label b n
      = raise "ValueError" "cannot convert float NaN to integer"
  | S754_infinity _ =>
      Distance._compass_label b n
      = raise "OverflowError" "cannot convert float infinity to integer"
  | _ =>
      exists label,
        Distance._compass_label b n = ok label
        /\ In label (if n =? 8 then Distance.names8 else Distance.names16)
  end.
Proof.
  intros b n. rewrite compass_label_unfold. cbv zeta.
  assert (Hwidth : exists ey,
             -48 <= ey <= -47
             /\ Prim2SF (if n =? 8 then 45%float else 22.5%float)
                = S754_finite false 6333186975989760 ey).
  { destruct (n =? 8); [exists (-47) | exists (-48)]; split; (lia || reflexivity). }
  destruct Hwidth as (ey & Hey & Hw).
  assert (Hlen : (0 < List.length
                        (if (n =? 8)%Z then Distance.names8 else Distance.names16))%nat).
  { destruct (n =? 8); simpl; lia. }
  set (names := if n =? 8 then Distance.names8 else Distance.names16) in *.
  set (width := if n =? 8 then 45%float else 22.5%float) in *.
  pose proof (div_rose_width_finite b ey) as Hfin.
  pose proof (div_spec b width) as Hdiv. rewrite Hw in Hdiv.
  assert (Hlabel : finite_or_zero (Prim2SF b) ->
                   exists label,
                     bind (round_int (b / width)%float)
                       (fun r => getitem names (r mod Z.of_nat (List.length names)))
                     = ok label /\ In label names).
  { intros Hb. specialize (Hfin Hb Hey). rewrite <- Hdiv in Hfin.
    destruct (round_int_finite _ Hfin) as [k Hk]. rewrite Hk. simpl bind.
    rewrite (getitem_mod names k Hlen). eexists. split; [reflexivity|].
    apply nth_In.
    pose proof (Z.mod_pos_bound k (Z.of_nat (List.length names)) ltac:(lia)). lia. }
  destruct (Prim2SF b) as [s|s| |s m e] eqn:Hb.
  - apply Hlabel. exact I.
  - unfold round_int. rewrite Hdiv. reflexivity.
  - unfold round_int. rewrite Hdiv. reflexivity.
  - apply Hlabel. exact I.
Qed.

(** X15. [_compass_label] on any float and any [num_points]: a bearing that
    is NaN raises [ValueError], an infinite one raises [OverflowError], and
    every other bearing, negative or beyond 360 included, gets a label of
    the rose in use (the 8-point names when [num_points] is 8, the 16-point
    names for every other value): the division does not overflow and the
    index is always in range. *)
Theorem compass_label_total : forall b n,
  match Prim2SF b with
  | S754_nan =>
      Distance._compass_label b n
      = raise "ValueError" "cannot convert float NaN to integer"
  | S754_infinity _ =>
      Distance._compass_label b n
      = raise "OverflowError" "cannot convert float infinity to integer"
  | _ =>
      exists label,
        Distance._compass_label b n = ok label
        /\ In label (if n =? 8 then Distance.names8 else Distance.names16)
  end.
Proof. exact compass_label_cases. Qed.

Lemma compass_label_member : forall b n label,
  Distance._compass_label b n = ok label ->
  finite_or_zero (Prim2SF b)
  /\ In label (if n =? 8 then Distance.names8 else Distance.names16).
Proof.
  intros b n label H. pose proof (compass_label_cases b n) as Hc.
  destruct (Prim2SF b) as [s|s| |s m e]; try (rewrite H in Hc; discriminate Hc);
    (split; [exact I|]); destruct Hc as (l & Hl & Hin);
    rewrite H in Hl; injection Hl as <-; exact Hin.
Qed.

(** *** Comparisons *)

Lemma SFcompare_Lt_swap : forall a b,
  SFcompare a b = Some Lt -> SFcompare b a = Some Gt.
Proof.
  intros [sa|sa| |sa ma ea] [sb|sb| |sb mb eb];
    try (destruct sa; try destruct sb; simpl; (discriminate || reflexivity));
    try (destruct sb; simpl; (discriminate || reflexivity));
    try (simpl; discriminate).
  simpl. change (Pos.compare_cont Eq ma mb) with (ma ?= mb)%positive.
  change (Pos.compare_cont Eq mb ma) with (mb ?= ma)%positive.
  rewrite (Z.compare_antisym ea eb), (Pos.compare_antisym ma mb).
  destruct sa, sb; try discriminate; try reflexivity;
    destruct (ea ?= eb); simpl; try discriminate; try reflexivity;
    destruct (ma ?= mb)%positive; simpl; try discriminate; reflexivity.
Qed.

Lemma ltb_not_leb : forall x t : float,
  (x <? t)%float = true -> (t <=? x)%float = false.
Proof.
  intros x t H. rewrite ltb_spec in H. rewrite leb_spec.
  unfold SFltb in H. unfold SFleb.
  destruct (SFcompare (Prim2SF x) (Prim2SF t)) as [[| |]|] eqn:Hc; try discriminate.
  rewrite (SFcompare_Lt_swap _ _ Hc). reflexivity.
Qed.

(** *** [distance_and_direction] *)

Section GeographicProperties.

Variable GeoJSON : Type.
Variable Geom : Type.
Variable shape : GeoJSON -> PyResult Geom.
Variable nearest_points : Geom -> Geom -> PyResult (Geom * Geom).
Variable representative_point : Geom -> PyResult Geom.
Variable point_x point_y : Geom -> PyResult float.
Variable Inverse : float -> float -> float -> float -> Distance.GeodesicDict.
Variable World : Type.
Variable get_geometry : string -> World -> option GeoJSON * World.

Local Abbreviation distance_and_direction :=
  (Distance.distance_and_direction shape nearest_points representative_point
     point_x point_y Inverse).
Local Abbreviation _azimuth_degrees := (Distance._azimuth_degrees Inverse).
Local Abbreviation calculate_distances :=
  (Distance.calculate_distances shape nearest_points representative_point
     point_x point_y Inverse get_geometry).



(** C7 fails on the code. A surrounding property a hair west of due north,
    whose geodesic from the subject starts at azimuth -0.0288 degrees, gets
    the bearing 359.9712, inside [0, 360), and the label N; rounding to one
    decimal then stores [bearing_deg] 360.0, outside [0, 360). *)
Theorem rounded_bearing_reaches_360 :
  forall subject address w subject_geometry geometry w1 w2
         g1 g2 p1 p2 p1y p1x p2y p2x,
    get_geometry subject w = (Some subject_geometry, w1) ->
    get_geometry address w1 = (Some geometry, w2) ->
    shape subject_geometry = ok g1 -> shape geometry = ok g2 ->
    nearest_points g1 g2 = ok (p1, p2) ->
    point_y p1 = ok p1y -> point_x p1 = ok p1x ->
    point_y p2 = ok p2y -> point_x p2 = ok p2x ->
    (1 <=? Distance.s12 (Inverse p1y p1x p2y p2x))%float = true ->
    Distance.azi1 (Inverse p1y p1x p2y p2x) = (-0.0288)%float ->
    exists r,
      calculate_distances subject [address] w
      = (ok {| Distance.subject_address := subject;
               Distance.distances := [r];
               Distance.failed := [] |}, w2)
      /\ Distance.address r = address
      /\ Distance.direction r = "N"%string
      /\ Distance.bearing_deg r = 360%float
      /\ (Distance.bearing_deg r <? 360)%float = false.
Proof.
  intros subject address w sg g w1 w2 g1 g2 p1 p2 p1y p1x p2y p2x
         Hsubject Haddress Hg1 Hg2 Hnp Hp1y Hp1x Hp2y Hp2x Hfar Hazi.
  assert (Hdd : distance_and_direction sg g 1 8
                = ok (Distance.s12 (Inverse p1y p1x p2y p2x),
                      359.9712%float, "N"%string)).
  { unfold Distance.distance_and_direction.
    rewrite Hg1, Hg2. simpl bind. rewrite Hnp. simpl bind.
    rewrite Hp1y, Hp1x, Hp2y, Hp2x. simpl bind. rewrite Hfar, Hazi.
    reflexivity. }
  unfold Distance.calculate_distances. rewrite Hsubject.
  unfold Distance.surrounding_loop. rewrite Haddress, Hdd.
  eexists. split; [reflexivity|]. simpl.
  repeat split; reflexivity.
Qed.

(** *** The batch of [calculate_distances] *)

Local Abbreviation surrounding_loop :=
  (Distance.surrounding_loop shape nearest_points representative_point
     point_x point_y Inverse get_geometry).

Lemma distance_and_direction_label :
  forall geometry1 geometry2 zero_threshold_m compass_points distance_m bearing label,
    distance_and_direction geometry1 geometry2 zero_threshold_m compass_points
    = ok (distance_m, bearing, label) ->
    Distance._compass_label bearing compass_points = ok label.
Proof.
  intros g1 g2 t n d b l. unfold Distance.distance_and_direction.
  destruct (shape g1) as [e|s1]; [discriminate|].
  destruct (shape g2) as [e|s2]; [discriminate|]. simpl bind.
  destruct (nearest_points s1 s2) as [e|[p1 p2]]; [discriminate|]. simpl bind.
  destruct (point_y p1) as [e|p1y]; [discriminate|].
  destruct (point_x p1) as [e|p1x]; [discriminate|].
  destruct (point_y p2) as [e|p2y]; [discriminate|].
  destruct (point_x p2) as [e|p2x]; [discriminate|]. simpl bind.
  destruct (t <=? Distance.s12 (Inverse p1y p1x p2y p2x))%float.
  - destruct (float_mod _ 360) as [e|bearing]; [discriminate|]. simpl bind.
    destruct (Distance._compass_label bearing n) as [e|label] eqn:Hl; [discriminate|].
    simpl bind. intros [= _ <- <-]. exact Hl.
  - destruct (representative_point s1) as [e|r1]; [discriminate|].
    destruct (representative_point s2) as [e|r2]; [discriminate|]. simpl bind.
    destruct (point_y r1) as [e|r1y]; [discriminate|].
    destruct (point_x r1) as [e|r1x]; [discriminate|].
    destruct (point_y r2) as [e|r2y]; [discriminate|].
    destruct (point_x r2) as [e|r2x]; [discriminate|]. simpl bind.
    destruct (_azimuth_degrees r1y r1x r2y r2x) as [e|bearing]; [discriminate|].
    simpl bind.
    destruct (Distance._compass_label bearing n) as [e|label] eqn:Hl; [discriminate|].
    simpl bind. intros [= _ <- <-]. exact Hl.
Qed.

Lemma surrounding_loop_well_formed :
  forall subject_geometry addresses results failed w,
    Forall Batch.well_formed_result results ->
    Forall Batch.well_formed_failure failed ->
    let '(results', failed', w') :=
      surrounding_loop subject_geometry addresses results failed w in
    Forall Batch.well_formed_result results'
    /\ Forall Batch.well_formed_failure failed'
    /\ w' = fold_left (fun w a => snd (get_geometry a w)) addresses w.
Proof.
  intros sg addresses. induction addresses as [|a rest IH];
    intros results failed w Hr Hf.
  - simpl. auto.
  - simpl. destruct (get_geometry a w) as [[g|] w1]; simpl snd.
    + destruct (Distance.distance_and_direction _ _ _ _ _ _ _ _ _ _)
        as [e|[[distance_m bearing] direction]] eqn:Hdd.
      * apply IH; [exact Hr|]. apply Forall_app. split; [exact Hf|].
        constructor; [|constructor]. right. exists e. reflexivity.
      * apply IH; [|exact Hf]. apply Forall_app. split; [exact Hr|].
        constructor; [|constructor].
        pose proof (distance_and_direction_label _ _ _ _ _ _ _ Hdd) as Hl.
        destruct (compass_label_member _ _ _ Hl) as [Hfin Hin].
        exists distance_m, bearing. simpl. auto.
    + apply IH; [exact Hr|]. apply Forall_app. split; [exact Hf|].
      constructor; [|constructor]. left. reflexivity.
Qed.

(** X16. Every batch that [calculate_distances] returns is well formed: it
    names the subject address it was asked about; each entry of
    [distances] carries a direction among the eight compass names, which is
    the label of the bearing before rounding, a bearing that is a number;
    and each entry of [failed] carries either "Geocoding failed" or
    "Distance calculation failed: " followed by the text of an
    exception. *)
Theorem calculate_distances_well_formed :
  forall subject_address surrounding_addresses w batch w',
    calculate_distances subject_address surrounding_addresses w = (ok batch, w') ->
    Distance.subject_address batch = subject_address
    /\ Forall Batch.well_formed_result (Distance.distances batch)
    /\ Forall Batch.well_formed_failure (Distance.failed batch).
Proof.
  intros subject addresses w batch w'. unfold Distance.calculate_distances.
  destruct (get_geometry subject w) as [[sg|] w1]; [|discriminate].
  pose proof (surrounding_loop_well_formed sg addresses [] [] w1
                (Forall_nil _) (Forall_nil _)) as H.
  destruct (surrounding_loop sg addresses [] [] w1) as [[results failed] w2].
  destruct H as (Hr & Hf & _). intros [= <- _]. simpl. auto.
Qed.

(** X17. [calculate_distances] looks every address up exactly once and in
    order: the subject first and, when that lookup succeeds, each
    surrounding address in turn, whether or not earlier ones failed; no
    lookup is retried and none is skipped. *)
Theorem calculate_distances_lookups :
  forall subject_address surrounding_addresses w,
    snd (calculate_distances subject_address surrounding_addresses w)
    = match fst (get_geometry subject_address w) with
      | None => snd (get_geometry subject_address w)
      | Some _ =>
          fold_left (fun w a => snd (get_geometry a w)) surrounding_addresses
            (snd (get_geometry subject_address w))
      end.
Proof.
  intros subject addresses w. unfold Distance.calculate_distances.
  destruct (get_geometry subject w) as [[sg|] w1]; [|reflexivity].
  pose proof (surrounding_loop_well_formed sg addresses [] [] w1
                (Forall_nil _) (Forall_nil _)) as H.
  destruct (surrounding_loop sg addresses [] [] w1) as [[results failed] w2].
  destruct H as (_ & _ & Hw). exact Hw.
Qed.

End GeographicProperties.


Lemma rounded_bearing_reaches_360_witness :
  exists r,
    Fixture.calculate_distances "1 Subject Road, Springfield, IL"
      ["North Farm Lane, Springfield, IL"%string] 0%nat
    = (ok {| Distance.subject_address := "1 Subject Road, Springfield, IL";
             Distance.distances := [r];
             Distance.failed := [] |}, 2%nat)
    /\ Distance.address r = "North Farm Lane, Springfield, IL"%string
    /\ Distance.direction r = "N"%string
    /\ Distance.bearing_deg r = 360%float
    /\ (Distance.bearing_deg r <? 360)%float = false.
Proof.
  apply (rounded_bearing_reaches_360 Fixture.GeoJSON Fixture.Geom
           Fixture.shape Fixture.nearest_points Fixture.representative_point
           Fixture.point_x Fixture.point_y Fixture.Inverse
           Fixture.World Fixture.get_geometry
           "1 Subject Road, Springfield, IL"%string
           "North Farm Lane, Springfield, IL"%string 0%nat
           (0, 0)%float (-0.0005, 1)%float 1%nat 2%nat
           (0, 0)%float (-0.0005, 1)%float (0, 0)%float (-0.0005, 1)%float
           0%float 0%float 1%float (-0.0005)%float);
    reflexivity.
Defined.

Lemma calculate_distances_well_formed_witness :
  let subject := "1 Subject Road, Springfield, IL"%string in
  let addresses :=
    ["North Farm Lane, Springfield, IL"; "Nowhere Street 1";
     "456 Oak St, Springfield, IL"]%string in
  exists batch w',
    Fixture.calculate_distances subject addresses 0%nat = (ok batch, w')
    /\ Distance.subject_address batch = subject
    /\ Forall Batch.well_formed_result (Distance.distances batch)
    /\ Forall Batch.well_formed_failure (Distance.failed batch).
Proof.
  intros subject addresses.
  destruct (Fixture.calculate_distances subject addresses 0%nat)
    as [[e|batch] w'] eqn:H.
  - vm_compute in H. discriminate H.
  - exists batch, w'. split; [reflexivity|].
    exact (calculate_distances_well_formed Fixture.GeoJSON Fixture.Geom
             Fixture.shape Fixture.nearest_points Fixture.representative_point
             Fixture.point_x Fixture.point_y Fixture.Inverse
             Fixture.World Fixture.get_geometry subject addresses 0%nat batch w' H).
Defined.

(** Other bearings of the last twentieth of a degree before north round
    the same way, while the label wraps to N. *)
Example bearings_rounding_to_360 :
  map round1 [359.951; 359.96; 359.99; 359.999999]%float
  = [360; 360; 360; 360]%float
  /\ map (fun b => Distance._compass_label b 8) [359.951; 359.96; 359.99; 359.999999]%float
     = [ok "N"; ok "N"; ok "N"; ok "N"]%string
  /\ round1 (1000 * 3.28084)%float = 3280.8%float.
Proof. repeat split; reflexivity. Qed.

(* ================================================================= *)
(** ** Properties of the geocoding service *)

Section GeocodeProperties.

Import Geocode.

Variable float_of_str : string -> PyResult float.
Variable World : Type.
Variable time : World -> float * World.
Variable post_token : World -> PyResult Value * World.
Variable get_parcel : string -> Value -> World -> PyResult Value * World.

Local Abbreviation geometry_of_response := (Geocode.geometry_of_response float_of_str).
Local Abbreviation get_token := (Geocode.get_token float_of_str time post_token).
Local Abbreviation get_geometry :=
  (Geocode.get_geometry float_of_str time post_token get_parcel).

Lemma get_dict : forall v key default x,
  get v key default = ok x ->
  exists d, v = VDict d
            /\ x = match lookup key d with Some y => y | None => default end.
Proof.
  intros v key default x H. destruct v; try discriminate H.
  injection H as <-. eauto.
Qed.

Lemma geometry_of_response_truthy : forall data g,
  geometry_of_response data = ok (Some g) ->
  exists d, g = VDict d /\ truthy g = true
            /\ exists l, lookup "coordinates" d = Some (VList l).
Proof.
  intros data g. unfold Geocode.geometry_of_response.
  destruct (get data "geometry" VNone) as [e|geom] eqn:Hgeom; [discriminate|].
  simpl bind.
  destruct (truthy geom) eqn:Htruthy.
  - destruct (get geom "coordinates" VNone) as [e|c] eqn:Hc; [discriminate|].
    simpl bind. destruct (is_list c) eqn:Hlist.
    + intros [= <-]. destruct (get_dict _ _ _ _ Hc) as (d & -> & Hx).
      exists d. split; [reflexivity|]. split; [exact Htruthy|].
      destruct (lookup "coordinates" d) as [y|]; subst c; [|discriminate Hlist].
      destruct y; try discriminate Hlist. eauto.
    + destruct (get data "center" (VDict [])) as [e|center]; [discriminate|].
      simpl bind.
      destruct (get center "coordinates" VNone) as [e|coords]; [discriminate|].
      simpl bind.
      destruct (if is_dict coords then _ else _) as [e|coords']; [discriminate|].
      simpl bind.
      destruct coords' as [| | | | |[|c0 [|c1 [|c2 l]]]|]; try discriminate.
      destruct (get center "type" (VStr "Point")) as [e|ty]; [discriminate|].
      simpl bind.
      destruct (float_ float_of_str c0) as [e|lon]; [discriminate|]. simpl bind.
      destruct (float_ float_of_str c1) as [e|lat]; [discriminate|]. simpl bind.
      intros [= <-]. eexists. split; [reflexivity|]. split; [reflexivity|].
      simpl. eauto.
  - simpl bind.
    destruct (get data "center" (VDict [])) as [e|center]; [discriminate|].
    simpl bind.
    destruct (get center "coordinates" VNone) as [e|coords]; [discriminate|].
    simpl bind.
    destruct (if is_dict coords then _ else _) as [e|coords']; [discriminate|].
    simpl bind.
    destruct coords' as [| | | | |[|c0 [|c1 [|c2 l]]]|]; try discriminate.
    destruct (get center "type" (VStr "Point")) as [e|ty]; [discriminate|].
    simpl bind.
    destruct (float_ float_of_str c0) as [e|lon]; [discriminate|]. simpl bind.
    destruct (float_ float_of_str c1) as [e|lat]; [discriminate|]. simpl bind.
    intros [= <-]. eexists. split; [reflexivity|]. split; [reflexivity|].
    simpl. eauto.
Qed.

(** X18. Whatever the token and parcel endpoints answer, a geometry that
    [get_geometry] returns is a [dict] that is not empty and has a list
    under "coordinates": the callers' test [if not geometry] is false for
    it, and fails exactly on [None]. *)
Theorem get_geometry_truthy : forall address st g st',
  get_geometry address st = (Some g, st') ->
  exists d, g = VDict d /\ truthy g = true
            /\ exists l, lookup "coordinates" d = Some (VList l).
Proof.
  intros address [tm w] g st'. unfold Geocode.get_geometry.
  destruct (Geocode.get_token float_of_str time post_token tm w)
    as [[[e|bearer] tm1] w1]; [discriminate|].
  destruct (get_parcel address bearer w1) as [response w2].
  destruct response as [e|data]; simpl bind; [discriminate|].
  destruct (geometry_of_response data) as [e|[g'|]] eqn:Hg; try discriminate.
  intros [= <- _]. exact (geometry_of_response_truthy _ _ Hg).
Qed.

(** X19. A parcel known only by its centre in x/y form is geocoded only
    off the axes: with no usable "geometry" and a centre whose coordinates
    hold floats under "x" and "y" and nothing under "longitude" and
    "latitude", [get_geometry] answers the point [[x, y]] when neither is
    zero, and [None] when one of them is 0.0, because [x or longitude]
    then yields [None]. *)
Theorem center_xy_zero_is_lost :
  forall address tm w bearer tm1 w1 d w2 c cd x y,
    get_token tm w = (ok bearer, tm1, w1) ->
    get_parcel address bearer w1 = (ok (VDict d), w2) ->
    lookup "geometry" d = None ->
    lookup "center" d = Some (VDict c) ->
    lookup "coordinates" c = Some (VDict cd) ->
    lookup "x" cd = Some (VFloat x) -> lookup "longitude" cd = None ->
    lookup "y" cd = Some (VFloat y) -> lookup "latitude" cd = None ->
    get_geometry address (tm, w)
    = (if ((x =? 0) || (y =? 0))%float then None
       else Some (VDict [("type"%string,
                          match lookup "type" c with
                          | Some t => t
                          | None => VStr "Point"
                          end);
                         ("coordinates"%string, VList [VFloat x; VFloat y])]),
       (tm1, w2)).
Proof.
  intros address tm w bearer tm1 w1 d w2 c cd x y
         Htoken Hparcel Hgeom Hcenter Hcoords Hx Hlon Hy Hlat.
  unfold Geocode.get_geometry. rewrite Htoken. cbv beta iota delta [ok].
  rewrite Hparcel. simpl bind.
  unfold Geocode.geometry_of_response, get.
  rewrite Hgeom. simpl bind. rewrite Hcenter. simpl bind.
  rewrite Hcoords. simpl bind. rewrite Hx, Hy, Hlon, Hlat. simpl truthy.
  destruct (x =? 0)%float; destruct (y =? 0)%float; reflexivity.
Qed.

Lemma get_token_returns_stored : forall tm w tok tm1 w1,
  get_token tm w = (ok tok, tm1, w1) -> token tm1 = tok.
Proof.
  intros tm w tok tm1 w1. unfold Geocode.get_token.
  destruct (time w) as [now w0].
  destruct (is_none (token tm) || (expiry tm - 60 <=? now)%float).
  - destruct (post_token w0) as [[e|data] w2]; [discriminate|].
    destruct (get data "access_token" VNone) as [e|access]; [discriminate|].
    destruct (bind _ _) as [e|lifetime]; [discriminate|].
    intros [= <- <- _]. reflexivity.
  - intros [= <- <- _]. reflexivity.
Qed.

(** X20. A token is requested once and reused: after a call of
    [get_token] that returned a token, every call made while the clock
    reads less than the stored expiry minus 60 seconds returns the same
    token without any request, and leaves the manager as it is. *)
Theorem token_reused_until_expiry : forall tm w tok tm1 w1 now w2,
  get_token tm w = (ok tok, tm1, w1) ->
  tok <> VNone ->
  time w1 = (now, w2) ->
  (now <? expiry tm1 - 60)%float = true ->
  get_token tm1 w1 = (ok tok, tm1, w2).
Proof.
  intros tm w tok tm1 w1 now w2 Hfirst Htok Hnow Hearly.
  pose proof (get_token_returns_stored _ _ _ _ _ Hfirst) as Hstored.
  unfold Geocode.get_token. rewrite Hnow, Hstored.
  rewrite (ltb_not_leb _ _ Hearly).
  destruct tok; try reflexivity. contradiction.
Qed.

(** X21. When [get_token] raises, the expiry is the one before the call.
    The manager itself is unchanged, unless the token endpoint answered a
    [dict] whose lifetime could not be converted: the token of that answer
    is then stored already, under the old expiry. *)
Theorem get_token_failure_keeps_expiry : forall tm w e tm1 w1,
  get_token tm w = (inl e, tm1, w1) ->
  expiry tm1 = expiry tm
  /\ (tm1 = tm
      \/ exists d,
           post_token (snd (time w)) = (ok (VDict d), w1)
           /\ token tm1 = match lookup "access_token" d with
                          | Some t => t
                          | None => VNone
                          end).
Proof.
  intros tm w e tm1 w1. unfold Geocode.get_token.
  destruct (time w) as [now w0]. simpl snd.
  destruct (is_none (token tm) || (expiry tm - 60 <=? now)%float);
    [|discriminate].
  destruct (post_token w0) as [[e0|data] w2].
  - intros [= _ <- _]. auto.
  - destruct (get data "access_token" VNone) as [e0|access] eqn:Haccess.
    + intros [= _ <- _]. auto.
    + destruct (get_dict _ _ _ _ Haccess) as (d & -> & Ha).
      destruct (bind _ _) as [e0|lifetime]; [|discriminate].
      intros [= _ <- <-]. split; [reflexivity|]. right. exists d.
      split; [reflexivity | exact Ha].
Qed.

End GeocodeProperties.

Lemma get_geometry_truthy_witness :
  let w : GeocodeFixture.World := ([1000; 1010]%float, 0%nat) in
  exists d,
    fst (GeocodeFixture.get_geometry "North Farm Lane, Springfield, IL"
           (Geocode.new_token_manager, w))
    = Some (Geocode.VDict d)
    /\ Geocode.truthy (Geocode.VDict d) = true
    /\ exists l, Geocode.lookup "coordinates" d = Some (Geocode.VList l).
Proof.
  intros w.
  destruct (GeocodeFixture.get_geometry "North Farm Lane, Springfield, IL"
              (Geocode.new_token_manager, w)) as [[g|] st'] eqn:H.
  - destruct (get_geometry_truthy GeocodeFixture.float_of_str GeocodeFixture.World
                GeocodeFixture.time GeocodeFixture.post_token
                GeocodeFixture.get_parcel _ _ g st' H) as (d & -> & Ht & Hl).
    exists d. auto.
  - vm_compute in H. discriminate H.
Defined.

Lemma center_xy_zero_is_lost_witness :
  let w : GeocodeFixture.World := ([1000; 1010]%float, 0%nat) in
  fst (GeocodeFixture.get_geometry "Meridian Walk, Greenwich"
         (Geocode.new_token_manager, w)) = None
  /\ fst (GeocodeFixture.get_geometry "North Farm Lane, Springfield, IL"
            (Geocode.new_token_manager, w))
     = Some (Geocode.VDict
               [("type"%string, Geocode.VStr "Point");
                ("coordinates"%string,
                 Geocode.VList [Geocode.VFloat (-89.65); Geocode.VFloat 39.8])]).
Proof.
  intros w. unfold GeocodeFixture.get_geometry. split.
  - rewrite (center_xy_zero_is_lost GeocodeFixture.float_of_str GeocodeFixture.World
               GeocodeFixture.time GeocodeFixture.post_token
               GeocodeFixture.get_parcel
               "Meridian Walk, Greenwich"%string Geocode.new_token_manager w
               _ _ _ _ _ _ _ 0%float 51.48%float
               eq_refl eq_refl eq_refl eq_refl eq_refl eq_refl eq_refl eq_refl
               eq_refl).
    reflexivity.
  - rewrite (center_xy_zero_is_lost GeocodeFixture.float_of_str GeocodeFixture.World
               GeocodeFixture.time GeocodeFixture.post_token
               GeocodeFixture.get_parcel
               "North Farm Lane, Springfield, IL"%string Geocode.new_token_manager w
               _ _ _ _ _ _ _ (-89.65)%float 39.8%float
               eq_refl eq_refl eq_refl eq_refl eq_refl eq_refl eq_refl eq_refl
               eq_refl).
    reflexivity.
Defined.

Lemma token_reused_until_expiry_witness :
  let w : GeocodeFixture.World := ([1000; 4539.5; 4540]%float, 0%nat) in
  let first := GeocodeFixture.get_token Geocode.new_token_manager w in
  fst (fst first) = ok (Geocode.VStr "token-1")
  /\ GeocodeFixture.get_token (snd (fst first)) (snd first)
     = (ok (Geocode.VStr "token-1"), snd (fst first), ([4540]%float, 1%nat)).
Proof.
  intros w first. split; [reflexivity|].
  apply (token_reused_until_expiry GeocodeFixture.float_of_str GeocodeFixture.World
           GeocodeFixture.time GeocodeFixture.post_token
           Geocode.new_token_manager w (Geocode.VStr "token-1")
           (snd (fst first)) (snd first) 4539.5%float ([4540]%float, 1%nat)).
  - reflexivity.
  - discriminate.
  - reflexivity.
  - reflexivity.
Defined.

Lemma get_token_failure_keeps_expiry_witness :
  let tm := {| Geocode.token := Geocode.VStr "old"; Geocode.expiry := 500 |} in
  let post_token (w : nat) : PyResult Geocode.Value * nat :=
    (ok (Geocode.VDict [("access_token"%string, Geocode.VStr "new");
                        ("expiresIn"%string, Geocode.VNone)]), S w) in
  let time (w : nat) : float * nat := (1000%float, w) in
  exists e,
    Geocode.get_token GeocodeFixture.float_of_str time post_token tm 0%nat
    = (inl e, {| Geocode.token := Geocode.VStr "new"; Geocode.expiry := 500 |}, 1%nat)
    /\ Geocode.expiry {| Geocode.token := Geocode.VStr "new"; Geocode.expiry := 500 |}
       = Geocode.expiry tm.
Proof.
  intros tm post_token time. eexists. split; [reflexivity|].
  apply (get_token_failure_keeps_expiry GeocodeFixture.float_of_str nat
           time post_token tm 0%nat _ _ 1%nat eq_refl).
Defined.

(* ================================================================= *)
(** ** Properties of the summarizers *)

Section SummarizerProperties.

Import Summarizer.

Lemma append_assoc : forall a b c : string,
  ((a ++ b) ++ c)%string = (a ++ (b ++ c))%string.
Proof. induction a as [|x a IH]; intros b c; simpl; [reflexivity | rewrite IH; reflexivity]. Qed.

Lemma append_empty_r : forall s : string, (s ++ "")%string = s.
Proof. induction s as [|c s IH]; simpl; [reflexivity | rewrite IH; reflexivity]. Qed.

Lemma concat_empty_app : forall (l : list string) (s : string),
  String.concat "" (l ++ [s]) = (String.concat "" l ++ s)%string.
Proof.
  induction l as [|a l IH]; intros s.
  - reflexivity.
  - destruct l as [|b l].
    + reflexivity.
    + change (String.concat "" ((a :: b :: l) ++ [s]))
        with (a ++ String.concat "" ((b :: l) ++ [s]))%string.
      rewrite IH.
      change (String.concat "" (a :: b :: l))
        with (a ++ String.concat "" (b :: l))%string.
      rewrite append_assoc. reflexivity.
Qed.

Lemma has_break_nonempty : forall buffer,
  has_break buffer = true -> buffer <> ""%string.
Proof. intros buffer H ->. discriminate H. Qed.

Lemma stream_loop_spec : forall chunks full_content buffer sent,
  Forall (fun m => m <> ""%string) sent ->
  has_break buffer = false ->
  let '(full_content', buffer', sent') :=
    stream_loop chunks full_content buffer sent in
  full_content' = (full_content ++ delta_text chunks)%string
  /\ (String.concat "" sent' ++ buffer')%string
     = (String.concat "" sent ++ buffer ++ delta_text chunks)%string
  /\ Forall (fun m => m <> ""%string) sent'
  /\ has_break buffer' = false.
Proof.
  induction chunks as [|[text|type] rest IH]; intros full buffer sent Hsent Hbuf;
    cbn [stream_loop delta_text].
  - rewrite !append_empty_r. auto.
  - destruct (has_break (buffer ++ text)) eqn:Hbreak.
    + assert (Hsent' : Forall (fun m => m <> ""%string)
                         (sent ++ [(buffer ++ text)%string])).
      { apply Forall_app. split; [exact Hsent|].
        constructor; [exact (has_break_nonempty _ Hbreak) | constructor]. }
      specialize (IH (full ++ text)%string ""%string _ Hsent' eq_refl).
      destruct (stream_loop rest (full ++ text) "" (sent ++ [(buffer ++ text)%string]))
        as [[full' buffer'] sent'].
      destruct IH as (Hfull & Hcat & Hne & Hb).
      split; [rewrite Hfull, append_assoc; reflexivity|].
      split; [|split; [exact Hne | exact Hb]].
      rewrite Hcat, concat_empty_app. cbn [append].
      rewrite !append_assoc. reflexivity.
    + specialize (IH (full ++ text)%string (buffer ++ text)%string sent Hsent Hbreak).
      destruct (stream_loop rest (full ++ text) (buffer ++ text) sent)
        as [[full' buffer'] sent'].
      destruct IH as (Hfull & Hcat & Hne & Hb).
      split; [rewrite Hfull, append_assoc; reflexivity|].
      split; [|split; [exact Hne | exact Hb]].
      rewrite Hcat, !append_assoc. reflexivity.
  - apply IH; assumption.
Qed.

Lemma same_codes_length : forall l1 l2,
  same_codes l1 l2 = true -> List.length l1 = List.length l2.
Proof.
  induction l1 as [|a l1 IH]; intros [|b l2] H; try discriminate H; auto.
  simpl in H. apply andb_true_iff in H as [_ H]. simpl. f_equal. auto.
Qed.

(** X22. With a client at hand, [_stream_response] forwards the text of
    the stream in order, without loss or repetition and never as an empty
    message: when the stream ends normally the messages sent concatenate to
    the text of all deltas, and the value returned is that text stripped;
    when the stream ends in an exception, the exception is raised, and what
    was sent is the text short of a last piece without space or
    punctuation, which is dropped. *)
Theorem stream_response_forwards_the_text : forall chunks failure,
  let text := delta_text chunks in
  let sent := snd (_stream_response (ok tt) chunks failure) in
  Forall (fun m => m <> ""%string) sent
  /\ match failure with
     | None =>
         fst (_stream_response (ok tt) chunks failure) = ok (strip text)
         /\ String.concat "" sent = text
     | Some e =>
         fst (_stream_response (ok tt) chunks failure) = inl e
         /\ exists dropped,
              text = (String.concat "" sent ++ dropped)%string
              /\ has_break dropped = false
     end.
Proof.
  intros chunks failure text sent. subst sent. unfold _stream_response, ok.
  pose proof (stream_loop_spec chunks ""%string ""%string []
                (Forall_nil _) eq_refl) as H.
  destruct (stream_loop chunks "" "" []) as [[full buffer] sent].
  cbn [String.concat append] in H. destruct H as (Hfull & Hcat & Hne & Hb).
  fold text in Hfull, Hcat. subst full.
  destruct failure as [e|]; cbn [fst snd].
  - split; [exact Hne|]. split; [reflexivity|]. exists buffer. auto.
  - destruct buffer as [|c buffer]; cbn [truthy_str].
    + rewrite append_empty_r in Hcat. auto.
    + split; [apply Forall_app; split; [exact Hne|]; repeat constructor; discriminate|].
      split; [reflexivity|]. rewrite concat_empty_app. exact Hcat.
Qed.

(** X23. The handlers choose the section by comparing the report type with
    "EDR" as it is, the factory by comparing it in upper case. So the
    factory has a summarizer for the section the handlers ask for exactly
    when the report type is "EDR" itself or is "ERIS" in any mix of cases;
    a report type such as "edr" makes every request for a section raise
    [ValueError]. The chat summarizer, asked for with an empty report
    type, is always there. *)
Theorem summarizer_for_the_section_asked : forall report_type,
  let subject_section := if Testing.is_edr report_type then "5.2.1" else "5.2.3" in
  let surrounding_section := Testing.surrounding_section_of (Some report_type) in
  ((exists summarizer, get_summarizer report_type subject_section = ok summarizer)
   <-> report_type = "EDR"%string \/ upper_is report_type "ERIS" = true)
  /\ ((exists summarizer, get_summarizer report_type surrounding_section = ok summarizer)
      <-> report_type = "EDR"%string \/ upper_is report_type "ERIS" = true)
  /\ get_summarizer "" "chat" = ok IntelligentChatSummarizer.
Proof.
  intros rt subject_section surrounding_section.
  subst subject_section surrounding_section.
  unfold Testing.surrounding_section_of, Testing.is_edr_opt, Testing.is_edr.
  destruct (String.eqb rt "EDR") eqn:Hedr.
  - apply String.eqb_eq in Hedr. subst rt.
    repeat split; try (intros _; eauto); try (left; reflexivity);
      eexists; reflexivity.
  - assert (Hne : rt <> "EDR"%string).
    { intros ->. discriminate Hedr. }
    unfold get_summarizer.
    destruct (upper_is rt "EDR") eqn:Hup.
    + assert (Heris : upper_is rt "ERIS" = false).
      { unfold upper_is in *.
        destruct (same_codes (upper rt) (code_points "ERIS")) eqn:H; [|reflexivity].
        apply same_codes_length in Hup. apply same_codes_length in H.
        rewrite Hup in H. discriminate H. }
      cbn [String.eqb Ascii.eqb Bool.eqb].
      repeat split; try reflexivity.
      * intros [s Hs]. discriminate Hs.
      * intros [H|H]; [contradiction | rewrite Heris in H; discriminate H].
      * intros [s Hs]. discriminate Hs.
      * intros [H|H]; [contradiction | rewrite Heris in H; discriminate H].
    + destruct (upper_is rt "ERIS") eqn:Heris.
      * cbn [String.eqb Ascii.eqb Bool.eqb].
        repeat split; try reflexivity; try (intros _; eauto); eauto.
      * cbn [String.eqb Ascii.eqb Bool.eqb].
        repeat split; try reflexivity.
        -- intros [s Hs]. discriminate Hs.
        -- intros [H|H]; [contradiction | discriminate H].
        -- intros [s Hs]. discriminate Hs.
        -- intros [H|H]; [contradiction | discriminate H].
Qed.

End SummarizerProperties.

(* ================================================================= *)
(** ** The distance calculator over the geocoding service *)

Section PreciselyCalculator.

Import Geocode.

Variable Geom : Type.
Variable shape : Value -> PyResult Geom.
Variable nearest_points : Geom -> Geom -> PyResult (Geom * Geom).
Variable representative_point : Geom -> PyResult Geom.
Variable point_x point_y : Geom -> PyResult float.
Variable Inverse : float -> float -> float -> float -> Distance.GeodesicDict.
Variable float_of_str : string -> PyResult float.
Variable World : Type.
Variable time : World -> float * World.
Variable post_token : World -> PyResult Value * World.
Variable get_parcel : string -> Value -> World -> PyResult Value * World.

(** [PreciselyDistanceCalculator] with its default service,
    [PreciselyGeocodeService]. *)
Local Abbreviation calculate_distances :=
  (Distance.calculate_distances shape nearest_points representative_point
     point_x point_y Inverse
     (Geocode.get_geometry float_of_str time post_token get_parcel)).

(** X24. A failure of the token endpoint surfaces as a failure to geocode
    the subject: when a token has to be requested and the request raises,
    [calculate_distances] raises [RuntimeError] "Could not geocode subject
    address: ..." whatever the addresses are, the exception of the endpoint
    is swallowed, no parcel is requested and the token manager is left as
    it was. *)
Theorem token_failure_fails_the_batch :
  forall subject_address surrounding_addresses tm w now w1 e w2,
    time w = (now, w1) ->
    is_none (token tm) || (expiry tm - 60 <=? now)%float = true ->
    post_token w1 = (inl e, w2) ->
    calculate_distances subject_address surrounding_addresses (tm, w)
    = (raise "RuntimeError"
         ("Could not geocode subject address: " ++ subject_address), (tm, w2)).
Proof.
  intros subject addresses tm w now w1 e w2 Hnow Hdue Hpost.
  unfold Distance.calculate_distances, Geocode.get_geometry, Geocode.get_token.
  rewrite Hnow, Hdue, Hpost. reflexivity.
Qed.

End PreciselyCalculator.

Lemma token_failure_fails_the_batch_witness :
  let post_token (w : nat) : PyResult Geocode.Value * nat :=
    (raise "HTTPError" "401 Client Error: Unauthorized", S w) in
  let time (w : nat) : float * nat := (1000%float, w) in
  Distance.calculate_distances GeocodeFixture.shape Fixture.nearest_points
    Fixture.representative_point Fixture.point_x Fixture.point_y Fixture.Inverse
    (Geocode.get_geometry GeocodeFixture.float_of_str time post_token
       (fun address bearer w => (ok Geocode.VNone, w)))
    "1 Subject Road, Springfield, IL" ["North Farm Lane, Springfield, IL"%string]
    (Geocode.new_token_manager, 0%nat)
  = (raise "RuntimeError"
       "Could not geocode subject address: 1 Subject Road, Springfield, IL",
     (Geocode.new_token_manager, 1%nat)).
Proof.
  intros post_token time.
  apply (token_failure_fails_the_batch Fixture.Geom GeocodeFixture.shape
           Fixture.nearest_points Fixture.representative_point
           Fixture.point_x Fixture.point_y Fixture.Inverse
           GeocodeFixture.float_of_str nat time post_token
           (fun address bearer w => (ok Geocode.VNone, w))
           "1 Subject Road, Springfield, IL"%string
           ["North Farm Lane, Springfield, IL"%string]
           Geocode.new_token_manager 0%nat 1000%float 0%nat
           (Raise "HTTPError" "401 Client Error: Unauthorized") 1%nat);
    reflexivity.
Defined.
